(** * Storefront renderer: a shallow embedding of the request pipeline

    The development follows the TypeScript/JavaScript sources of the
    storefront renderer: the Liquid filter [handleize] and [renderPage]
    (services/renderer-service.ts), the route resolver [resolveRoute]
    (routes/storefront.ts), the tenant, theme and product services with
    their Redis / node-cache / PostgreSQL / S3 collaborators, the HTTP
    layer of the storefront endpoint, and the page-builder block
    renderer [renderBlock] of server.js.

    JavaScript values are embedded as a small tree type [JsValue];
    promises that reject and functions that throw return [Threw];
    the process-wide clients (Redis, node-cache, pg pool, S3) are threaded
    explicitly as a [World]. *)

From Stdlib Require Import Ascii String.
From stdpp Require Import base option list strings gmap pretty.

Local Open Scope string_scope.
Local Open Scope Z_scope.

(** String concatenation unfolds on a literal left operand. *)
Arguments String.append !s1 s2 : simpl nomatch.

(** ** Characters and strings

    JavaScript strings are modelled by [string]; a character is an 8-bit
    [ascii].  The double quote is written [dq]. *)

Definition dq : string := String (ascii_of_nat 34) EmptyString.

Definition code (c : ascii) : nat := nat_of_ascii c.

Definition in_range (lo hi : nat) (c : ascii) : bool :=
  (Nat.leb lo (code c)) && (Nat.leb (code c) hi).

Definition is_lower (c : ascii) : bool := in_range 97 122 c.
Definition is_upper (c : ascii) : bool := in_range 65 90 c.
Definition is_digit (c : ascii) : bool := in_range 48 57 c.
Definition is_hyphen (c : ascii) : bool := Nat.eqb (code c) 45.

(** The character class [[a-z0-9]]. *)
Definition is_alnum (c : ascii) : bool := is_lower c || is_digit c.

(** The character class [[a-z0-9-]] of the route patterns. *)
Definition is_handle_char (c : ascii) : bool := is_alnum c || is_hyphen c.

Fixpoint forallb_string (p : ascii -> bool) (s : string) : bool :=
  match s with
  | EmptyString => true
  | String c r => p c && forallb_string p r
  end.

Fixpoint filter_string (p : ascii -> bool) (s : string) : string :=
  match s with
  | EmptyString => EmptyString
  | String c r => if p c then String c (filter_string p r) else filter_string p r
  end.

Fixpoint strip_prefix (p s : string) : option string :=
  match p, s with
  | EmptyString, _ => Some s
  | String a p', String b s' => if Ascii.eqb a b then strip_prefix p' s' else None
  | String _ _, EmptyString => None
  end.

(** [contains needle s]: [needle] occurs in [s] as a substring
    ([String.prototype.includes]). *)
Fixpoint contains (needle s : string) : bool :=
  match strip_prefix needle s with
  | Some _ => true
  | None => match s with
            | EmptyString => false
            | String _ r => contains needle r
            end
  end.

Definition starts_with_hyphen (s : string) : bool :=
  match s with
  | String c _ => is_hyphen c
  | EmptyString => false
  end.

Fixpoint ends_with_hyphen (s : string) : bool :=
  match s with
  | EmptyString => false
  | String c EmptyString => is_hyphen c
  | String _ r => ends_with_hyphen r
  end.

Fixpoint has_double_hyphen (s : string) : bool :=
  match s with
  | String a ((String b _) as r) => (is_hyphen a && is_hyphen b) || has_double_hyphen r
  | _ => false
  end.

(** ** services/renderer-service.ts: the [handleize] filter *)

Module Handleize.

(** [String.prototype.toLowerCase] on the 8-bit characters of the model:
    [A-Z] is mapped to [a-z], every other character is kept (a character
    outside ASCII is a run of bytes above 127). *)
Definition lower_char (c : ascii) : ascii :=
  if is_upper c then ascii_of_nat (code c + 32) else c.

Fixpoint toLowerCase (s : string) : string :=
  match s with
  | EmptyString => EmptyString
  | String c r => String (lower_char c) (toLowerCase r)
  end.

(** [.replace(/[^a-z0-9]+/g, '-')]: every maximal run of characters
    outside [[a-z0-9]] becomes one hyphen.  [in_run] records that the
    previous character belonged to the run being replaced. *)
Fixpoint replace_runs (in_run : bool) (s : string) : string :=
  match s with
  | EmptyString => EmptyString
  | String c r =>
      if is_alnum c then String c (replace_runs false r)
      else if in_run then replace_runs true r
      else String "-" (replace_runs true r)
  end.

Fixpoint drop_last_hyphen (s : string) : string :=
  match s with
  | EmptyString => EmptyString
  | String c EmptyString => if is_hyphen c then EmptyString else s
  | String c r => String c (drop_last_hyphen r)
  end.

(** [.replace(/^-|-$/g, '')]: the global replace removes a hyphen at index
    0 (first alternative) and, scanning on, a hyphen that is the last
    character (second alternative). *)
Definition strip_edges (s : string) : string :=
  drop_last_hyphen
    (match s with
     | String c r => if is_hyphen c then r else s
     | EmptyString => EmptyString
     end).

(** The filter over a given lowercasing, and the filter itself. *)
Definition handleize_with (lower : string -> string) (str : string) : string :=
  strip_edges (replace_runs false (lower str)).

Definition handleize (str : string) : string := handleize_with toLowerCase str.

End Handleize.

Set Warnings "-register-all".

(** ** JavaScript values

    Values as [JSON.parse] and the pg driver produce them.  Numbers are
    the integer-valued ones, each standing for the double of that value
    (every [safe_integer] is one); an object is the list of its own
    properties in insertion order, none of which is a function. *)

Inductive JsValue : Type :=
| JUndefined
| JNull
| JBool (b : bool)
| JNum (n : Z)
| JStr (s : string)
| JArr (items : list JsValue)
| JObj (fields : list (string * JsValue)).

Record JsError : Type := mkError { err_name : string; err_message : string }.

Inductive Result (A : Type) : Type :=
| Ok (a : A)
| Threw (e : JsError).
Arguments Ok {A} a.
Arguments Threw {A} e.

Definition is_ok {A} (r : Result A) : bool :=
  match r with Ok _ => true | Threw _ => false end.

(** [new Error(msg)] and the engine's [TypeError]. *)
Definition Error (msg : string) : JsError := mkError "Error" msg.
Definition TypeError (msg : string) : JsError := mkError "TypeError" msg.
Definition SyntaxError (msg : string) : JsError := mkError "SyntaxError" msg.

(** ToBoolean. *)
Definition truthy (v : JsValue) : bool :=
  match v with
  | JUndefined | JNull => false
  | JBool b => b
  | JNum n => negb (n =? 0)
  | JStr s => negb (String.eqb s "")
  | JArr _ | JObj _ => true
  end.

(** [a || b] on values. *)
Definition js_or (a b : JsValue) : JsValue := if truthy a then a else b.

Fixpoint join (sep : string) (l : list string) : string :=
  match l with
  | [] => ""
  | [x] => x
  | x :: r => x +:+ sep +:+ join sep r
  end.


(** What ToString prints, as a template literal [`${v}`] applies it, for
    the values it converts without a failure and in decimal notation,
    the [printable] ones.  The conversion with its failure is [ToString]
    below. *)
Fixpoint toString (v : JsValue) : string :=
  match v with
  | JUndefined => "undefined"
  | JNull => "null"
  | JBool true => "true"
  | JBool false => "false"
  | JNum n => pretty n
  | JStr s => s
  | JArr items =>
      join "," (List.map (fun x => match x with
                                   | JUndefined | JNull => ""
                                   | _ => toString x
                                   end) items)
  | JObj _ => "[object Object]"
  end.

Fixpoint assoc (k : string) (fs : list (string * JsValue)) : option JsValue :=
  match fs with
  | [] => None
  | (k', v) :: r => if String.eqb k k' then Some v else assoc k r
  end.

(** [v.k] on a value that is neither [null] nor [undefined], for a key
    written in the program: the own property of an object.  None of the
    keys the program writes names a member of a built-in prototype; the
    one computed key, the template name of [renderPage], is looked up by
    [Renderer.optional_get]. *)
Definition getProp (v : JsValue) (k : string) : JsValue :=
  match v with
  | JObj fs => default JUndefined (assoc k fs)
  | _ => JUndefined
  end.

(** Property access that throws on [null] and [undefined]. *)
Definition member (v : JsValue) (k : string) : Result JsValue :=
  match v with
  | JUndefined | JNull =>
      Threw (TypeError ("Cannot read properties of " +:+ toString v))
  | _ => Ok (getProp v k)
  end.

(** [o[k] = v] on a property list: an existing key keeps its position. *)
Fixpoint setProp (k : string) (v : JsValue) (fs : list (string * JsValue))
  : list (string * JsValue) :=
  match fs with
  | [] => [(k, v)]
  | (k', v') :: r => if String.eqb k k' then (k, v) :: r else (k', v') :: setProp k v r
  end.

(** Object spread [{...a, ...b}]. *)
Definition spread (base extra : list (string * JsValue)) : list (string * JsValue) :=
  fold_left (fun acc kv => setProp (fst kv) (snd kv) acc) extra base.

Definition own_fields (v : JsValue) : list (string * JsValue) :=
  match v with JObj fs => fs | _ => [] end.

(** *** JSON.stringify *)

Definition hex_digit (n : nat) : ascii :=
  ascii_of_nat (if Nat.ltb n 10 then 48 + n else 87 + n).

Definition json_escape_char (c : ascii) : string :=
  let n := code c in
  if Nat.eqb n 34 then "\" +:+ dq
  else if Nat.eqb n 92 then "\\"
  else if Nat.eqb n 8 then "\b"
  else if Nat.eqb n 9 then "\t"
  else if Nat.eqb n 10 then "\n"
  else if Nat.eqb n 12 then "\f"
  else if Nat.eqb n 13 then "\r"
  else if Nat.ltb n 32 then
    "\u00" +:+ String (hex_digit (Nat.div n 16)) (String (hex_digit (Nat.modulo n 16)) "")
  else String c "".

Fixpoint json_escape (s : string) : string :=
  match s with
  | EmptyString => EmptyString
  | String c r => json_escape_char c +:+ json_escape r
  end.

Definition json_quote (s : string) : string := dq +:+ json_escape s +:+ dq.

Definition is_undefined (v : JsValue) : bool :=
  match v with JUndefined => true | _ => false end.

(** [JSON.stringify(v)] for a value other than [undefined]: properties
    whose value is [undefined] are left out, [undefined] array elements
    are written [null]. *)
Fixpoint JSON_stringify (v : JsValue) : string :=
  match v with
  | JUndefined | JNull => "null"
  | JBool true => "true"
  | JBool false => "false"
  | JNum n => pretty n
  | JStr s => json_quote s
  | JArr items => "[" +:+ join "," (List.map JSON_stringify items) +:+ "]"
  | JObj fields =>
      "{" +:+ join ","
        ((fix members (fs : list (string * JsValue)) : list string :=
            match fs with
            | [] => []
            | (k, x) :: r =>
                if is_undefined x then members r
                else (json_quote k +:+ ":" +:+ JSON_stringify x) :: members r
            end) fields) +:+ "}"
  end.

(** The value [JSON.parse(JSON.stringify(v))]. *)
Fixpoint json_roundtrip (v : JsValue) : JsValue :=
  match v with
  | JUndefined => JNull
  | JArr items => JArr (List.map json_roundtrip items)
  | JObj fields =>
      JObj ((fix members (fs : list (string * JsValue)) : list (string * JsValue) :=
               match fs with
               | [] => []
               | (k, x) :: r =>
                   if is_undefined x then members r
                   else (k, json_roundtrip x) :: members r
               end) fields)
  | _ => v
  end.

(** [v === 'lit'] against a string literal. *)
Definition is_str (v : JsValue) (lit : string) : bool :=
  match v with JStr s => String.eqb s lit | _ => false end.

(** *** Conversion to a string, with its failure

    [toString] above is what the conversion prints wherever it neither
    fails nor leaves the decimal notation: on the [printable] values.
    The block renderer and [renderPage] convert values that come from
    stored documents as they are, and there the conversion is followed
    with its failure. *)

(** The integers every double holds exactly.  They print in decimal;
    from 1e21 on a number prints in exponent form. *)
Definition safe_integer (n : Z) : bool := Z.abs n <=? 9007199254740991.

(** What ToPrimitive throws for an object that gives no primitive. *)
Definition cannot_convert : JsError :=
  TypeError "Cannot convert object to primitive value".

(** [items.map(f)] for a callback that may throw: the first throw, from
    the left, ends the loop. *)
Section MapResult.
Context {A B : Type}.
Variable f : A -> Result B.

Fixpoint map_result (l : list A) : Result (list B) :=
  match l with
  | [] => Ok []
  | x :: r =>
      match f x with
      | Threw e => Threw e
      | Ok y =>
          match map_result r with
          | Threw e => Threw e
          | Ok ys => Ok (y :: ys)
          end
      end
  end.

End MapResult.

(** ToString.  The objects of the model come from [JSON.parse] and the
    pg driver, so no property of theirs can be called: an object with a
    property of its own named [toString] hides [Object.prototype.toString]
    behind a value that is no function, [Object.prototype.valueOf] returns
    the object itself, and the conversion throws; every other object
    prints as [[object Object]].  An array prints its elements, [null]
    and [undefined] as nothing, joined by commas. *)
Fixpoint ToString (v : JsValue) : Result string :=
  match v with
  | JObj fields =>
      match assoc "toString" fields with
      | Some _ => Threw cannot_convert
      | None => Ok "[object Object]"
      end
  | JArr items =>
      match map_result (fun x => match x with
                                 | JUndefined | JNull => Ok ""
                                 | _ => ToString x
                                 end) items with
      | Ok printed => Ok (join "," printed)
      | Threw e => Threw e
      end
  | _ => Ok (toString v)
  end.

(** The values ToString prints, and prints as [toString] does: numbers
    are safe integers, no object has a property named [toString], and
    arrays hold such values only. *)
Fixpoint printable (v : JsValue) : bool :=
  match v with
  | JNum n => safe_integer n
  | JArr items => forallb printable items
  | JObj fields => match assoc "toString" fields with Some _ => false | None => true end
  | _ => true
  end.

(** A template literal: its text and its substitutions, from left to
    right.  Each substitution is converted by ToString when its turn
    comes. *)
Inductive Part : Type :=
| Lit (text : string)
| Sub (v : JsValue).

Fixpoint template (parts : list Part) : Result string :=
  match parts with
  | [] => Ok ""
  | Lit text :: rest =>
      match template rest with
      | Ok s => Ok (text +:+ s)
      | Threw e => Threw e
      end
  | Sub v :: rest =>
      match ToString v with
      | Threw e => Threw e
      | Ok printed =>
          match template rest with
          | Ok s => Ok (printed +:+ s)
          | Threw e => Threw e
          end
      end
  end.

(** ** The process-wide services (services/index.ts, config.ts)

    [Env] is what the process is configured with and what lies outside
    it: the configuration values, and the pg pool and S3 client as
    functions from a request to its outcome.  A handle is [None] until
    [initializeServices] has run. *)

(** The statements sent through [pool.query], by the clause structure of
    their text and their parameters. *)
Inductive Query : Type :=
| QTenantByDomain (host : string)
    (* platform.tenants JOIN platform.domain_mapping
       WHERE dm.domain = $1 AND dm.verified = true AND t.status = 'active' *)
| QMainTheme (tenantId : string)
    (* tenant_{id}.themes WHERE role = 'main' LIMIT 1 *)
| QProducts (tenantId : string) (handle collection_id : option JsValue)
            (limit offset : JsValue)
    (* tenant_{id}.products ... WHERE p.status = 'active' [AND p.handle = $i]
       [AND p.id IN (... collection_id = $i)] ... LIMIT $i OFFSET $i+1 *)
| QCollections (tenantId : string) (handle : option JsValue) (limit offset : JsValue).
    (* tenant_{id}.collections WHERE c.published = true [AND c.handle = $i]
       ... LIMIT $i OFFSET $i+1 *)

(** Outcome of [s3.send(new GetObjectCommand ...)] followed by
    [response.Body?.transformToString()]: the body text (or no body), or a
    rejection with the error's [name]. *)
Inductive S3Reply : Type :=
| S3Body (body : option string)
| S3Rejects (name : string).

Record Env : Type := mkEnv {
  keyPrefix : string;            (* config.redis.keyPrefix: REDIS_KEY_PREFIX || 'renderer:' *)
  themesCacheTTL : Z;            (* config.cache.themesCacheTTL *)
  dataCacheTTL : Z;              (* config.cache.dataCacheTTL *)
  bucketName : string;           (* config.s3.bucketName *)
  redisClient : option bool;     (* Some up: initialised; commands reject when not up *)
  dbPool : option (Query -> Result (list JsValue));
  s3Client : option (string -> string -> S3Reply);  (* Bucket, Key *)
  productsService : list (string * string) -> Result JsValue
    (* axios.get(SERVICES.products/api/products?params, timeout 5000):
       the response data for the query parameters, or a rejection *)
}.

(** A string held by Redis.  [JsonText doc] is the text written by
    [JSON.stringify] that parses to [doc]; [RawText s] is any other
    text. *)
Inductive RedisString : Type :=
| JsonText (doc : JsValue)
| RawText (s : string).

(** What mutates: the clock (seconds), the Redis key space (physical key
    to value and expiry time) and the node-cache instance of
    theme-service.ts (value and expiry, [None] when the entry never
    expires). *)
Record World : Type := mkWorld {
  now : Z;
  redisStore : gmap string (RedisString * Z);
  memoryCache : gmap string (JsValue * option Z)
}.

Definition set_redisStore (f : gmap string (RedisString * Z) -> gmap string (RedisString * Z))
  (w : World) : World :=
  mkWorld (now w) (f (redisStore w)) (memoryCache w).

Definition set_memoryCache (f : gmap string (JsValue * option Z) -> gmap string (JsValue * option Z))
  (w : World) : World :=
  mkWorld (now w) (redisStore w) (f (memoryCache w)).

(** Asynchronous, possibly rejecting computations over the world. *)
Definition M (A : Type) : Type := World -> Result A * World.

Definition ret {A} (a : A) : M A := fun w => (Ok a, w).
Definition throw {A} (e : JsError) : M A := fun w => (Threw e, w).
Definition bind {A B} (m : M A) (k : A -> M B) : M B :=
  fun w => match m w with
           | (Ok a, w') => k a w'
           | (Threw e, w') => (Threw e, w')
           end.
Definition lift {A} (r : Result A) : M A := fun w => (r, w).

(** [try { body } catch (e) { handler e }]. *)
Definition try_catch {A} (body : M A) (handler : JsError -> M A) : M A :=
  fun w => match body w with
           | (Ok a, w') => (Ok a, w')
           | (Threw e, w') => handler e w'
           end.

Declare Scope js_scope.
Delimit Scope js_scope with js.
Notation "'let*' x := m 'in' k" := (bind m (fun x => k))
  (at level 10, x name, m at level 100, k at level 200) : js_scope.
Notation "m ;;; k" := (bind m (fun _ => k))
  (at level 100, k at level 200, right associativity) : js_scope.
Local Open Scope js_scope.

Definition getRedisClient (env : Env) : M bool :=
  match redisClient env with
  | Some up => ret up
  | None => throw (Error "Redis client not initialized")
  end.

Definition getDbPool (env : Env) : M (Query -> Result (list JsValue)) :=
  match dbPool env with
  | Some pool => ret pool
  | None => throw (Error "Database pool not initialized")
  end.

Definition getS3Client (env : Env) : M (string -> string -> S3Reply) :=
  match s3Client env with
  | Some s3 => ret s3
  | None => throw (Error "S3 client not initialized")
  end.

(** *** The ioredis client

    The client is created with [keyPrefix: config.redis.keyPrefix]:
    ioredis prepends the prefix to the key arguments of a command
    ([get], [setex], [del]); the pattern of [keys] is not a key argument
    and the names in its reply are the physical ones. *)

Module Redis.

Definition connection_lost : JsError := mkError "Error" "Connection is closed.".

(** An entry is visible until its expiry time; [SETEX] refuses a
    non-positive number of seconds. *)
Definition live (w : World) (entry : RedisString * Z) : bool := now w <? snd entry.

Definition get (env : Env) (up : bool) (key : string) : M (option RedisString) :=
  fun w =>
    if up then
      match redisStore w !! (keyPrefix env +:+ key) with
      | Some entry => if live w entry then (Ok (Some (fst entry)), w) else (Ok None, w)
      | None => (Ok None, w)
      end
    else (Threw connection_lost, w).

Definition setex (env : Env) (up : bool) (key : string) (seconds : Z) (value : RedisString)
  : M unit :=
  fun w =>
    if up then
      if 0 <? seconds
      then (Ok tt, set_redisStore (insert (keyPrefix env +:+ key) (value, now w + seconds)) w)
      else (Threw (mkError "ReplyError" "ERR invalid expire time in 'setex' command"), w)
    else (Threw connection_lost, w).

Definition del (env : Env) (up : bool) (keys : list string) : M unit :=
  fun w =>
    if up then
      (Ok tt, set_redisStore
                (fun store => fold_right (fun k acc => delete (keyPrefix env +:+ k) acc) store keys) w)
    else (Threw connection_lost, w).

(** Glob patterns of the [KEYS] command. *)
Inductive GlobTok : Type :=
| GStar
| GAny
| GLit (c : ascii)
| GClass (negated : bool) (ranges : list (ascii * ascii)).

Inductive GlobMode : Type :=
| Plain
| Escaped                                   (* after a backslash *)
| ClassOpen (negated : bool) (acc : list (ascii * ascii))       (* inside [...] *)
| ClassEscaped (negated : bool) (acc : list (ascii * ascii))
| ClassFrom (negated : bool) (acc : list (ascii * ascii)) (lo : ascii)
| ClassDash (negated : bool) (acc : list (ascii * ascii)) (lo : ascii).

Fixpoint tokens (mode : GlobMode) (p : string) : list GlobTok :=
  match p with
  | EmptyString =>
      match mode with
      | Plain => []
      | Escaped => [GLit "\"%char]
      | ClassOpen neg acc | ClassEscaped neg acc => [GClass neg acc]
      | ClassFrom neg acc lo => [GClass neg ((lo, lo) :: acc)]
      | ClassDash neg acc lo => [GClass neg (("-"%char, "-"%char) :: (lo, lo) :: acc)]
      end
  | String c r =>
      match mode with
      | Plain =>
          if Ascii.eqb c "*" then GStar :: tokens Plain r
          else if Ascii.eqb c "?" then GAny :: tokens Plain r
          else if Ascii.eqb c "\" then tokens Escaped r
          else if Ascii.eqb c "[" then
            match r with
            | String "^"%char r' => tokens (ClassOpen true []) r'
            | _ => tokens (ClassOpen false []) r
            end
          else GLit c :: tokens Plain r
      | Escaped => GLit c :: tokens Plain r
      | ClassOpen neg acc =>
          if Ascii.eqb c "]" then GClass neg acc :: tokens Plain r
          else if Ascii.eqb c "\" then tokens (ClassEscaped neg acc) r
          else tokens (ClassFrom neg acc c) r
      | ClassEscaped neg acc => tokens (ClassOpen neg ((c, c) :: acc)) r
      | ClassFrom neg acc lo =>
          if Ascii.eqb c "-" then tokens (ClassDash neg acc lo) r
          else if Ascii.eqb c "]" then GClass neg ((lo, lo) :: acc) :: tokens Plain r
          else if Ascii.eqb c "\" then tokens (ClassEscaped neg ((lo, lo) :: acc)) r
          else tokens (ClassFrom neg ((lo, lo) :: acc) c) r
      | ClassDash neg acc lo =>
          if Ascii.eqb c "]"
          then GClass neg (("-"%char, "-"%char) :: (lo, lo) :: acc) :: tokens Plain r
          else tokens (ClassOpen neg ((lo, c) :: acc)) r
      end
  end.

Definition in_class (ranges : list (ascii * ascii)) (c : ascii) : bool :=
  existsb (fun r => let a := code (fst r) in let b := code (snd r) in
                    (Nat.leb (Nat.min a b) (code c)) && (Nat.leb (code c) (Nat.max a b)))
          ranges.

Fixpoint glob (toks : list GlobTok) (s : string) {struct toks} : bool :=
  match toks with
  | [] => String.eqb s ""
  | GStar :: rest =>
      (fix star (s : string) : bool :=
         glob rest s || match s with
                        | EmptyString => false
                        | String _ s' => star s'
                        end) s
  | GAny :: rest =>
      match s with String _ s' => glob rest s' | EmptyString => false end
  | GLit c :: rest =>
      match s with String d s' => Ascii.eqb c d && glob rest s' | EmptyString => false end
  | GClass neg ranges :: rest =>
      match s with
      | String d s' => xorb neg (in_class ranges d) && glob rest s'
      | EmptyString => false
      end
  end.

Definition matches (pattern key : string) : bool := glob (tokens Plain pattern) key.

(** [redis.keys(pattern)]: the live physical keys that match. *)
Definition keys (env : Env) (up : bool) (pattern : string) : M (list string) :=
  fun w =>
    if up then
      (Ok (List.map fst
             (List.filter (fun kv => live w (snd kv) && matches pattern (fst kv))
                          (map_to_list (redisStore w)))), w)
    else (Threw connection_lost, w).

End Redis.

(** [if (cached)] on the reply of [redis.get]. *)
Definition cached_truthy (c : option RedisString) : bool :=
  match c with
  | None => false
  | Some (JsonText _) => true
  | Some (RawText s) => negb (String.eqb s "")
  end.

Definition JSON_parse (c : option RedisString) : Result JsValue :=
  match c with
  | Some (JsonText doc) => Ok doc
  | _ => Threw (SyntaxError "Unexpected token in JSON")
  end.

(** The string [JSON.stringify(v)] as Redis holds it. *)
Definition json_text (v : JsValue) : RedisString := JsonText (json_roundtrip v).

(** *** The node-cache instance [memoryCache] of theme-service.ts
    ([stdTTL: config.cache.themesCacheTTL], [useClones: false]).

    [set] stamps the entry with [now + stdTTL], or with no expiry when
    [stdTTL] is 0; [get] drops an entry whose expiry lies in the past and
    answers [undefined]. *)

Module NodeCache.

Definition get (key : string) : M JsValue :=
  fun w =>
    match memoryCache w !! key with
    | Some (v, Some expiry) =>
        if expiry <? now w
        then (Ok JUndefined, set_memoryCache (delete key) w)
        else (Ok v, w)
    | Some (v, None) => (Ok v, w)
    | None => (Ok JUndefined, w)
    end.

Definition set (env : Env) (key : string) (v : JsValue) : M unit :=
  fun w =>
    let expiry := if themesCacheTTL env =? 0 then None
                  else Some (now w + themesCacheTTL env) in
    (Ok tt, set_memoryCache (insert key (v, expiry)) w).

Definition del (key : string) : M unit :=
  fun w => (Ok tt, set_memoryCache (delete key) w).

End NodeCache.

(** ** services/tenant-service.ts *)

Module TenantService.

Definition cacheKey (host : string) : string := "tenant:host:" +:+ host.

Definition getTenantFromHost (env : Env) (host : string) : M JsValue :=
  let* redis := getRedisClient env in
  try_catch
    (let* cached := Redis.get env redis (cacheKey host) in
     if cached_truthy cached then lift (JSON_parse cached)
     else
       let* pool := getDbPool env in
       let* rows := lift (pool (QTenantByDomain host)) in
       match rows with
       | [] => ret JNull
       | tenant :: _ =>
           Redis.setex env redis (cacheKey host) 3600 (json_text tenant) ;;;
           ret tenant
       end)
    (fun error => throw error).

Definition invalidateTenantCache (env : Env) (host : string) : M unit :=
  let* redis := getRedisClient env in
  Redis.del env redis [cacheKey host].

End TenantService.

(** ** services/theme-service.ts *)

Module ThemeService.

Definition cacheKey (tenantId : string) : string := "theme:" +:+ tenantId.

Definition templateFiles : list string :=
  ["index"; "product"; "collection"; "page"; "cart"; "search"].

(** One iteration of the [for] loop: the [try] stores a non-empty body,
    the [catch] swallows every rejection (it only logs a warning unless
    [error.name] is ['NoSuchKey']). *)
Definition fetchOne (env : Env) (s3 : string -> string -> S3Reply) (s3Key : JsValue)
  (templates : list (string * JsValue)) (templateName : string) : list (string * JsValue) :=
  match s3 (bucketName env)
           (toString s3Key +:+ "/templates/" +:+ templateName +:+ ".liquid") with
  | S3Body (Some body) =>
      if truthy (JStr body) then setProp templateName (JStr body) templates else templates
  | S3Body None => templates
  | S3Rejects _ => templates
  end.

Definition fetchThemeTemplatesFromS3 (env : Env) (s3Key : JsValue)
  : M (list (string * JsValue)) :=
  let* s3 := getS3Client env in
  ret (fold_left (fetchOne env s3 s3Key) templateFiles []).

Definition loadThemeFromStorage (env : Env) (tenantId : string) : M JsValue :=
  let* pool := getDbPool env in
  let* rows := lift (pool (QMainTheme tenantId)) in
  match rows with
  | [] => ret JNull
  | themeData :: _ =>
      let* templates := fetchThemeTemplatesFromS3 env (getProp themeData "s3_key") in
      ret (JObj (spread (own_fields themeData) [("templates", JObj templates)]))
  end.

Definition getThemeForTenant (env : Env) (tenantId : string) : M JsValue :=
  try_catch
    (let* memCached := NodeCache.get (cacheKey tenantId) in
     if truthy memCached then ret memCached
     else
       let* redis := getRedisClient env in
       let* redisCached := Redis.get env redis (cacheKey tenantId) in
       if cached_truthy redisCached then
         let* theme := lift (JSON_parse redisCached) in
         NodeCache.set env (cacheKey tenantId) theme ;;;
         ret theme
       else
         let* theme := loadThemeFromStorage env tenantId in
         if negb (truthy theme) then ret JNull
         else
           NodeCache.set env (cacheKey tenantId) theme ;;;
           Redis.setex env redis (cacheKey tenantId) (themesCacheTTL env) (json_text theme) ;;;
           ret theme)
    (fun error => throw error).

Definition invalidateThemeCache (env : Env) (tenantId : string) : M unit :=
  NodeCache.del (cacheKey tenantId) ;;;
  let* redis := getRedisClient env in
  Redis.del env redis [cacheKey tenantId].

End ThemeService.

(** ** services/product-service.ts *)

Module ProductService.

(** Destructuring with a default: [{ limit = 20 } = options]. *)
Definition with_default (v d : JsValue) : JsValue :=
  if is_undefined v then d else v.

Definition opt_clause (v : JsValue) : option JsValue :=
  if truthy v then Some v else None.

Definition productsKey (tenantId : string) (options : JsValue) : string :=
  "products:" +:+ tenantId +:+ ":" +:+ JSON_stringify options.

Definition collectionsKey (tenantId : string) (options : JsValue) : string :=
  "collections:" +:+ tenantId +:+ ":" +:+ JSON_stringify options.

Definition getProducts (env : Env) (tenantId : string) (options : JsValue) : M JsValue :=
  let handle := getProp options "handle" in
  let collection_id := getProp options "collection_id" in
  let limit := with_default (getProp options "limit") (JNum 20) in
  let offset := with_default (getProp options "offset") (JNum 0) in
  try_catch
    (let* redis := getRedisClient env in
     let* cached := Redis.get env redis (productsKey tenantId options) in
     if cached_truthy cached then lift (JSON_parse cached)
     else
       let* pool := getDbPool env in
       let* rows := lift (pool (QProducts tenantId (opt_clause handle)
                                          (opt_clause collection_id) limit offset)) in
       Redis.setex env redis (productsKey tenantId options) (dataCacheTTL env)
                   (json_text (JArr rows)) ;;;
       ret (JArr rows))
    (fun error => throw error).

Definition getCollections (env : Env) (tenantId : string) (options : JsValue) : M JsValue :=
  let handle := getProp options "handle" in
  let limit := with_default (getProp options "limit") (JNum 20) in
  let offset := with_default (getProp options "offset") (JNum 0) in
  try_catch
    (let* redis := getRedisClient env in
     let* cached := Redis.get env redis (collectionsKey tenantId options) in
     if cached_truthy cached then lift (JSON_parse cached)
     else
       let* pool := getDbPool env in
       let* rows := lift (pool (QCollections tenantId (opt_clause handle) limit offset)) in
       Redis.setex env redis (collectionsKey tenantId options) (dataCacheTTL env)
                   (json_text (JArr rows)) ;;;
       ret (JArr rows))
    (fun error => throw error).

Definition invalidateProductCache (env : Env) (tenantId : string) : M unit :=
  let* redis := getRedisClient env in
  let pattern := keyPrefix env +:+ "products:" +:+ tenantId +:+ ":*" in
  let* keys := Redis.keys env redis pattern in
  (if Nat.ltb 0 (length keys) then Redis.del env redis keys else ret tt) ;;;
  let collectionPattern := keyPrefix env +:+ "collections:" +:+ tenantId +:+ ":*" in
  let* collectionKeys := Redis.keys env redis collectionPattern in
  (if Nat.ltb 0 (length collectionKeys) then Redis.del env redis collectionKeys else ret tt).

End ProductService.

(** ** services/microservices.ts *)

Module Microservices.

Definition storefrontKey (tenantId : string) (options : JsValue) : string :=
  "storefront:products:" +:+ tenantId +:+ ":" +:+ JSON_stringify options.

Definition request_params (tenantId : string) (options : JsValue) : list (string * string) :=
  [("tenant_id", tenantId); ("status", "active");
   ("limit", toString (js_or (getProp options "limit") (JNum 20)));
   ("offset", toString (js_or (getProp options "offset") (JNum 0)))]
  ++ (if truthy (getProp options "handle")
      then [("handle", toString (getProp options "handle"))] else [])
  ++ (if truthy (getProp options "search")
      then [("search", toString (getProp options "search"))] else []).

Definition getProductsFromService (env : Env) (tenantId : string) (options : JsValue)
  : M JsValue :=
  try_catch
    (let* redis := getRedisClient env in
     let* cached := Redis.get env redis (storefrontKey tenantId options) in
     if cached_truthy cached then lift (JSON_parse cached)
     else
       let* data := lift (productsService env (request_params tenantId options)) in
       Redis.setex env redis (storefrontKey tenantId options) 120 (json_text data) ;;;
       let* logged_count := lift (member data "products") in   (* data.products?.length *)
       ret data)
    (fun error => ret (JObj [("products", JArr []); ("total", JNum 0)])).

End Microservices.

(** ** routes/storefront.ts: the route resolver *)

Module Storefront.

Record RouteData : Type := mkRoute {
  rd_type : string;
  rd_template : JsValue;
  rd_data : JsValue
}.

(** [path.match(/^\/prefix\/([a-z0-9-]+)$/)] for a literal [prefix]
    (written with its slashes): the captured handle, if the path
    matches. *)
Definition match_handle (prefix path : string) : option string :=
  match strip_prefix prefix path with
  | Some rest =>
      if negb (String.eqb rest "") && forallb_string is_handle_char rest
      then Some rest else None
  | None => None
  end.

(** [v[0]]. *)
Definition index0 (v : JsValue) : Result JsValue :=
  match v with
  | JUndefined | JNull =>
      Threw (TypeError ("Cannot read properties of " +:+ toString v))
  | JArr items => Ok (List.hd JUndefined items)
  | JStr (String c _) => Ok (JStr (String c ""))
  | JObj _ => Ok (getProp v "0")
  | _ => Ok JUndefined
  end.

Definition page_content : string := "<p>Page content here</p>".

Definition resolveRoute (env : Env) (path tenantId : string) : M RouteData :=
  if String.eqb path "/" || String.eqb path "" then
    let* collections :=
      ProductService.getCollections env tenantId (JObj [("limit", JNum 3)]) in
    let* featuredProducts :=
      ProductService.getProducts env tenantId
        (JObj [("featured", JBool true); ("limit", JNum 8)]) in
    ret (mkRoute "home" (JStr "index")
           (JObj [("collections", collections); ("featured_products", featuredProducts)]))
  else
  match match_handle "/products/" path with
  | Some handle =>
      let* products :=
        ProductService.getProducts env tenantId
          (JObj [("handle", JStr handle); ("limit", JNum 1)]) in
      let* product := lift (index0 products) in
      if negb (truthy product) then throw (Error "Product not found")
      else ret (mkRoute "product" (JStr "product") (JObj [("product", product)]))
  | None =>
  match match_handle "/collections/" path with
  | Some handle =>
      let* collections :=
        ProductService.getCollections env tenantId
          (JObj [("handle", JStr handle); ("limit", JNum 1)]) in
      let* collection := lift (index0 collections) in
      if negb (truthy collection) then throw (Error "Collection not found")
      else
        let* products :=
          ProductService.getProducts env tenantId
            (JObj [("collection_id", getProp collection "id")]) in
        ret (mkRoute "collection" (JStr "collection")
               (JObj [("collection", collection); ("products", products)]))
  | None =>
  match match_handle "/pages/" path with
  | Some handle =>
      (* TODO in the source: fetch page content from page-service *)
      ret (mkRoute "page" (JStr "page")
             (JObj [("page", JObj [("title", JStr handle);
                                   ("content", JStr page_content)])]))
  | None => throw (Error "Page not found")
  end end end.

End Storefront.

(** ** services/renderer-service.ts: [renderPage] *)

Module Renderer.

Record RenderContext : Type := mkContext {
  ctx_tenant : JsValue;
  ctx_path : string;
  ctx_query : JsValue
}.

(** What [theme.templates?.[name]] finds: a stored value ([undefined]
    when there is none), or a member that every object inherits from
    [Object.prototype] (a function, or the prototype itself). *)
Inductive TemplateSource : Type :=
| Stored (source : JsValue)
| Inherited (name : string).

(** [if (templateSource)]: an inherited member is an object. *)
Definition source_truthy (s : TemplateSource) : bool :=
  match s with
  | Stored source => truthy source
  | Inherited _ => true
  end.

(** [liquid.parseAndRender(source, scope)]: the template engine, given
    to [renderPage] as its first argument. *)
Definition Liquid : Type := TemplateSource -> list (string * JsValue) -> Result string.

Definition rbind {A B} (r : Result A) (k : A -> Result B) : Result B :=
  match r with Ok a => k a | Threw e => Threw e end.

(** The property names of [Object.prototype]. *)
Definition object_prototype_members : list string :=
  ["constructor"; "__defineGetter__"; "__defineSetter__"; "hasOwnProperty";
   "__lookupGetter__"; "__lookupSetter__"; "isPrototypeOf"; "propertyIsEnumerable";
   "toString"; "valueOf"; "__proto__"; "toLocaleString"].

(** [templates[name]] on the template map of a theme, which is a
    [Record<string, string>]: the value stored under the name, else what
    the object inherits.  (Of a string, an array, a number or a boolean
    in the place of the map, the indices, the length and the members of
    their prototypes are not followed.) *)
Definition optional_get (templates : JsValue) (name : string) : TemplateSource :=
  match templates with
  | JObj fields =>
      match assoc name fields with
      | Some source => Stored source
      | None =>
          if existsb (String.eqb name) object_prototype_members
          then Inherited name
          else Stored JUndefined
      end
  | _ => Stored JUndefined
  end.

Definition templateName_of (routeData : Storefront.RouteData) : JsValue :=
  js_or (Storefront.rd_template routeData) (JStr "index").

(** [new Error(`Template ${templateName} not found`)]. *)
Definition not_found (templateName : JsValue) : Result JsError :=
  rbind (template [Lit "Template "; Sub templateName; Lit " not found"])
        (fun message => Ok (Error message)).

Definition renderPage (liquid : Liquid) (theme : JsValue)
  (routeData : Storefront.RouteData) (context : RenderContext) : Result string :=
  let templateName := templateName_of routeData in
  rbind (member theme "templates") (fun templates =>
  rbind (match templates with
         | JUndefined | JNull => Ok (Stored JUndefined)   (* ?. : the key is not converted *)
         | _ => rbind (ToString templateName) (fun name => Ok (optional_get templates name))
         end) (fun templateSource =>
  if negb (source_truthy templateSource) then
    rbind (not_found templateName) (fun error => Threw error)
  else
    rbind (member (ctx_tenant context) "name") (fun shop_name =>
    let tenant := ctx_tenant context in
    rbind (if truthy (getProp tenant "custom_domain")
           then Ok (getProp tenant "custom_domain")
           else rbind (ToString (getProp tenant "tenant_id"))
                      (fun id => Ok (JStr (id +:+ ".mystore.com")))) (fun host =>
    rbind (template [Lit "https://"; Sub host]) (fun shop_url =>
    let request := JObj [("path", JStr (ctx_path context)); ("query", ctx_query context)] in
    let templateData :=
      spread (own_fields (Storefront.rd_data routeData))
        [("shop", JObj [("name", shop_name); ("url", JStr shop_url)]);
         ("request", request);
         ("settings", js_or (getProp theme "settings") (JObj []));
         ("template", templateName);
         ("current_page", JStr (ctx_path context));
         ("canonical_url", JStr (ctx_path context))] in
    rbind (liquid templateSource templateData) (fun html =>
    let layout := optional_get templates "layout" in
    if source_truthy layout then
      liquid layout (spread templateData [("content_for_layout", JStr html)])
    else Ok html)))))).

End Renderer.

(** ** Page-builder documents: content blocks *)

Record ContentBlock : Type := mkBlock {
  block_type : JsValue;
  block_id : JsValue;
  block_config : option (list (string * JsValue))   (* the configuration map, if any *)
}.

(** ** server.js with the page routes: [renderBlock] over four block types

    (The server.js with the preview route declares a [renderBlock] over
    six block types that awaits a query inside a function that is not
    [async]: that file is no program, and is not followed here.) *)

Module PageServer.

Definition renderBlock (block : ContentBlock) : Result string :=
  let c := default [] (block_config block) in      (* block.config || {} *)
  let cfg := fun k : string => getProp (JObj c) k in
  if is_str (block_type block) "hero" then
    template
      ([Lit ("
        <div style=" +:+ dq +:+ "
          height: ");
       Sub (js_or (cfg "height") (JStr "600px"));
       Lit ";
          background-image: "]
       ++ (if truthy (cfg "backgroundImage")
        then [Lit "url('"; Sub (cfg "backgroundImage"); Lit "')"]
        else [Lit "linear-gradient(135deg, #667eea 0%, #764ba2 100%)"])
       ++ [Lit ";
          background-size: cover;
          background-position: center;
          display: flex;
          align-items: center;
          justify-content: center;
          color: ";
       Sub (js_or (cfg "textColor") (JStr "#fff"));
       Lit (";
          text-align: center;
          padding: 40px;
        " +:+ dq +:+ ">
          <div>
            <h1 style=" +:+ dq +:+ "font-size: 3rem; margin-bottom: 1rem;" +:+ dq +:+ ">");
       Sub (js_or (cfg "title") (JStr "Hero Title"));
       Lit ("</h1>
            <p style=" +:+ dq +:+ "font-size: 1.5rem; margin-bottom: 2rem;" +:+ dq +:+ ">");
       Sub (js_or (cfg "subtitle") (JStr "Subtitle"));
       Lit ("</p>
            <a href=" +:+ dq);
       Sub (js_or (cfg "buttonLink") (JStr "#"));
       Lit (dq +:+ " style=" +:+ dq +:+ "
              background: ");
       Sub (js_or (cfg "buttonColor") (JStr "#667eea"));
       Lit (";
              color: white;
              padding: 15px 40px;
              text-decoration: none;
              border-radius: 5px;
              font-weight: bold;
              display: inline-block;
            " +:+ dq +:+ ">");
       Sub (js_or (cfg "buttonText") (JStr "Click Here"));
       Lit "</a>
          </div>
        </div>
      "])
  else if is_str (block_type block) "text" then
    template
      ([Lit ("
        <div style=" +:+ dq +:+ "max-width: ");
       Sub (js_or (cfg "maxWidth") (JStr "800px"));
       Lit ("; margin: 40px auto; padding: 0 20px;" +:+ dq +:+ ">
          <h2 style=" +:+ dq +:+ "font-size: ");
       Sub (js_or (cfg "headingSize") (JStr "2rem"));
       Lit "; color: ";
       Sub (js_or (cfg "headingColor") (JStr "#333"));
       Lit ("; margin-bottom: 1rem;" +:+ dq +:+ ">
            ");
       Sub (js_or (cfg "heading") (JStr "Heading"));
       Lit ("
          </h2>
          <div style=" +:+ dq +:+ "font-size: ");
       Sub (js_or (cfg "textSize") (JStr "1rem"));
       Lit "; color: ";
       Sub (js_or (cfg "textColor") (JStr "#666"));
       Lit ("; line-height: 1.6;" +:+ dq +:+ ">
            ");
       Sub (js_or (cfg "content") (JStr "<p>Your content here...</p>"));
       Lit "
          </div>
        </div>
      "])
  else if is_str (block_type block) "image" then
    template
      ([Lit ("
        <div style=" +:+ dq +:+ "text-align: center; margin: 40px auto; max-width: ");
       Sub (js_or (cfg "maxWidth") (JStr "100%"));
       Lit (";" +:+ dq +:+ ">
          <img src=" +:+ dq);
       Sub (js_or (cfg "src") (JStr "https://via.placeholder.com/800x600"));
       Lit (dq +:+ " alt=" +:+ dq);
       Sub (js_or (cfg "alt") (JStr "Image"));
       Lit (dq +:+ " style=" +:+ dq +:+ "border-radius: ");
       Sub (js_or (cfg "borderRadius") (JStr "0px"));
       Lit (";" +:+ dq +:+ " />
          ")]
       ++ (if truthy (cfg "caption")
        then [Lit ("<p style=" +:+ dq +:+ "margin-top: 10px; color: #666; font-size: 0.9rem;" +:+ dq +:+ ">"); Sub (cfg "caption"); Lit "</p>"]
        else [Lit ""])
       ++ [Lit "
        </div>
      "])
  else if is_str (block_type block) "call-to-action" then
    template
      ([Lit ("
        <div style=" +:+ dq +:+ "
          background: ");
       Sub (js_or (cfg "backgroundColor") (JStr "#667eea"));
       Lit ";
          color: ";
       Sub (js_or (cfg "textColor") (JStr "#fff"));
       Lit (";
          padding: 60px 40px;
          text-align: center;
          margin: 40px 0;
        " +:+ dq +:+ ">
          <h2 style=" +:+ dq +:+ "font-size: 2.5rem; margin-bottom: 1rem;" +:+ dq +:+ ">");
       Sub (js_or (cfg "title") (JStr "Ready to get started?"));
       Lit ("</h2>
          <p style=" +:+ dq +:+ "font-size: 1.2rem; margin-bottom: 2rem;" +:+ dq +:+ ">");
       Sub (js_or (cfg "description") (JStr "Description"));
       Lit ("</p>
          <a href=" +:+ dq);
       Sub (js_or (cfg "buttonLink") (JStr "#"));
       Lit (dq +:+ " style=" +:+ dq +:+ "
            background: ");
       Sub (js_or (cfg "buttonColor") (JStr "#fff"));
       Lit ";
            color: "]
       ++ (if is_str (cfg "textColor") "#fff"
        then [Lit "#667eea"]
        else [Lit "#fff"])
       ++ [Lit (";
            padding: 15px 40px;
            text-decoration: none;
            border-radius: 5px;
            font-weight: bold;
            display: inline-block;
          " +:+ dq +:+ ">");
       Sub (js_or (cfg "buttonText") (JStr "Get Started"));
       Lit "</a>
        </div>
      "])
  else
    template
      ([Lit ("<div style=" +:+ dq +:+ "padding: 40px; text-align: center; background: #f5f5f5;" +:+ dq +:+ ">Block: ");
       Sub (block_type block);
       Lit "</div>"]).


End PageServer.

(** ** The process as a state machine *)

(** The world at another time. *)
Definition at_time (t : Z) (w : World) : World :=
  mkWorld t (redisStore w) (memoryCache w).

(** The operations of the services, as the request handlers and the
    administrative callers invoke them. *)
Inductive Call : Type :=
| CallTenant (host : string)
| CallInvalidateTenant (host : string)
| CallTheme (tenantId : string)
| CallInvalidateTheme (tenantId : string)
| CallProducts (tenantId : string) (options : JsValue)
| CallCollections (tenantId : string) (options : JsValue)
| CallInvalidateProducts (tenantId : string)
| CallProductsService (tenantId : string) (options : JsValue)
| CallResolveRoute (path tenantId : string).

(** The world a call leaves behind, whether it returns or throws. *)
Definition run (env : Env) (c : Call) (w : World) : World :=
  match c with
  | CallTenant host => snd (TenantService.getTenantFromHost env host w)
  | CallInvalidateTenant host => snd (TenantService.invalidateTenantCache env host w)
  | CallTheme tenantId => snd (ThemeService.getThemeForTenant env tenantId w)
  | CallInvalidateTheme tenantId => snd (ThemeService.invalidateThemeCache env tenantId w)
  | CallProducts tenantId options => snd (ProductService.getProducts env tenantId options w)
  | CallCollections tenantId options =>
      snd (ProductService.getCollections env tenantId options w)
  | CallInvalidateProducts tenantId =>
      snd (ProductService.invalidateProductCache env tenantId w)
  | CallProductsService tenantId options =>
      snd (Microservices.getProductsFromService env tenantId options w)
  | CallResolveRoute path tenantId => snd (Storefront.resolveRoute env path tenantId w)
  end.

(** The worlds the process can be in against the registry of [env]:
    started with empty caches, after any calls, at any time. *)
Inductive reachable (env : Env) : World -> Prop :=
| reach_start (t : Z) : reachable env (mkWorld t ∅ ∅)
| reach_call (w : World) (c : Call) : reachable env w -> reachable env (run env c w)
| reach_time (w : World) (t : Z) : reachable env w -> reachable env (at_time t w).

(** ** Sample environments *)

Module Sample.

Definition empty_world : World := mkWorld 0 ∅ ∅.

Definition tenant_row : JsValue :=
  JObj [("id", JStr "1"); ("tenant_id", JStr "t1"); ("name", JStr "Demo Shop");
        ("custom_domain", JStr "shop.example.com"); ("status", JStr "active")].

Definition theme_row : JsValue :=
  JObj [("id", JStr "th1"); ("name", JStr "Dawn"); ("version", JStr "1.0.0");
        ("s3_key", JStr "themes/t1/1.0.0"); ("settings", JObj [])].

Definition product_row : JsValue :=
  JObj [("id", JStr "p1"); ("title", JStr "Blue Shirt"); ("handle", JStr "blue-shirt");
        ("status", JStr "active")].

Definition collection_row : JsValue :=
  JObj [("id", JStr "c1"); ("title", JStr "Summer"); ("handle", JStr "summer");
        ("published", JBool true)].

(** A registry with one tenant, one theme, one product and one
    collection. *)
Definition pool (q : Query) : Result (list JsValue) :=
  match q with
  | QTenantByDomain host =>
      if String.eqb host "shop.example.com" then Ok [tenant_row] else Ok []
  | QMainTheme tenantId =>
      if String.eqb tenantId "t1" then Ok [theme_row] else Ok []
  | QProducts tenantId handle _ _ _ =>
      match handle with
      | Some h => if is_str h "blue-shirt" then Ok [product_row] else Ok []
      | None => Ok [product_row]
      end
  | QCollections tenantId handle _ _ =>
      match handle with
      | Some h => if is_str h "summer" then Ok [collection_row] else Ok []
      | None => Ok [collection_row]
      end
  end.

(** The bucket holds [index.liquid]; fetching [product.liquid] is
    refused; every other key is absent. *)
Definition s3 (bucket key : string) : S3Reply :=
  if String.eqb key "themes/t1/1.0.0/templates/index.liquid"
  then S3Body (Some "<h1>{{ shop.name }}</h1>")
  else if String.eqb key "themes/t1/1.0.0/templates/product.liquid"
  then S3Rejects "AccessDenied"
  else S3Rejects "NoSuchKey".

Definition service (params : list (string * string)) : Result JsValue :=
  Ok (JObj [("products", JArr [product_row]); ("total", JNum 1)]).

Definition env : Env :=
  mkEnv "renderer:" 3600 300 "themes" (Some true) (Some pool) (Some s3) service.

(** The same process over a catalog and a bucket that hold nothing. *)
Definition empty_pool (q : Query) : Result (list JsValue) := Ok [].

Definition bare_env : Env :=
  mkEnv "renderer:" 3600 300 "themes" (Some true) (Some empty_pool)
        (Some (fun _ _ => S3Rejects "NoSuchKey")) service.

(** Route data without a template name, a theme with an [index]
    template, one whose [index] source is empty, and an engine that
    renders every template to the same text. *)
Definition untitled_route : Storefront.RouteData :=
  Storefront.mkRoute "home" JUndefined (JObj []).

Definition index_theme : JsValue :=
  JObj [("templates", JObj [("index", JStr "<h1>{{ shop.name }}</h1>")])].

Definition blank_theme : JsValue :=
  JObj [("templates", JObj [("index", JStr "")])].

(** The theme of tenant [t1] as the storage load assembles it. *)
Definition loaded_theme : JsValue :=
  JObj [("id", JStr "th1"); ("name", JStr "Dawn"); ("version", JStr "1.0.0");
        ("s3_key", JStr "themes/t1/1.0.0"); ("settings", JObj []);
        ("templates", JObj [("index", JStr "<h1>{{ shop.name }}</h1>")])].

(** The world after the first theme lookup for [t1]. *)
Definition themed_world : World :=
  snd (ThemeService.getThemeForTenant env "t1" empty_world).

(** The world after tenant [t1]'s products and collections were listed
    with two filter shapes and its products fetched from the products
    service: five cache entries. *)
Definition stock (e : Env) : World :=
  run e (CallProductsService "t1" (JObj [("limit", JNum 12)]))
    (run e (CallCollections "t1" (JObj []))
       (run e (CallCollections "t1" (JObj [("limit", JNum 3)]))
          (run e (CallProducts "t1" (JObj [("handle", JStr "blue-shirt"); ("limit", JNum 1)]))
             (run e (CallProducts "t1" (JObj [])) empty_world)))).

Definition stocked_world : World := stock env.

(** The same process over a Redis client without key prefix.  (config.ts
    replaces an empty REDIS_KEY_PREFIX by ['renderer:'], so this is not a
    process the configuration yields.) *)
Definition plain_env : Env :=
  mkEnv "" 3600 300 "themes" (Some true) (Some pool) (Some s3) service.



(** A process whose Redis, pool and S3 handles are all gone. *)
Definition offline_env : Env :=
  mkEnv "renderer:" 3600 300 "themes" None None None (fun _ => Threw (Error "ECONNREFUSED")).

Definition context : Renderer.RenderContext :=
  Renderer.mkContext tenant_row "/" (JObj []).

Definition liquid : Renderer.Liquid := fun _ _ => Ok "<h1>Demo Shop</h1>".

End Sample.

(** ** Vocabulary of the statements *)

(** A computation writes only keys of a given kind: every entry of the
    store it leaves was there before, or sits under a key of that kind. *)
Definition writes_only (P : string -> Prop) (env : Env) {A : Type} (m : M A) : Prop :=
  forall w pk entry,
    redisStore (snd (m w)) !! pk = Some entry ->
    redisStore w !! pk = Some entry
    \/ exists key, pk = keyPrefix env +:+ key /\ P key.

(** The cache keys of the services: the five key families. *)
Definition has_prefix (p s : string) : bool :=
  match strip_prefix p s with
  | Some _ => true
  | None => false
  end.

Definition service_key (key : string) : bool :=
  has_prefix "tenant:host:" key || has_prefix "theme:" key || has_prefix "products:" key
  || has_prefix "collections:" key || has_prefix "storefront:products:" key.

(** Every key of the store is a prefixed service key. *)
Definition service_keys_only (env : Env) (w : World) : Prop :=
  forall pk, is_Some (redisStore w !! pk) ->
             exists key, pk = keyPrefix env +:+ key /\ service_key key = true.

(** Every cached tenant entry is the first row the registry returns for
    its host. *)
Definition tenant_cache_sound (env : Env) (w : World) : Prop :=
  forall host entry,
    redisStore w !! (keyPrefix env +:+ TenantService.cacheKey host) = Some entry ->
    exists pool tenant rest,
      dbPool env = Some pool
      /\ pool (QTenantByDomain host) = Ok (tenant :: rest)
      /\ fst entry = json_text tenant.

(** The object key of a template file, and what one fetch contributes
    to the bundle: a non-empty body, nothing otherwise. *)
Definition template_key (s3Key : JsValue) (name : string) : string :=
  toString s3Key +:+ "/templates/" +:+ name +:+ ".liquid".

Definition fetched (reply : S3Reply) : option JsValue :=
  match reply with
  | S3Body (Some body) => if String.eqb body "" then None else Some (JStr body)
  | S3Body None => None
  | S3Rejects _ => None
  end.

(** A lookup finds a usable value in the process-local cache, or in the
    distributed one. *)
Definition memory_hit (key : string) (w : World) : bool :=
  match fst (NodeCache.get key w) with
  | Ok v => truthy v
  | Threw _ => false
  end.

Definition redis_hit (env : Env) (key : string) (w : World) : bool :=
  match fst (Redis.get env true key w) with
  | Ok cached => cached_truthy cached
  | Threw _ => false
  end.

(** The failure of [renderPage] for a template name, as printed. *)
Definition not_found_error (name : string) : JsError :=
  Error ("Template " +:+ name +:+ " not found").

(** The source a template map stores under a name, and the template
    maps the type of a theme allows: an object, or nothing. *)
Definition stored_source (templates : JsValue) (name : string) : option JsValue :=
  match templates with
  | JObj fields => assoc name fields
  | _ => None
  end.

Definition template_map (templates : JsValue) : Prop :=
  match templates with
  | JUndefined | JNull | JObj _ => True
  | _ => False
  end.


(** A handle the patterns accept: non-empty, over [[a-z0-9-]]. *)
Definition valid_handle (h : string) : Prop :=
  h <> "" /\ forallb_string is_handle_char h = true.

(** The filter [{ handle, limit: 1 }] of the product and collection
    routes. *)
Definition handle_options (h : string) : JsValue :=
  JObj [("handle", JStr h); ("limit", JNum 1)].

(** The alphanumeric words of a string: [pieces] cuts a string at every
    character outside [[a-z0-9]] (so adjacent separators leave empty
    pieces), [alnum_words] keeps the non-empty pieces, in order. *)
Fixpoint pieces (s : string) : list string :=
  match s with
  | EmptyString => [EmptyString]
  | String c r =>
      if is_alnum c then
        match pieces r with
        | w :: ws => String c w :: ws
        | [] => [String c EmptyString]
        end
      else EmptyString :: pieces r
  end.

Definition nonempty (w : string) : bool := negb (String.eqb w "").

Definition alnum_words (s : string) : list string := List.filter nonempty (pieces s).

Definition first_piece (s : string) : string := List.hd "" (pieces s).

Definition later_words (s : string) : list string :=
  List.filter nonempty (List.tl (pieces s)).

(** A key that is no tenant entry. *)
Definition other_key (key : string) : Prop :=
  forall host, key <> TenantService.cacheKey host.

Definition is_service_key (key : string) : Prop := service_key key = true.

(** ** services/renderer-service.ts: the URL filters *)

Module Filters.

(** [`/products/${handle}`] and [`/collections/${handle}`]. *)
Definition product_url (handle : JsValue) : string := "/products/" +:+ toString handle.

Definition collection_url (handle : JsValue) : string := "/collections/" +:+ toString handle.

End Filters.

(** ** services/microservices.ts: [getProductByHandle] *)

Module ProductLookup.

Definition productKey (tenantId handle : string) : string :=
  "storefront:product:" +:+ tenantId +:+ ":" +:+ handle.

Definition empty_listing : JsValue := JObj [("products", JArr []); ("total", JNum 0)].

Definition getProductByHandle (env : Env) (tenantId handle : string) : M JsValue :=
  try_catch
    (let* redis := getRedisClient env in
     let* cached := Redis.get env redis (productKey tenantId handle) in
     if cached_truthy cached then lift (JSON_parse cached)
     else
       let* result :=
         Microservices.getProductsFromService env tenantId
           (JObj [("handle", JStr handle); ("limit", JNum 1)]) in
       let* products := lift (member result "products") in
       let* first := lift (Storefront.index0 products) in     (* result.products[0] *)
       let product := js_or first JNull in
       (if truthy product
        then Redis.setex env redis (productKey tenantId handle) 300 (json_text product)
        else ret tt) ;;;
       ret product)
    (fun error => ret JNull).

End ProductLookup.

(** ** routes/storefront.ts over the products service: the route resolver *)

Module ServiceRouter.

(** The class [\w] and [toUpperCase] on one character. *)
Definition is_word_char (c : ascii) : bool :=
  is_lower c || is_upper c || is_digit c || Nat.eqb (code c) 95.

Definition upper_char (c : ascii) : ascii :=
  if is_lower c then ascii_of_nat (code c - 32) else c.

(** [.replace(/-/g, ' ')]. *)
Fixpoint hyphens_to_spaces (s : string) : string :=
  match s with
  | EmptyString => EmptyString
  | String c r => String (if is_hyphen c then " "%char else c) (hyphens_to_spaces r)
  end.

(** [.replace(/\b\w/g, l => l.toUpperCase())]: a word character is
    replaced when no word character precedes it. *)
Fixpoint capitalize_words (after_word : bool) (s : string) : string :=
  match s with
  | EmptyString => EmptyString
  | String c r =>
      if is_word_char c
      then String (if after_word then c else upper_char c) (capitalize_words true r)
      else String c (capitalize_words false r)
  end.

Definition title_of (handle : string) : string :=
  capitalize_words false (hyphens_to_spaces handle).

Definition resolveRoute (env : Env) (path tenantId : string) : M Storefront.RouteData :=
  if String.eqb path "/" || String.eqb path "" then
    let* result :=
      Microservices.getProductsFromService env tenantId (JObj [("limit", JNum 12)]) in
    let* products := lift (member result "products") in
    ret (Storefront.mkRoute "home" (JStr "index")
           (JObj [("collections", JArr []); ("featured_products", products)]))
  else
  match Storefront.match_handle "/products/" path with
  | Some handle =>
      let* product := ProductLookup.getProductByHandle env tenantId handle in
      if negb (truthy product) then throw (Error "Product not found")
      else ret (Storefront.mkRoute "product" (JStr "product") (JObj [("product", product)]))
  | None =>
  match Storefront.match_handle "/collections/" path with
  | Some handle =>
      let* result :=
        Microservices.getProductsFromService env tenantId (JObj [("limit", JNum 24)]) in
      let* products := lift (member result "products") in
      ret (Storefront.mkRoute "collection" (JStr "collection")
             (JObj [("collection",
                     JObj [("id", JStr handle); ("title", JStr (title_of handle));
                           ("handle", JStr handle); ("description", JStr "");
                           ("published", JBool true)]);
                    ("products", products)]))
  | None =>
  match Storefront.match_handle "/pages/" path with
  | Some handle =>
      ret (Storefront.mkRoute "page" (JStr "page")
             (JObj [("page", JObj [("title", JStr handle);
                                   ("content", JStr Storefront.page_content)])]))
  | None => throw (Error "Page not found")
  end end end.

End ServiceRouter.

(** ** The HTTP layer: middleware/cache-headers.ts,
    middleware/error-handler.ts and the [GET *] handler of
    routes/storefront.ts

    The response object is followed up to the point where a handler
    hands it to Express with [send] or [json]: the status set by
    [res.status] (200 until then), the headers set through
    [res.setHeader], and the payload.  What Express and the other
    middleware add on their own (Content-Type, ETag, the security
    headers) is not part of it. *)

Module Http.

Inductive Payload : Type :=
| SendText (text : string)      (* res.send(text) *)
| SendJson (value : JsValue).   (* res.json(value) *)

Record Response : Type := mkResponse {
  statusCode : Z;
  headers : list (string * JsValue);   (* by lowercased name, in the order first set *)
  sent : option Payload
}.

Definition fresh_response : Response := mkResponse 200 [] None.

Definition headersSent (res : Response) : bool :=
  match sent res with Some _ => true | None => false end.

Definition headers_sent_error : JsError :=
  Error "Cannot set headers after they are sent to the client".

(** Node refuses a header value that matches [/[^\t\x20-\x7e\x80-\xff]/].
    On the bytes of the model a character above U+00FF is a sequence
    whose first byte is 0xC4 or more, so the accepted bytes are the tab,
    0x20 to 0x7E, and 0x80 to 0xC3. *)
Definition header_char_ok (c : ascii) : bool :=
  Nat.eqb (code c) 9 || in_range 32 126 c || in_range 128 195 c.

(** [res.setHeader(name, value)]: throws once the response is sent, on
    the value [undefined], and on a value whose text has a character
    that is not allowed; otherwise the value is stored under the
    lowercased name. *)
Definition setHeader (name : string) (value : JsValue) (res : Response) : Result Response :=
  if headersSent res then Threw headers_sent_error
  else
    match value with
    | JUndefined =>
        Threw (TypeError ("Invalid value " +:+ dq +:+ "undefined" +:+ dq +:+ " for header "
                          +:+ dq +:+ name +:+ dq))
    | _ =>
        if forallb_string header_char_ok (toString value)
        then Ok (mkResponse (statusCode res)
                   (setProp (Handleize.toLowerCase name) value (headers res)) (sent res))
        else Threw (TypeError ("Invalid character in header content [" +:+ dq +:+ name
                               +:+ dq +:+ "]"))
    end.

Definition getHeader (name : string) (res : Response) : option JsValue :=
  assoc (Handleize.toLowerCase name) (headers res).

(** A piece of handler code working on the response object: the
    response as it leaves it, and the error it threw if it did not run
    to its end. *)
Definition Step : Type := Response -> Response * option JsError.

Definition set (name : string) (value : JsValue) : Step :=
  fun res =>
    match setHeader name value res with
    | Ok res' => (res', None)
    | Threw e => (res, Some e)
    end.

Definition andThen (first second : Step) : Step :=
  fun res =>
    match first res with
    | (res', None) => second res'
    | (res', Some e) => (res', Some e)
    end.

Infix ">>" := andThen (at level 60, right associativity).

(** [res.status(code)] and the two ways of sending. *)
Definition status (code : Z) : Step :=
  fun res => (mkResponse code (headers res) (sent res), None).

Definition deliver (payload : Payload) : Step :=
  fun res =>
    if headersSent res then (res, Some headers_sent_error)
    else (mkResponse (statusCode res) (headers res) (Some payload), None).

Definition send (text : string) : Step := deliver (SendText text).
Definition json (value : JsValue) : Step := deliver (SendJson value).

(** *** middleware/cache-headers.ts *)

Definition setCacheHeaders : Step :=
  set "Cache-Control" (JStr "public, max-age=3600, s-maxage=3600") >>
  set "CDN-Cache-Control" (JStr "max-age=3600") >>
  set "Vary" (JStr "Accept-Encoding").

Definition setNoCacheHeaders : Step :=
  set "Cache-Control" (JStr "private, no-cache, no-store, must-revalidate") >>
  set "Expires" (JStr "0") >>
  set "Pragma" (JStr "no-cache").

(** *** middleware/error-handler.ts

    [appError] is [Some (statusCode, isOperational)] when the error is
    an instance of [AppError]; [stack] is [err.stack]; [development] is
    [process.env.NODE_ENV === 'development'].  When the response has
    been sent the error is passed on and the response is left alone. *)
Definition errorHandler (development : bool) (err : JsError) (appError : option (Z * bool))
  (stack : JsValue) : Step :=
  fun res =>
    if headersSent res then (res, Some err)
    else
      let statusCode := match appError with Some (code, _) => code | None => 500 end in
      let message := js_or (JStr (err_message err)) (JStr "Internal Server Error") in
      let isOperational := match appError with Some (_, op) => op | None => false end in
      let response :=
        JObj (("error", if isOperational then message else JStr "Internal Server Error")
              :: (if development then [("stack", stack)] else [])) in
      (status statusCode >> json response) res.

(** *** routes/storefront.ts: the handler of [router.get('*', ...)]

    The handler text is the same in the catalog-backed and the
    service-backed router; [resolveRoute] is the resolver of the file. *)

(** What the [try] block has worked out when it turns to the response. *)
Inductive Plan : Type :=
| StoreNotFound
| ThemeNotConfigured
| Page (tenant theme : JsValue) (routeData : Storefront.RouteData) (html : string).

Definition prepare (env : Env) (liquid : Renderer.Liquid)
  (resolveRoute : string -> string -> M Storefront.RouteData)
  (host path : string) (query : JsValue) : M Plan :=
  let* tenant := TenantService.getTenantFromHost env host in
  if negb (truthy tenant) then ret StoreNotFound
  else
    let tenantId := toString (getProp tenant "tenant_id") in
    let* theme := ThemeService.getThemeForTenant env tenantId in
    if negb (truthy theme) then ret ThemeNotConfigured
    else
      let* routeData := resolveRoute path tenantId in
      let* html :=
        lift (Renderer.renderPage liquid theme routeData
                (Renderer.mkContext tenant path query)) in
      ret (Page tenant theme routeData html).

(** [renderTime] is [Date.now() - startTime], in milliseconds. *)
Definition respond (renderTime : Z) (plan : Plan) : Step :=
  match plan with
  | StoreNotFound => status 404 >> send "Store not found"
  | ThemeNotConfigured => status 500 >> send "Theme not configured"
  | Page tenant theme routeData html =>
      set "X-Tenant-ID" (getProp tenant "tenant_id") >>
      set "X-Render-Time" (JStr (pretty renderTime +:+ "ms")) >>
      set "X-Theme-Version" (getProp theme "version") >>
      set "Surrogate-Key"
        (JStr ("tenant_" +:+ toString (getProp tenant "tenant_id") +:+ " page_"
               +:+ Storefront.rd_type routeData)) >>
      send html
  end.

(** A request through the route and the error middleware: the
    [setCacheHeaders] middleware, the handler, and [errorHandler] for
    what the handler passes to [next].  No code of the program
    constructs an [AppError]. *)
Definition storefront (env : Env) (liquid : Renderer.Liquid)
  (resolveRoute : string -> string -> M Storefront.RouteData)
  (development : bool) (stack : JsError -> JsValue) (renderTime : Z)
  (host path : string) (query : JsValue) : World -> Response * World :=
  fun w =>
    match setCacheHeaders fresh_response with
    | (res, Some e) => (fst (errorHandler development e None (stack e) res), w)
    | (res, None) =>
        match prepare env liquid resolveRoute host path query w with
        | (Ok plan, w') =>
            match respond renderTime plan res with
            | (res', None) => (res', w')
            | (res', Some e) => (fst (errorHandler development e None (stack e) res'), w')
            end
        | (Threw e, w') => (fst (errorHandler development e None (stack e) res), w')
        end
    end.

End Http.

(** ** Further sample processes and worlds *)

Module Scenario.

(** The world of another process of the same deployment: Redis holds
    the theme of [t1], the process-local cache is empty. *)
Definition redis_only_world : World :=
  mkWorld 0 (redisStore Sample.themed_world) ∅.

(** A process whose catalog answers every product query with a row. *)
Definition full_pool (q : Query) : Result (list JsValue) := Ok [Sample.product_row].

Definition full_env : Env :=
  mkEnv "renderer:" 3600 300 "themes" (Some true) (Some full_pool) (Some Sample.s3)
        Sample.service.

(** A process whose Redis connection is lost while the registry and the
    products service answer. *)
Definition redis_down_env : Env :=
  mkEnv "renderer:" 3600 300 "themes" (Some false) (Some Sample.pool) (Some Sample.s3)
        Sample.service.

(** A process whose products service answers every request with a null
    body. *)
Definition null_env : Env :=
  mkEnv "renderer:" 3600 300 "themes" (Some true) (Some Sample.pool) (Some Sample.s3)
        (fun _ => Ok JNull).

(** Errors without a stack trace. *)
Definition no_stack : JsError -> JsValue := fun _ => JUndefined.

(** A text block whose content is markup. *)
Definition script_block : ContentBlock :=
  mkBlock (JStr "text") (JStr "b3")
    (Some [("heading", JStr "News"); ("content", JStr "<script>alert(1)</script>")]).

(** The sample process configured with cache lifetimes of zero. *)
Definition no_ttl_env : Env :=
  mkEnv "renderer:" 0 0 "themes" (Some true) (Some Sample.pool) (Some Sample.s3)
        Sample.service.

End Scenario.

(** ** Vocabulary of the further statements *)

(** What the route data of a collection page shows as products. *)
Definition listed_products (r : Result Storefront.RouteData) : Result JsValue :=
  match r with
  | Ok routeData => Ok (getProp (Storefront.rd_data routeData) "products")
  | Threw e => Threw e
  end.

(** A computation leaves the clock where it was. *)
Definition keeps_clock {A : Type} (m : M A) : Prop :=
  forall w, now (snd (m w)) = now w.

(** The three headers of [setCacheHeaders], as a reply carries them. *)
Definition publicly_cacheable (res : Http.Response) : Prop :=
  Http.getHeader "Cache-Control" res = Some (JStr "public, max-age=3600, s-maxage=3600")
  /\ Http.getHeader "CDN-Cache-Control" res = Some (JStr "max-age=3600")
  /\ Http.getHeader "Vary" res = Some (JStr "Accept-Encoding").

(** The body [errorHandler] writes for an error that is not
    operational. *)
Definition masked_error (development : bool) (stack : JsValue) : JsValue :=
  JObj (("error", JStr "Internal Server Error")
        :: (if development then [("stack", stack)] else [])).


(** The response after [setCacheHeaders]. *)
Definition cache_marked : Http.Response :=
  Http.mkResponse 200
    [("cache-control", JStr "public, max-age=3600, s-maxage=3600");
     ("cdn-cache-control", JStr "max-age=3600");
     ("vary", JStr "Accept-Encoding")] None.

(** The headers of a response under the names of [setCacheHeaders]. *)
Definition cache_headers (res : Http.Response) : list (option JsValue) :=
  [Http.getHeader "Cache-Control" res; Http.getHeader "CDN-Cache-Control" res;
   Http.getHeader "Vary" res].

(** * Properties *)

(** ** Character classes *)

Lemma alnum_not_hyphen c : is_alnum c = true -> is_hyphen c = false.
Proof.
  unfold is_alnum, is_lower, is_digit, is_hyphen, in_range.
  intros H. apply Nat.eqb_neq. intros E. rewrite E in H. discriminate H.
Qed.

Lemma hyphen_not_alnum c : is_hyphen c = true -> is_alnum c = false.
Proof.
  intros H. destruct (is_alnum c) eqn:E; [|reflexivity].
  apply alnum_not_hyphen in E. congruence.
Qed.

Lemma alnum_handle_char c : is_alnum c = true -> is_handle_char c = true.
Proof. unfold is_handle_char. intros ->. reflexivity. Qed.

(** ** [handleize] *)

Section HandleizeFacts.
Import Handleize.

Lemma replace_runs_class b s :
  forallb_string is_handle_char (replace_runs b s) = true.
Proof.
  revert b. induction s as [|c s IH]; intros b; simpl; [reflexivity|].
  destruct (is_alnum c) eqn:Hc; simpl.
  - rewrite (alnum_handle_char _ Hc). apply IH.
  - destruct b; simpl; [apply IH|]. apply IH.
Qed.

Lemma replace_runs_hyphens b s :
  has_double_hyphen (replace_runs b s) = false /\
  (b = true -> starts_with_hyphen (replace_runs b s) = false).
Proof.
  revert b. induction s as [|c s IH]; intros b; simpl.
  - split; [reflexivity|]. intros _. reflexivity.
  - destruct (is_alnum c) eqn:Hc.
    + destruct (IH false) as [Hd _]. split.
      * simpl. destruct (replace_runs false s) eqn:E; [reflexivity|].
        rewrite (alnum_not_hyphen _ Hc). simpl. exact Hd.
      * intros _. simpl. apply alnum_not_hyphen, Hc.
    + destruct (IH true) as [Hd Hs]. specialize (Hs eq_refl).
      destruct b.
      * split; [exact Hd|]. intros _. exact Hs.
      * split; [|discriminate]. simpl.
        destruct (replace_runs true s) eqn:E; [reflexivity|].
        simpl in Hs. rewrite Hs. simpl. rewrite ?andb_false_r. exact Hd.
Qed.

Lemma replace_runs_alnum b s :
  filter_string is_alnum (replace_runs b s) = filter_string is_alnum s.
Proof.
  revert b. induction s as [|c s IH]; intros b; simpl; [reflexivity|].
  destruct (is_alnum c) eqn:Hc; simpl.
  - rewrite Hc. f_equal. apply IH.
  - destruct b; simpl; apply IH.
Qed.

Lemma drop_last_class s :
  forallb_string is_handle_char s = true ->
  forallb_string is_handle_char (drop_last_hyphen s) = true.
Proof.
  induction s as [|c s IH]; simpl; [trivial|].
  intros H. apply andb_prop in H as [Hc Hs].
  destruct s as [|d s'].
  - destruct (is_hyphen c); simpl; [reflexivity|]. rewrite Hc. reflexivity.
  - change (forallb_string is_handle_char (String c (drop_last_hyphen (String d s'))) = true).
    simpl forallb_string at 1. rewrite Hc. simpl. apply IH, Hs.
Qed.

Lemma drop_last_start s :
  starts_with_hyphen s = false -> starts_with_hyphen (drop_last_hyphen s) = false.
Proof.
  destruct s as [|c [|d s']]; simpl; trivial.
  intros H. rewrite H. exact H.
Qed.

Lemma drop_last_double s :
  has_double_hyphen s = false -> has_double_hyphen (drop_last_hyphen s) = false.
Proof.
  induction s as [|c s IH]; [trivial|].
  destruct s as [|d s'].
  - simpl. destruct (is_hyphen c); reflexivity.
  - intros H. simpl in H. apply orb_false_elim in H as [Hcd Hr].
    change (has_double_hyphen (String c (drop_last_hyphen (String d s'))) = false).
    specialize (IH Hr).
    destruct (drop_last_hyphen (String d s')) as [|e t] eqn:E; [reflexivity|].
    assert (e = d) as ->.
    { destruct s' as [|f s'']; simpl in E.
      - destruct (is_hyphen d); [discriminate|]. congruence.
      - congruence. }
    simpl. simpl in IH. rewrite Hcd. exact IH.
Qed.

Lemma drop_last_end s :
  has_double_hyphen s = false -> ends_with_hyphen (drop_last_hyphen s) = false.
Proof.
  induction s as [|c s IH]; [trivial|].
  destruct s as [|d s'].
  - intros _. simpl. destruct (is_hyphen c) eqn:Hc; simpl; [reflexivity|exact Hc].
  - intros H. simpl in H. apply orb_false_elim in H as [Hcd Hr].
    change (ends_with_hyphen (String c (drop_last_hyphen (String d s'))) = false).
    specialize (IH Hr).
    destruct (drop_last_hyphen (String d s')) as [|e t] eqn:E.
    + destruct s' as [|f s'']; simpl in E.
      * destruct (is_hyphen d) eqn:Hd; [|discriminate].
        simpl. rewrite andb_true_r in Hcd. exact Hcd.
      * discriminate.
    + simpl. simpl in IH. exact IH.
Qed.

Lemma drop_last_alnum s :
  filter_string is_alnum (drop_last_hyphen s) = filter_string is_alnum s.
Proof.
  induction s as [|c s IH]; [reflexivity|].
  destruct s as [|d s'].
  - simpl. destruct (is_hyphen c) eqn:Hc; [|reflexivity].
    simpl. rewrite (hyphen_not_alnum _ Hc). reflexivity.
  - change (filter_string is_alnum (String c (drop_last_hyphen (String d s')))
            = filter_string is_alnum (String c (String d s'))).
    set (X := drop_last_hyphen (String d s')) in *.
    set (Y := String d s') in *.
    simpl. rewrite IH. reflexivity.
Qed.

End HandleizeFacts.

Lemma double_hyphen_tail c s :
  has_double_hyphen (String c s) = false -> has_double_hyphen s = false.
Proof.
  destruct s as [|d s']; [reflexivity|]. simpl.
  intros H. apply orb_false_elim in H as [_ H]. exact H.
Qed.

Lemma strip_edges_spec s :
  forallb_string is_handle_char s = true ->
  has_double_hyphen s = false ->
  forallb_string is_handle_char (Handleize.strip_edges s) = true
  /\ has_double_hyphen (Handleize.strip_edges s) = false
  /\ starts_with_hyphen (Handleize.strip_edges s) = false
  /\ ends_with_hyphen (Handleize.strip_edges s) = false
  /\ filter_string is_alnum (Handleize.strip_edges s) = filter_string is_alnum s.
Proof.
  intros Hclass Hdouble. unfold Handleize.strip_edges.
  set (s1 := match s with
             | String c r => if is_hyphen c then r else s
             | EmptyString => EmptyString
             end).
  assert (forallb_string is_handle_char s1 = true
          /\ has_double_hyphen s1 = false
          /\ starts_with_hyphen s1 = false
          /\ filter_string is_alnum s1 = filter_string is_alnum s) as (H1 & H2 & H3 & H4).
  { subst s1. destruct s as [|c r]; [repeat split|].
    destruct (is_hyphen c) eqn:Hc.
    - simpl in Hclass. apply andb_prop in Hclass as [_ Hr].
      repeat split.
      + exact Hr.
      + eapply double_hyphen_tail, Hdouble.
      + destruct r as [|d r']; [reflexivity|]. simpl in Hdouble |- *.
        apply orb_false_elim in Hdouble as [Hcd _]. rewrite Hc in Hcd. exact Hcd.
      + simpl. rewrite (hyphen_not_alnum _ Hc). reflexivity.
    - repeat split; try assumption. }
  repeat split.
  - apply drop_last_class, H1.
  - apply drop_last_double, H2.
  - apply drop_last_start, H3.
  - apply drop_last_end, H2.
  - rewrite drop_last_alnum. exact H4.
Qed.

(** ** [handleize] as the hyphen-joined words of its input *)

Section WordsFacts.
Import Handleize.

Lemma pieces_split s : pieces s = first_piece s :: List.tl (pieces s).
Proof.
  unfold first_piece. destruct s as [|c r]; [reflexivity|]. simpl.
  destruct (is_alnum c); [|reflexivity]. destruct (pieces r); reflexivity.
Qed.

Lemma words_split s :
  alnum_words s
  = List.app (if nonempty (first_piece s) then [first_piece s] else []) (later_words s).
Proof.
  unfold alnum_words, later_words. rewrite pieces_split at 1. simpl.
  destruct (nonempty (first_piece s)); reflexivity.
Qed.

Lemma first_alnum c r : is_alnum c = true -> first_piece (String c r) = String c (first_piece r).
Proof.
  intros Hc. unfold first_piece. simpl. rewrite Hc. destruct (pieces r); reflexivity.
Qed.

Lemma later_alnum c r : is_alnum c = true -> later_words (String c r) = later_words r.
Proof.
  intros Hc. unfold later_words. simpl. rewrite Hc.
  rewrite (pieces_split r). reflexivity.
Qed.

Lemma words_alnum c r :
  is_alnum c = true ->
  alnum_words (String c r) = String c (first_piece r) :: later_words r.
Proof.
  intros Hc. rewrite words_split, (first_alnum c r Hc), (later_alnum c r Hc). reflexivity.
Qed.

Lemma first_sep c r : is_alnum c = false -> first_piece (String c r) = "".
Proof. intros Hc. unfold first_piece. simpl. rewrite Hc. reflexivity. Qed.

Lemma words_sep c r : is_alnum c = false -> alnum_words (String c r) = alnum_words r.
Proof. intros Hc. unfold alnum_words. simpl. rewrite Hc. reflexivity. Qed.

Lemma later_from_words s t :
  alnum_words s = alnum_words t -> first_piece s = first_piece t ->
  later_words s = later_words t.
Proof.
  rewrite !words_split. intros Hw Hf. rewrite Hf in Hw.
  eapply app_inv_head, Hw.
Qed.

Lemma replace_runs_words b t :
  alnum_words (replace_runs b t) = alnum_words t
  /\ (b = false -> first_piece (replace_runs b t) = first_piece t).
Proof.
  revert b. induction t as [|c r IH]; intros b; [split; reflexivity|].
  simpl replace_runs. destruct (is_alnum c) eqn:Hc.
  - destruct (IH false) as [Hw Hf]. specialize (Hf eq_refl).
    rewrite !(words_alnum c _ Hc), !(first_alnum c _ Hc), Hf.
    rewrite (later_from_words _ _ Hw Hf). split; reflexivity.
  - destruct (IH true) as [Hw _]. destruct b.
    + rewrite Hw, (words_sep c r Hc). split; [reflexivity | discriminate].
    + assert (is_alnum "-" = false) as Hh by reflexivity.
      rewrite (words_sep _ _ Hh), (first_sep _ _ Hh), Hw, (words_sep c r Hc),
        (first_sep c r Hc).
      split; reflexivity.
Qed.

Lemma drop_last_words s :
  alnum_words (drop_last_hyphen s) = alnum_words s
  /\ first_piece (drop_last_hyphen s) = first_piece s.
Proof.
  induction s as [|c s IH]; [split; reflexivity|].
  destruct s as [|d s'].
  - simpl drop_last_hyphen. destruct (is_hyphen c) eqn:Hc; [|split; reflexivity].
    pose proof (hyphen_not_alnum _ Hc) as Ha.
    rewrite (words_sep c "" Ha), (first_sep c "" Ha). split; reflexivity.
  - change (drop_last_hyphen (String c (String d s')))
      with (String c (drop_last_hyphen (String d s'))).
    destruct IH as [Hw Hf]. destruct (is_alnum c) eqn:Hc.
    + rewrite !(words_alnum c _ Hc), !(first_alnum c _ Hc), Hf.
      rewrite (later_from_words _ _ Hw Hf). split; reflexivity.
    + rewrite !(words_sep c _ Hc), !(first_sep c _ Hc), Hw. split; reflexivity.
Qed.

Lemma strip_edges_words s : alnum_words (strip_edges s) = alnum_words s.
Proof.
  unfold strip_edges. rewrite (proj1 (drop_last_words _)).
  destruct s as [|c r]; [reflexivity|].
  destruct (is_hyphen c) eqn:Hc; [|reflexivity].
  rewrite (words_sep c r (hyphen_not_alnum _ Hc)). reflexivity.
Qed.

Lemma join_cons_char sep c w l :
  join sep (String c w :: l) = String c (join sep (w :: l)).
Proof. destruct l; reflexivity. Qed.

Lemma is_hyphen_eq c : is_hyphen c = true -> c = "-"%char.
Proof.
  unfold is_hyphen, code. intros H. apply Nat.eqb_eq in H.
  rewrite <- (ascii_nat_embedding c), H. reflexivity.
Qed.

Lemma first_piece_nonempty c r :
  is_alnum c = true -> nonempty (first_piece (String c r)) = true.
Proof. intros Hc. rewrite (first_alnum c r Hc). reflexivity. Qed.

(** A string over [[a-z0-9-]] without adjacent hyphens and without a
    trailing hyphen is its words joined by hyphens, after its leading
    hyphen if it has one. *)
Lemma hyphenated_is_joined h :
  forallb_string is_handle_char h = true ->
  has_double_hyphen h = false ->
  ends_with_hyphen h = false ->
  h = (if starts_with_hyphen h then "-" else "") +:+ join "-" (alnum_words h)
  /\ (h <> "" -> alnum_words h <> []).
Proof.
  induction h as [|c r IH]; intros Hclass Hdouble Hend; [split; [reflexivity|congruence]|].
  simpl in Hclass. apply andb_prop in Hclass as [Hc Hr].
  assert (ends_with_hyphen r = false) as Hend_r.
  { destruct r as [|d r']; [reflexivity | exact Hend]. }
  destruct (IH Hr (double_hyphen_tail _ _ Hdouble) Hend_r) as [Hjoin Hwords].
  simpl starts_with_hyphen.
  destruct (is_alnum c) eqn:Ha.
  - rewrite (alnum_not_hyphen _ Ha). rewrite (words_alnum c r Ha). split; [|discriminate].
    change ("" +:+ join "-" (String c (first_piece r) :: later_words r))
      with (join "-" (String c (first_piece r) :: later_words r)).
    rewrite join_cons_char. f_equal.
    destruct r as [|d r']; [reflexivity|].
    simpl starts_with_hyphen in Hjoin.
    destruct (is_hyphen d) eqn:Hd.
    + pose proof (hyphen_not_alnum _ Hd) as Hda.
      assert (later_words (String d r') = alnum_words (String d r')) as Hl.
      { rewrite words_split, (first_sep d r' Hda). reflexivity. }
      rewrite (first_sep d r' Hda), Hl.
      specialize (Hwords ltac:(discriminate)).
      destruct (alnum_words (String d r')) as [|w ws] eqn:Hw; [congruence|].
      exact Hjoin.
    + assert (is_alnum d = true) as Hda.
      { simpl in Hr. apply andb_prop in Hr as [Hdc _].
        unfold is_handle_char in Hdc. rewrite Hd, orb_false_r in Hdc. exact Hdc. }
      rewrite words_split, (first_piece_nonempty d r' Hda) in Hjoin.
      exact Hjoin.
  - assert (is_hyphen c = true) as Hh.
    { unfold is_handle_char in Hc. rewrite Ha in Hc. exact Hc. }
    rewrite Hh. rewrite (words_sep c r Ha).
    assert (r <> "") as Hne.
    { intros ->. simpl in Hend. congruence. }
    assert (starts_with_hyphen r = false) as Hs.
    { destruct r as [|d r']; [reflexivity|]. simpl in Hdouble |- *.
      apply orb_false_elim in Hdouble as [Hcd _]. rewrite Hh in Hcd. exact Hcd. }
    rewrite Hs in Hjoin. simpl String.append in Hjoin.
    split; [|intros _; apply Hwords, Hne].
    rewrite (is_hyphen_eq c Hh). simpl String.append. f_equal. exact Hjoin.
Qed.

End WordsFacts.

(** C9.  The [handleize] filter maps "My Cool Product!!" to
    "my-cool-product".  For every input, and whatever the lowercasing
    does to characters outside ASCII, the output is the alphanumeric
    words of the lowercased input joined by single hyphens: each run of
    non-alphanumeric characters between two words is collapsed to one
    hyphen, the output consists of lowercase letters, digits and hyphens
    only, has no two adjacent hyphens, and neither starts nor ends with a
    hyphen. *)
Theorem handleize_output :
  Handleize.handleize "My Cool Product!!" = "my-cool-product"
  /\ forall (lower : string -> string) (str : string),
       Handleize.handleize_with lower str = join "-" (alnum_words (lower str))
       /\ forallb_string is_handle_char (Handleize.handleize_with lower str) = true
       /\ has_double_hyphen (Handleize.handleize_with lower str) = false
       /\ starts_with_hyphen (Handleize.handleize_with lower str) = false
       /\ ends_with_hyphen (Handleize.handleize_with lower str) = false
       /\ filter_string is_alnum (Handleize.handleize_with lower str)
          = filter_string is_alnum (lower str).
Proof.
  split; [reflexivity|]. intros lower str. unfold Handleize.handleize_with.
  destruct (strip_edges_spec (Handleize.replace_runs false (lower str)))
    as (H1 & H2 & H3 & H4 & H5).
  - apply replace_runs_class.
  - apply replace_runs_hyphens.
  - split; [|repeat split; try assumption].
    + destruct (hyphenated_is_joined _ H1 H2 H4) as [Hjoin _].
      rewrite H3 in Hjoin.
      rewrite strip_edges_words, (proj1 (replace_runs_words false _)) in Hjoin.
      exact Hjoin.
    + rewrite H5. apply replace_runs_alnum.
Qed.

(** ** Route patterns *)

Lemma strip_prefix_app p s : strip_prefix p (p +:+ s) = Some s.
Proof.
  induction p as [|c p IH]; simpl; [reflexivity|].
  rewrite Ascii.eqb_refl. exact IH.
Qed.

Lemma strip_prefix_inv p s r : strip_prefix p s = Some r -> s = p +:+ r.
Proof.
  revert s. induction p as [|c p IH]; intros s; simpl.
  - intros [= ->]. reflexivity.
  - destruct s as [|d s]; [discriminate|].
    destruct (Ascii.eqb c d) eqn:E; [|discriminate].
    apply Ascii.eqb_eq in E as ->. intros H. simpl. f_equal. apply IH, H.
Qed.

Lemma match_handle_iff prefix path h :
  Storefront.match_handle prefix path = Some h
  <-> path = prefix +:+ h /\ valid_handle h.
Proof.
  unfold Storefront.match_handle, valid_handle. split.
  - destruct (strip_prefix prefix path) as [rest|] eqn:E; [|discriminate].
    destruct (String.eqb rest "") eqn:Hne; simpl; [discriminate|].
    destruct (forallb_string is_handle_char rest) eqn:Hc; [|discriminate].
    intros [= <-]. apply strip_prefix_inv in E. apply String.eqb_neq in Hne. auto.
  - intros (-> & Hne & Hc). rewrite strip_prefix_app.
    apply String.eqb_neq in Hne. rewrite Hne, Hc. reflexivity.
Qed.

Lemma match_handle_valid prefix h :
  valid_handle h -> Storefront.match_handle prefix (prefix +:+ h) = Some h.
Proof. intros H. apply match_handle_iff. auto. Qed.

Lemma match_handle_bad_char prefix h :
  forallb_string is_handle_char h = false ->
  Storefront.match_handle prefix (prefix +:+ h) = None.
Proof.
  intros H. unfold Storefront.match_handle. rewrite strip_prefix_app, H.
  rewrite andb_false_r. reflexivity.
Qed.

Lemma match_handle_none prefix path :
  (forall h, path = prefix +:+ h -> ~ valid_handle h) ->
  Storefront.match_handle prefix path = None.
Proof.
  intros H. destruct (Storefront.match_handle prefix path) as [h|] eqn:E; [|reflexivity].
  apply match_handle_iff in E as [-> Hv]. exfalso. eapply H; eauto.
Qed.

Section RouteFacts.
Import Storefront.

Variable env : Env.
Variable tenantId : string.

Lemma resolve_home path w :
  path = "/" \/ path = "" ->
  resolveRoute env path tenantId w
  = (let* collections :=
       ProductService.getCollections env tenantId (JObj [("limit", JNum 3)]) in
     let* featuredProducts :=
       ProductService.getProducts env tenantId
         (JObj [("featured", JBool true); ("limit", JNum 8)]) in
     ret (mkRoute "home" (JStr "index")
            (JObj [("collections", collections);
                   ("featured_products", featuredProducts)]))) w.
Proof.
  intros Hp. unfold resolveRoute.
  assert (String.eqb path "/" || String.eqb path "" = true) as ->.
  { destruct Hp as [-> | ->]; reflexivity. }
  reflexivity.
Qed.

Lemma resolve_product h w :
  valid_handle h ->
  resolveRoute env ("/products/" +:+ h) tenantId w
  = (let* products := ProductService.getProducts env tenantId (handle_options h) in
     let* product := lift (index0 products) in
     if negb (truthy product) then throw (Error "Product not found")
     else ret (mkRoute "product" (JStr "product") (JObj [("product", product)]))) w.
Proof.
  intros Hv. unfold resolveRoute.
  change (String.eqb ("/products/" +:+ h) "/" || String.eqb ("/products/" +:+ h) "")
    with false. cbv iota.
  rewrite (match_handle_valid "/products/" h Hv). reflexivity.
Qed.

Lemma resolve_collection h w :
  valid_handle h ->
  resolveRoute env ("/collections/" +:+ h) tenantId w
  = (let* collections := ProductService.getCollections env tenantId (handle_options h) in
     let* collection := lift (index0 collections) in
     if negb (truthy collection) then throw (Error "Collection not found")
     else
       let* products :=
         ProductService.getProducts env tenantId
           (JObj [("collection_id", getProp collection "id")]) in
       ret (mkRoute "collection" (JStr "collection")
              (JObj [("collection", collection); ("products", products)]))) w.
Proof.
  intros Hv. unfold resolveRoute.
  change (String.eqb ("/collections/" +:+ h) "/" || String.eqb ("/collections/" +:+ h) "")
    with false. cbv iota.
  change (match_handle "/products/" ("/collections/" +:+ h)) with (@None string).
  rewrite (match_handle_valid "/collections/" h Hv). reflexivity.
Qed.

Lemma resolve_page h w :
  valid_handle h ->
  resolveRoute env ("/pages/" +:+ h) tenantId w
  = (Ok (mkRoute "page" (JStr "page")
           (JObj [("page", JObj [("title", JStr h); ("content", JStr page_content)])])), w).
Proof.
  intros Hv. unfold resolveRoute.
  change (String.eqb ("/pages/" +:+ h) "/" || String.eqb ("/pages/" +:+ h) "")
    with false. cbv iota.
  change (match_handle "/products/" ("/pages/" +:+ h)) with (@None string).
  change (match_handle "/collections/" ("/pages/" +:+ h)) with (@None string).
  rewrite (match_handle_valid "/pages/" h Hv). reflexivity.
Qed.

Lemma resolve_unmatched path w :
  path <> "/" -> path <> "" ->
  (forall prefix h, In prefix ["/products/"; "/collections/"; "/pages/"] ->
                    path = prefix +:+ h -> ~ valid_handle h) ->
  resolveRoute env path tenantId w = (Threw (Error "Page not found"), w).
Proof.
  intros H1 H2 H. unfold resolveRoute.
  apply String.eqb_neq in H1, H2. rewrite H1, H2. simpl orb. cbv iota.
  rewrite !match_handle_none; [reflexivity| | |];
    intros h; apply H; simpl; auto.
Qed.

Lemma resolve_bad_handle prefix h w :
  In prefix ["/products/"; "/collections/"; "/pages/"] ->
  forallb_string is_handle_char h = false ->
  resolveRoute env (prefix +:+ h) tenantId w = (Threw (Error "Page not found"), w).
Proof.
  intros Hin Hbad. apply resolve_unmatched.
  - simpl in Hin. destruct Hin as [<- | [<- | [<- | []]]]; discriminate.
  - simpl in Hin. destruct Hin as [<- | [<- | [<- | []]]]; discriminate.
  - intros prefix' h' Hin' Heq [_ Hv].
    assert (h' = h) as ->; [|congruence].
    simpl in Hin, Hin'.
    destruct Hin as [<- | [<- | [<- | []]]];
      destruct Hin' as [<- | [<- | [<- | []]]];
      simpl in Heq; congruence.
Qed.

(** Whatever resolves, resolves through one of the four branches. *)
Lemma resolve_inversion path w rd w' :
  resolveRoute env path tenantId w = (Ok rd, w') ->
  ((path = "/" \/ path = "") /\ rd_type rd = "home" /\ rd_template rd = JStr "index")
  \/ (exists h, valid_handle h /\ path = "/products/" +:+ h
                /\ rd_type rd = "product" /\ rd_template rd = JStr "product")
  \/ (exists h, valid_handle h /\ path = "/collections/" +:+ h
                /\ rd_type rd = "collection" /\ rd_template rd = JStr "collection")
  \/ (exists h, valid_handle h /\ path = "/pages/" +:+ h
                /\ rd_type rd = "page" /\ rd_template rd = JStr "page").
Proof.
  unfold resolveRoute.
  destruct (String.eqb path "/" || String.eqb path "") eqn:Hroot.
  - intros Hr. left. split.
    + apply orb_true_iff in Hroot as [H | H]; apply String.eqb_eq in H; auto.
    + revert Hr. unfold bind.
      destruct (ProductService.getCollections env tenantId _ w) as [[cs|e] w1];
        [|discriminate].
      destruct (ProductService.getProducts env tenantId _ w1) as [[ps|e] w2];
        [|discriminate].
      unfold ret. intros [= <- _]. auto.
  - destruct (match_handle "/products/" path) as [h|] eqn:Hp.
    { apply match_handle_iff in Hp as [-> Hv]. intros Hr. right. left.
      exists h. split; [exact Hv|]. split; [reflexivity|].
      revert Hr. unfold bind, lift.
      destruct (ProductService.getProducts env tenantId _ w) as [[ps|e] w1];
        [|discriminate].
      destruct (index0 ps) as [p|e]; [|discriminate].
      destruct (truthy p); simpl; [|discriminate].
      unfold ret. intros [= <- _]. auto. }
    destruct (match_handle "/collections/" path) as [h|] eqn:Hc.
    { apply match_handle_iff in Hc as [-> Hv]. intros Hr. right. right. left.
      exists h. split; [exact Hv|]. split; [reflexivity|].
      revert Hr. unfold bind, lift.
      destruct (ProductService.getCollections env tenantId _ w) as [[cs|e] w1];
        [|discriminate].
      destruct (index0 cs) as [c|e]; [|discriminate].
      destruct (truthy c); simpl; [|discriminate].
      destruct (ProductService.getProducts env tenantId _ w1) as [[ps|e] w2];
        [|discriminate].
      unfold ret. intros [= <- _]. auto. }
    destruct (match_handle "/pages/" path) as [h|] eqn:Hg.
    { apply match_handle_iff in Hg as [-> Hv]. intros Hr. right. right. right.
      exists h. split; [exact Hv|]. split; [reflexivity|].
      revert Hr. unfold ret. intros [= <- _]. auto. }
    discriminate.
Qed.

End RouteFacts.

(** The three patterns exclude one another, and none matches the root:
    the order in which they are tried decides nothing. *)
Lemma patterns_exclusive prefix1 prefix2 h1 h2 :
  In prefix1 ["/products/"; "/collections/"; "/pages/"] ->
  In prefix2 ["/products/"; "/collections/"; "/pages/"] ->
  prefix1 +:+ h1 = prefix2 +:+ h2 ->
  prefix1 = prefix2 /\ h1 = h2 /\ prefix1 +:+ h1 <> "/" /\ prefix1 +:+ h1 <> "".
Proof.
  intros Hin1 Hin2 Heq. simpl in Hin1, Hin2.
  destruct Hin1 as [<- | [<- | [<- | []]]];
    destruct Hin2 as [<- | [<- | [<- | []]]];
    simpl in Heq; try discriminate Heq;
    (split; [reflexivity|]); (split; [congruence|]); split; discriminate.
Qed.

(** C7.  Route resolution dispatches on the path alone.  The root path
    is sent to the home branch (collections, then featured products);
    [/products/h], [/collections/h] and [/pages/h] with a handle [h] over
    [[a-z0-9-]] are sent to the product, collection and static page
    branch, each path running exactly the fetches of its branch; the
    patterns exclude one another, so that the order of the tests decides
    nothing; every other path fails with "Page not found", and so does
    every handle segment containing a character outside lowercase
    letters, digits and hyphens; and whatever resolves has the type and
    the template of the branch its path selects. *)
Theorem resolveRoute_dispatch (env : Env) (tenantId : string) (w : World) :
  (forall path,
      path = "/" \/ path = "" ->
      Storefront.resolveRoute env path tenantId w
      = (let* collections :=
           ProductService.getCollections env tenantId (JObj [("limit", JNum 3)]) in
         let* featuredProducts :=
           ProductService.getProducts env tenantId
             (JObj [("featured", JBool true); ("limit", JNum 8)]) in
         ret (Storefront.mkRoute "home" (JStr "index")
                (JObj [("collections", collections);
                       ("featured_products", featuredProducts)]))) w)
  /\ (forall h,
      valid_handle h ->
      Storefront.resolveRoute env ("/products/" +:+ h) tenantId w
      = (let* products := ProductService.getProducts env tenantId (handle_options h) in
         let* product := lift (Storefront.index0 products) in
         if negb (truthy product) then throw (Error "Product not found")
         else ret (Storefront.mkRoute "product" (JStr "product")
                     (JObj [("product", product)]))) w)
  /\ (forall h,
      valid_handle h ->
      Storefront.resolveRoute env ("/collections/" +:+ h) tenantId w
      = (let* collections :=
           ProductService.getCollections env tenantId (handle_options h) in
         let* collection := lift (Storefront.index0 collections) in
         if negb (truthy collection) then throw (Error "Collection not found")
         else
           let* products :=
             ProductService.getProducts env tenantId
               (JObj [("collection_id", getProp collection "id")]) in
           ret (Storefront.mkRoute "collection" (JStr "collection")
                  (JObj [("collection", collection); ("products", products)]))) w)
  /\ (forall h,
      valid_handle h ->
      Storefront.resolveRoute env ("/pages/" +:+ h) tenantId w
      = (Ok (Storefront.mkRoute "page" (JStr "page")
               (JObj [("page", JObj [("title", JStr h);
                                     ("content", JStr Storefront.page_content)])])), w))
  /\ (forall prefix1 prefix2 h1 h2,
      In prefix1 ["/products/"; "/collections/"; "/pages/"] ->
      In prefix2 ["/products/"; "/collections/"; "/pages/"] ->
      prefix1 +:+ h1 = prefix2 +:+ h2 ->
      prefix1 = prefix2 /\ h1 = h2 /\ prefix1 +:+ h1 <> "/" /\ prefix1 +:+ h1 <> "")
  /\ (forall path,
      path <> "/" -> path <> "" ->
      (forall prefix h, In prefix ["/products/"; "/collections/"; "/pages/"] ->
                        path = prefix +:+ h -> ~ valid_handle h) ->
      Storefront.resolveRoute env path tenantId w = (Threw (Error "Page not found"), w))
  /\ (forall prefix h,
      In prefix ["/products/"; "/collections/"; "/pages/"] ->
      forallb_string is_handle_char h = false ->
      Storefront.resolveRoute env (prefix +:+ h) tenantId w
      = (Threw (Error "Page not found"), w))
  /\ (forall path rd w',
      Storefront.resolveRoute env path tenantId w = (Ok rd, w') ->
      ((path = "/" \/ path = "")
       /\ Storefront.rd_type rd = "home" /\ Storefront.rd_template rd = JStr "index")
      \/ (exists h, valid_handle h /\ path = "/products/" +:+ h
                    /\ Storefront.rd_type rd = "product"
                    /\ Storefront.rd_template rd = JStr "product")
      \/ (exists h, valid_handle h /\ path = "/collections/" +:+ h
                    /\ Storefront.rd_type rd = "collection"
                    /\ Storefront.rd_template rd = JStr "collection")
      \/ (exists h, valid_handle h /\ path = "/pages/" +:+ h
                    /\ Storefront.rd_type rd = "page"
                    /\ Storefront.rd_template rd = JStr "page")).
Proof.
  split; [|split; [|split; [|split; [|split; [|split; [|split]]]]]].
  - intros path Hp. apply resolve_home, Hp.
  - intros h Hv. apply resolve_product, Hv.
  - intros h Hv. apply resolve_collection, Hv.
  - intros h Hv. apply resolve_page, Hv.
  - intros. apply patterns_exclusive; assumption.
  - intros. apply resolve_unmatched; assumption.
  - intros. apply resolve_bad_handle; assumption.
  - intros path rd w'. apply resolve_inversion.
Qed.

(** C7, at sample paths: the path of a stocked product is sent to the
    product branch and resolves to that product; an uppercase handle
    matches no pattern. *)
Lemma resolveRoute_dispatch_witness :
  fst (Storefront.resolveRoute Sample.env "/products/blue-shirt" "t1" Sample.empty_world)
  = Ok (Storefront.mkRoute "product" (JStr "product")
          (JObj [("product", Sample.product_row)]))
  /\ Storefront.resolveRoute Sample.env "/products/Blue_Shirt" "t1" Sample.empty_world
     = (Threw (Error "Page not found"), Sample.empty_world).
Proof.
  destruct (resolveRoute_dispatch Sample.env "t1" Sample.empty_world)
    as (_ & Hproduct & _ & _ & _ & _ & Hbad & _).
  split.
  - change "/products/blue-shirt" with ("/products/" +:+ "blue-shirt").
    rewrite (Hproduct "blue-shirt"); [reflexivity | split; [discriminate | reflexivity]].
  - apply (Hbad "/products/" "Blue_Shirt"); [simpl; auto | reflexivity].
Defined.

(** ** The catalog provider on a cache miss *)

Lemma truthy_handle h : valid_handle h -> truthy (JStr h) = true.
Proof.
  intros [Hne _]. simpl. apply String.eqb_neq in Hne. rewrite Hne. reflexivity.
Qed.

Lemma getProducts_miss env tenantId h pool rows w :
  valid_handle h ->
  redisClient env = Some true ->
  dbPool env = Some pool ->
  0 < dataCacheTTL env ->
  redisStore w !! (keyPrefix env +:+ ProductService.productsKey tenantId (handle_options h))
  = None ->
  pool (QProducts tenantId (Some (JStr h)) None (JNum 1) (JNum 0)) = Ok rows ->
  ProductService.getProducts env tenantId (handle_options h) w
  = (Ok (JArr rows),
     set_redisStore
       (insert (keyPrefix env +:+ ProductService.productsKey tenantId (handle_options h))
               (json_text (JArr rows), now w + dataCacheTTL env)) w).
Proof.
  intros Hv Hr Hp Httl Hmiss Hq.
  unfold ProductService.getProducts, try_catch, bind, getRedisClient, getDbPool.
  rewrite Hr, Hp. unfold ret, Redis.get. rewrite Hmiss. simpl cached_truthy. cbv iota.
  unfold lift, ProductService.opt_clause, ProductService.with_default.
  change (getProp (handle_options h) "handle") with (JStr h).
  change (getProp (handle_options h) "collection_id") with JUndefined.
  change (getProp (handle_options h) "limit") with (JNum 1).
  change (getProp (handle_options h) "offset") with JUndefined.
  rewrite (truthy_handle h Hv). cbn [truthy is_undefined]. rewrite Hq.
  unfold Redis.setex. apply Z.ltb_lt in Httl. rewrite Httl. reflexivity.
Qed.

Lemma getCollections_miss env tenantId h pool rows w :
  valid_handle h ->
  redisClient env = Some true ->
  dbPool env = Some pool ->
  0 < dataCacheTTL env ->
  redisStore w !! (keyPrefix env +:+ ProductService.collectionsKey tenantId (handle_options h))
  = None ->
  pool (QCollections tenantId (Some (JStr h)) (JNum 1) (JNum 0)) = Ok rows ->
  ProductService.getCollections env tenantId (handle_options h) w
  = (Ok (JArr rows),
     set_redisStore
       (insert (keyPrefix env +:+ ProductService.collectionsKey tenantId (handle_options h))
               (json_text (JArr rows), now w + dataCacheTTL env)) w).
Proof.
  intros Hv Hr Hp Httl Hmiss Hq.
  unfold ProductService.getCollections, try_catch, bind, getRedisClient, getDbPool.
  rewrite Hr, Hp. unfold ret, Redis.get. rewrite Hmiss. simpl cached_truthy. cbv iota.
  unfold lift, ProductService.opt_clause, ProductService.with_default.
  change (getProp (handle_options h) "handle") with (JStr h).
  change (getProp (handle_options h) "limit") with (JNum 1).
  change (getProp (handle_options h) "offset") with JUndefined.
  rewrite (truthy_handle h Hv). cbn [truthy is_undefined]. rewrite Hq.
  unfold Redis.setex. apply Z.ltb_lt in Httl. rewrite Httl. reflexivity.
Qed.

Section MissingEntity.
Import Storefront.

Variable env : Env.
Variable tenantId : string.

Lemma product_not_found h w w' :
  valid_handle h ->
  ProductService.getProducts env tenantId (handle_options h) w = (Ok (JArr []), w') ->
  resolveRoute env ("/products/" +:+ h) tenantId w = (Threw (Error "Product not found"), w').
Proof.
  intros Hv Hget. unfold resolveRoute.
  change (String.eqb ("/products/" +:+ h) "/" || String.eqb ("/products/" +:+ h) "")
    with false. cbv iota.
  rewrite (match_handle_valid "/products/" h Hv).
  unfold bind. fold (handle_options h). rewrite Hget. reflexivity.
Qed.

Lemma collection_not_found h w w' :
  valid_handle h ->
  ProductService.getCollections env tenantId (handle_options h) w = (Ok (JArr []), w') ->
  resolveRoute env ("/collections/" +:+ h) tenantId w
  = (Threw (Error "Collection not found"), w').
Proof.
  intros Hv Hget. unfold resolveRoute.
  change (String.eqb ("/collections/" +:+ h) "/" || String.eqb ("/collections/" +:+ h) "")
    with false. cbv iota.
  change (match_handle "/products/" ("/collections/" +:+ h)) with (@None string).
  rewrite (match_handle_valid "/collections/" h Hv).
  unfold bind. fold (handle_options h). rewrite Hget. reflexivity.
Qed.

End MissingEntity.

(** C3 (as amended).  For [/products/{handle}] and
    [/collections/{handle}], when the catalog provider finds no entity
    for the handle (it returns the empty list; in particular on a cache
    miss with no matching row in the tenant's tables), [resolveRoute]
    fails with "Product not found" / "Collection not found".  For
    [/pages/{handle}] no lookup is made: the route always resolves, to a
    placeholder page titled by the handle. *)
Theorem resolveRoute_missing_entity (env : Env) (tenantId : string) (w : World) :
  (forall h w',
      valid_handle h ->
      ProductService.getProducts env tenantId (handle_options h) w = (Ok (JArr []), w') ->
      Storefront.resolveRoute env ("/products/" +:+ h) tenantId w
      = (Threw (Error "Product not found"), w'))
  /\ (forall h w',
      valid_handle h ->
      ProductService.getCollections env tenantId (handle_options h) w = (Ok (JArr []), w') ->
      Storefront.resolveRoute env ("/collections/" +:+ h) tenantId w
      = (Threw (Error "Collection not found"), w'))
  /\ (forall h pool,
      valid_handle h ->
      redisClient env = Some true -> dbPool env = Some pool -> 0 < dataCacheTTL env ->
      redisStore w !! (keyPrefix env +:+ ProductService.productsKey tenantId (handle_options h))
      = None ->
      pool (QProducts tenantId (Some (JStr h)) None (JNum 1) (JNum 0)) = Ok [] ->
      fst (Storefront.resolveRoute env ("/products/" +:+ h) tenantId w)
      = Threw (Error "Product not found"))
  /\ (forall h pool,
      valid_handle h ->
      redisClient env = Some true -> dbPool env = Some pool -> 0 < dataCacheTTL env ->
      redisStore w !! (keyPrefix env +:+ ProductService.collectionsKey tenantId (handle_options h))
      = None ->
      pool (QCollections tenantId (Some (JStr h)) (JNum 1) (JNum 0)) = Ok [] ->
      fst (Storefront.resolveRoute env ("/collections/" +:+ h) tenantId w)
      = Threw (Error "Collection not found"))
  /\ (forall h,
      valid_handle h ->
      Storefront.resolveRoute env ("/pages/" +:+ h) tenantId w
      = (Ok (Storefront.mkRoute "page" (JStr "page")
               (JObj [("page", JObj [("title", JStr h);
                                     ("content", JStr Storefront.page_content)])])), w)).
Proof.
  split; [|split; [|split; [|split]]].
  - intros h w' Hv Hget. apply product_not_found; assumption.
  - intros h w' Hv Hget. apply collection_not_found; assumption.
  - intros h pool Hv Hr Hp Httl Hmiss Hq.
    erewrite product_not_found; [reflexivity | assumption |].
    eapply getProducts_miss; eassumption.
  - intros h pool Hv Hr Hp Httl Hmiss Hq.
    erewrite collection_not_found; [reflexivity | assumption |].
    eapply getCollections_miss; eassumption.
  - intros h Hv. apply resolve_page, Hv.
Qed.

(** C3, at sample inputs: over a catalog that holds nothing, an unknown
    product handle is a failure. *)
Lemma resolveRoute_missing_entity_witness :
  fst (Storefront.resolveRoute Sample.bare_env "/products/unknown-handle" "t1"
         Sample.empty_world)
  = Threw (Error "Product not found").
Proof.
  destruct (resolveRoute_missing_entity Sample.bare_env "t1" Sample.empty_world)
    as (_ & _ & H & _).
  apply (H "unknown-handle" Sample.empty_pool).
  - split; [discriminate | reflexivity].
  - reflexivity.
  - reflexivity.
  - reflexivity.
  - reflexivity.
  - reflexivity.
Defined.

(** C3 as stated fails for static pages: over the same empty catalog,
    [/pages/unknown-handle] names no existing entity and yet resolves
    successfully. *)
Lemma resolveRoute_page_without_entity :
  redisStore Sample.empty_world = ∅
  /\ Sample.empty_pool (QProducts "t1" (Some (JStr "unknown-handle")) None (JNum 1) (JNum 0))
     = Ok []
  /\ Sample.empty_pool (QCollections "t1" (Some (JStr "unknown-handle")) (JNum 1) (JNum 0))
     = Ok []
  /\ Storefront.resolveRoute Sample.bare_env "/pages/unknown-handle" "t1" Sample.empty_world
     = (Ok (Storefront.mkRoute "page" (JStr "page")
              (JObj [("page", JObj [("title", JStr "unknown-handle");
                                    ("content", JStr "<p>Page content here</p>")])])),
        Sample.empty_world).
Proof. repeat split. Qed.

(** ** Conversion to strings *)

Lemma JsValue_items_ind (P : JsValue -> Prop) :
  P JUndefined -> P JNull -> (forall b, P (JBool b)) -> (forall n, P (JNum n)) ->
  (forall s, P (JStr s)) ->
  (forall items, Forall P items -> P (JArr items)) ->
  (forall fields, P (JObj fields)) ->
  forall v, P v.
Proof.
  intros Hu Hn Hb Hz Hs Ha Ho. fix IH 1.
  intros [| | b | n | s | items | fields].
  - exact Hu.
  - exact Hn.
  - apply Hb.
  - apply Hz.
  - apply Hs.
  - apply Ha. induction items as [|x r IHr]; constructor; [apply IH | exact IHr].
  - apply Ho.
Qed.

Lemma ToString_printable v : printable v = true -> ToString v = Ok (toString v).
Proof.
  induction v as [| | b | n | s | items IH | fields] using JsValue_items_ind;
    try reflexivity.
  - intros Hp. cbn [ToString toString printable] in *.
    assert (map_result (fun x => match x with
                                 | JUndefined | JNull => Ok ""
                                 | _ => ToString x
                                 end) items
            = Ok (List.map (fun x => match x with
                                     | JUndefined | JNull => ""
                                     | _ => toString x
                                     end) items)) as ->; [|reflexivity].
    induction IH as [|x r Hx _ IHr]; [reflexivity|].
    cbn [forallb] in Hp. apply andb_prop in Hp as [Hpx Hpr].
    cbn [map_result List.map]. rewrite (IHr Hpr).
    destruct x; try reflexivity; rewrite (Hx Hpx); reflexivity.
  - cbn [ToString toString printable]. destruct (assoc "toString" fields); [discriminate|].
    reflexivity.
Qed.

Lemma ToString_error v e : ToString v = Threw e -> e = cannot_convert.
Proof.
  induction v as [| | b | n | s | items IH | fields] using JsValue_items_ind;
    try discriminate.
  - cbn [ToString].
    destruct (map_result _ items) as [printed|e'] eqn:Hm; [discriminate|].
    intros [= <-]. revert Hm.
    induction IH as [|x r Hx _ IHr]; [discriminate|].
    cbn [map_result].
    destruct (match x with JUndefined | JNull => Ok "" | _ => ToString x end)
      as [y|ex] eqn:Hy.
    + destruct (map_result _ r) as [ys|er]; [discriminate|].
      intros [= ->]. apply IHr. reflexivity.
    + intros [= ->]. apply Hx. destruct x; try discriminate Hy; exact Hy.
  - cbn [ToString]. destruct (assoc "toString" fields); [|discriminate].
    intros [= <-]. reflexivity.
Qed.

Lemma printable_or a d : printable a = true -> printable (js_or a (JStr d)) = true.
Proof. intros H. unfold js_or. destruct (truthy a); [exact H | reflexivity]. Qed.

Lemma printable_field fields k :
  (forall key v, assoc key fields = Some v -> printable v = true) ->
  printable (getProp (JObj fields) k) = true.
Proof.
  intros H. unfold getProp. destruct (assoc k fields) as [v|] eqn:E; [|reflexivity].
  exact (H k v E).
Qed.







(** ** [renderPage] *)

Lemma template_error parts e : template parts = Threw e -> e = cannot_convert.
Proof.
  induction parts as [|p rest IH]; [discriminate|].
  destruct p as [text|v]; cbn [template].
  - destruct (template rest) as [s|e']; [discriminate|].
    intros [= ->]. apply IH. reflexivity.
  - destruct (ToString v) as [printed|e'] eqn:Hv.
    + destruct (template rest) as [s|e'']; [discriminate|].
      intros [= ->]. apply IH. reflexivity.
    + intros [= ->]. eapply ToString_error, Hv.
Qed.

Lemma not_found_printable templateName :
  printable templateName = true ->
  Renderer.not_found templateName = Ok (not_found_error (toString templateName)).
Proof.
  intros Hp. unfold Renderer.not_found. cbn [template].
  rewrite (ToString_printable _ Hp). reflexivity.
Qed.

Section RenderPageFacts.
Import Storefront Renderer.

Variable liquid : Liquid.
Variable theme : JsValue.
Variable context : RenderContext.

Lemma templateName_fallback rd :
  truthy (rd_template rd) = false -> templateName_of rd = JStr "index".
Proof. unfold templateName_of, js_or. intros ->. reflexivity. Qed.

Lemma renderPage_fallback rd :
  truthy (rd_template rd) = false ->
  renderPage liquid theme rd context
  = renderPage liquid theme (mkRoute (rd_type rd) (JStr "index") (rd_data rd)) context.
Proof.
  intros H. unfold renderPage. rewrite (templateName_fallback rd H). reflexivity.
Qed.

(** The template source the guard of [renderPage] looks at. *)
Lemma renderPage_guard rd templates :
  member theme "templates" = Ok templates ->
  template_map templates ->
  printable (templateName_of rd) = true ->
  exists rest,
    renderPage liquid theme rd context
    = (if negb (source_truthy (optional_get templates (toString (templateName_of rd))))
       then Threw (not_found_error (toString (templateName_of rd)))
       else rest)
    /\ forall name,
         (forall source scope, liquid source scope <> Threw (not_found_error name)) ->
         rest <> Threw (not_found_error name).
Proof.
  intros Ht Hmap Hp. unfold renderPage. rewrite Ht. cbn [rbind].
  rewrite (not_found_printable _ Hp). cbn [rbind].
  assert (match templates with
          | JUndefined | JNull => Ok (Stored JUndefined)
          | _ => rbind (ToString (templateName_of rd))
                       (fun name => Ok (optional_get templates name))
          end
          = Ok (optional_get templates (toString (templateName_of rd)))) as ->.
  { destruct templates; try destruct Hmap; try reflexivity.
    rewrite (ToString_printable _ Hp). reflexivity. }
  cbn [rbind]. eexists. split; [reflexivity|].
  intros name Hl.
  destruct (member (ctx_tenant context) "name") as [shop_name|e] eqn:Hm; cbn [rbind].
  2: { unfold member in Hm.
       destruct (ctx_tenant context); try discriminate Hm; injection Hm as <-;
         discriminate. }
  match goal with
  | |- rbind ?computed _ <> _ => destruct computed as [host|e] eqn:Hhost
  end; cbn [rbind].
  2: { destruct (truthy (getProp (ctx_tenant context) "custom_domain"));
         [discriminate Hhost|].
       destruct (ToString (getProp (ctx_tenant context) "tenant_id")) as [id|e'] eqn:Hid;
         cbn [rbind] in Hhost; [discriminate Hhost|].
       injection Hhost as ->. apply ToString_error in Hid as ->. discriminate. }
  destruct (template [Lit "https://"; Sub host]) as [shop_url|e] eqn:Hurl; cbn [rbind].
  2: { apply template_error in Hurl as ->. discriminate. }
  cbv zeta.
  match goal with
  | |- rbind (liquid ?s ?d) _ <> _ => destruct (liquid s d) as [html|e] eqn:Hpage
  end; cbn [rbind].
  2: { rewrite <- Hpage. apply Hl. }
  destruct (source_truthy (optional_get templates "layout")); [apply Hl | discriminate].
Qed.

End RenderPageFacts.

(** C10 (as amended).  When [routeData.template] is absent or falsy,
    [renderPage] renders as for the name 'index'.  For a theme whose
    template map is an object or absent, a template name that prints,
    and an engine that raises no such error itself, the failure
    "Template <name> not found" arises only when the map holds no
    non-empty source under the resolved name (the map or the name is
    absent, or the source stored under the name is empty); and in that
    case it does arise, unless the name is one of the members every
    object inherits. *)
Theorem renderPage_template_lookup
  (liquid : Renderer.Liquid) (theme : JsValue) (rd : Storefront.RouteData)
  (context : Renderer.RenderContext) :
  (truthy (Storefront.rd_template rd) = false ->
     Renderer.templateName_of rd = JStr "index"
     /\ Renderer.renderPage liquid theme rd context
        = Renderer.renderPage liquid theme
            (Storefront.mkRoute (Storefront.rd_type rd) (JStr "index")
                                (Storefront.rd_data rd)) context)
  /\ (forall templates,
       member theme "templates" = Ok templates ->
       template_map templates ->
       printable (Renderer.templateName_of rd) = true ->
       (forall source scope,
           liquid source scope
           <> Threw (not_found_error (toString (Renderer.templateName_of rd)))) ->
       (Renderer.renderPage liquid theme rd context
        = Threw (not_found_error (toString (Renderer.templateName_of rd))) ->
        forall source,
          stored_source templates (toString (Renderer.templateName_of rd)) = Some source ->
          truthy source = false)
       /\ ((forall source,
              stored_source templates (toString (Renderer.templateName_of rd)) = Some source ->
              truthy source = false) ->
           existsb (String.eqb (toString (Renderer.templateName_of rd)))
                   Renderer.object_prototype_members = false ->
           Renderer.renderPage liquid theme rd context
           = Threw (not_found_error (toString (Renderer.templateName_of rd))))).
Proof.
  split.
  - intros H. split; [apply templateName_fallback, H | apply renderPage_fallback, H].
  - intros templates Ht Hmap Hp Hl.
    destruct (renderPage_guard liquid theme context rd templates Ht Hmap Hp)
      as (rest & -> & Hrest).
    split.
    + intros Hr source Hs.
      destruct templates; try discriminate Hs.
      cbn [stored_source] in Hs. unfold Renderer.optional_get in Hr. rewrite Hs in Hr.
      cbn [Renderer.source_truthy] in Hr.
      destruct (truthy source); [|reflexivity].
      exfalso. exact (Hrest _ Hl Hr).
    + intros Hnone Hown.
      assert (Renderer.source_truthy
                (Renderer.optional_get templates
                   (toString (Renderer.templateName_of rd))) = false) as ->;
        [|reflexivity].
      destruct templates; try reflexivity.
      unfold Renderer.optional_get. cbn [stored_source] in Hnone.
      destruct (assoc _ fields) as [source|].
      * cbn [Renderer.source_truthy]. apply Hnone. reflexivity.
      * rewrite Hown. reflexivity.
Qed.

(** C10, at a sample theme: no template name given, the theme has an
    [index] template, and the page is rendered from it. *)
Lemma renderPage_template_lookup_witness :
  Renderer.renderPage Sample.liquid Sample.index_theme Sample.untitled_route Sample.context
  = Renderer.renderPage Sample.liquid Sample.index_theme
      (Storefront.mkRoute "home" (JStr "index") (JObj [])) Sample.context
  /\ Renderer.renderPage Sample.liquid Sample.index_theme Sample.untitled_route Sample.context
     <> Threw (not_found_error "index").
Proof.
  destruct (renderPage_template_lookup Sample.liquid Sample.index_theme
              Sample.untitled_route Sample.context) as [Hf Hn].
  split.
  - apply Hf. reflexivity.
  - intros Hr.
    destruct (Hn (JObj [("index", JStr "<h1>{{ shop.name }}</h1>")])) as [Honly _].
    + reflexivity.
    + exact I.
    + reflexivity.
    + intros source scope. discriminate.
    + specialize (Honly Hr (JStr "<h1>{{ shop.name }}</h1>") eq_refl).
      discriminate Honly.
Defined.

(** C10 as stated fails on an empty template source: 'index' is present
    in the theme's template map, yet [renderPage] fails with "Template
    index not found". *)
Lemma renderPage_empty_source_not_found :
  stored_source (getProp Sample.blank_theme "templates") "index" = Some (JStr "")
  /\ Renderer.renderPage Sample.liquid Sample.blank_theme Sample.untitled_route
       Sample.context
     = Threw (Error "Template index not found").
Proof. split; reflexivity. Qed.

(** ** The tenant resolver *)

Lemma append_inj_l (p a b : string) : p +:+ a = p +:+ b -> a = b.
Proof.
  induction p as [|c p IH]; simpl; [trivial|]. intros [= H]. apply IH, H.
Qed.

Lemma tenant_key_inj env host host' :
  keyPrefix env +:+ TenantService.cacheKey host
  = keyPrefix env +:+ TenantService.cacheKey host' -> host = host'.
Proof.
  intros H. apply append_inj_l in H. unfold TenantService.cacheKey in H.
  eapply append_inj_l, H.
Qed.

Lemma world_eta w : mkWorld (now w) (redisStore w) (memoryCache w) = w.
Proof. destruct w; reflexivity. Qed.

Lemma getTenantFromHost_sound env host w :
  tenant_cache_sound env w ->
  tenant_cache_sound env (snd (TenantService.getTenantFromHost env host w)).
Proof.
  intros Hs. unfold TenantService.getTenantFromHost, bind, getRedisClient.
  destruct (redisClient env) as [up|]; [|exact Hs]. unfold ret, try_catch, bind.
  unfold Redis.get at 1. destruct up; [|exact Hs].
  destruct (redisStore w !! _) as [entry|] eqn:Hl.
  - destruct (Redis.live w entry).
    + destruct (cached_truthy (Some entry.1)).
      * unfold lift. destruct (JSON_parse _); exact Hs.
      * unfold getDbPool. destruct (dbPool env) as [pool|] eqn:Hp; [|exact Hs].
        unfold ret, lift. destruct (pool (QTenantByDomain host)) as [[|t rest]|e] eqn:Hq;
          [exact Hs| |exact Hs].
        unfold Redis.setex. simpl.
        intros host' entry'. simpl. rewrite lookup_insert. case_decide as Hk.
        -- apply tenant_key_inj in Hk as <-. intros [= <-]. eauto 6.
        -- apply Hs.
    + simpl. unfold getDbPool. destruct (dbPool env) as [pool|] eqn:Hp; [|exact Hs].
      unfold ret, lift. destruct (pool (QTenantByDomain host)) as [[|t rest]|e] eqn:Hq;
        [exact Hs| |exact Hs].
      unfold Redis.setex. simpl.
      intros host' entry'. simpl. rewrite lookup_insert. case_decide as Hk.
      -- apply tenant_key_inj in Hk as <-. intros [= <-]. eauto 6.
      -- apply Hs.
  - simpl. unfold getDbPool. destruct (dbPool env) as [pool|] eqn:Hp; [|exact Hs].
    unfold ret, lift. destruct (pool (QTenantByDomain host)) as [[|t rest]|e] eqn:Hq;
      [exact Hs| |exact Hs].
    unfold Redis.setex. simpl.
    intros host' entry'. simpl. rewrite lookup_insert. case_decide as Hk.
    -- apply tenant_key_inj in Hk as <-. intros [= <-]. eauto 6.
    -- apply Hs.
Qed.

Lemma invalidateTenantCache_sound env host w :
  tenant_cache_sound env w ->
  tenant_cache_sound env (snd (TenantService.invalidateTenantCache env host w)).
Proof.
  intros Hs. unfold TenantService.invalidateTenantCache, bind, getRedisClient.
  destruct (redisClient env) as [up|]; [|exact Hs]. unfold ret, Redis.del.
  destruct up; [|exact Hs]. simpl.
  intros host' entry'. unfold set_redisStore. simpl.
  rewrite lookup_delete. case_decide; [discriminate|]. apply Hs.
Qed.

(** Computations that write only keys of one kind compose. *)

Section WritesOnly.

Variable P : string -> Prop.
Variable env : Env.

Lemma writes_ret {A} (a : A) : writes_only P env (ret a).
Proof. intros w pk entry H. left. exact H. Qed.

Lemma writes_throw {A} e : writes_only P env (@throw A e).
Proof. intros w pk entry H. left. exact H. Qed.

Lemma writes_lift {A} (r : Result A) : writes_only P env (lift r).
Proof. intros w pk entry H. left. exact H. Qed.

Lemma writes_bind {A B} (m : M A) (k : A -> M B) :
  writes_only P env m -> (forall a, writes_only P env (k a)) ->
  writes_only P env (bind m k).
Proof.
  intros Hm Hk w pk entry. unfold bind.
  specialize (Hm w pk entry). destruct (m w) as [[a|e] w1]; simpl in *.
  - intros H. destruct (Hk a w1 pk entry H) as [H1|H1]; [apply Hm, H1 | right; exact H1].
  - exact Hm.
Qed.

Lemma writes_try_catch {A} (body : M A) (handler : JsError -> M A) :
  writes_only P env body -> (forall e, writes_only P env (handler e)) ->
  writes_only P env (try_catch body handler).
Proof.
  intros Hm Hk w pk entry. unfold try_catch.
  specialize (Hm w pk entry). destruct (body w) as [[a|e] w1]; simpl in *.
  - exact Hm.
  - intros H. destruct (Hk e w1 pk entry H) as [H1|H1]; [apply Hm, H1 | right; exact H1].
Qed.

Lemma writes_getRedisClient : writes_only P env (getRedisClient env).
Proof. unfold getRedisClient. destruct (redisClient env); [apply writes_ret | apply writes_throw]. Qed.

Lemma writes_getDbPool : writes_only P env (getDbPool env).
Proof. unfold getDbPool. destruct (dbPool env); [apply writes_ret | apply writes_throw]. Qed.

Lemma writes_getS3Client : writes_only P env (getS3Client env).
Proof. unfold getS3Client. destruct (s3Client env); [apply writes_ret | apply writes_throw]. Qed.

Lemma writes_redis_get up key : writes_only P env (Redis.get env up key).
Proof.
  intros w pk entry. unfold Redis.get. destruct up; [|auto].
  destruct (redisStore w !! _) as [e|]; [|auto]. destruct (Redis.live w e); auto.
Qed.

Lemma writes_redis_keys up pattern : writes_only P env (Redis.keys env up pattern).
Proof. intros w pk entry. unfold Redis.keys. destruct up; auto. Qed.

Lemma writes_redis_del up keys : writes_only P env (Redis.del env up keys).
Proof.
  intros w pk entry. unfold Redis.del. destruct up; [|auto]. simpl. intros H. left.
  revert H. induction keys as [|k keys IH]; simpl; [trivial|].
  rewrite lookup_delete. case_decide; [discriminate | exact IH].
Qed.

Lemma writes_redis_setex up key seconds value :
  P key -> writes_only P env (Redis.setex env up key seconds value).
Proof.
  intros Hkey w pk entry. unfold Redis.setex. destruct up; [|auto].
  destruct (0 <? seconds); [|auto]. simpl.
  rewrite lookup_insert. case_decide as Hk; [|auto].
  intros _. right. exists key. auto.
Qed.

Lemma writes_mem_get key : writes_only P env (NodeCache.get key).
Proof.
  intros w pk entry. unfold NodeCache.get.
  destruct (memoryCache w !! key) as [[v [expiry|]]|]; auto.
  destruct (expiry <? now w); auto.
Qed.

Lemma writes_mem_set key v : writes_only P env (NodeCache.set env key v).
Proof. intros w pk entry H. left. exact H. Qed.

Lemma writes_mem_del key : writes_only P env (NodeCache.del key).
Proof. intros w pk entry H. left. exact H. Qed.

End WritesOnly.

Ltac writes_step :=
  first
    [ apply writes_ret | apply writes_throw | apply writes_lift
    | apply writes_getRedisClient | apply writes_getDbPool | apply writes_getS3Client
    | apply writes_redis_get | apply writes_redis_keys | apply writes_redis_del
    | apply writes_mem_get | apply writes_mem_set | apply writes_mem_del
    | apply writes_redis_setex; solve [auto]
    | apply writes_try_catch | apply writes_bind
    | match goal with
      | |- forall _, _ => intro
      | |- writes_only _ _ (if ?b then _ else _) => destruct b
      | |- writes_only _ _ (match ?x with _ => _ end) => destruct x
      end ].

Ltac writes := repeat writes_step.

Section ServiceWrites.

Variable P : string -> Prop.
Variable env : Env.

Lemma writes_getTenantFromHost host :
  P (TenantService.cacheKey host) ->
  writes_only P env (TenantService.getTenantFromHost env host).
Proof. intros HP. unfold TenantService.getTenantFromHost. writes. Qed.

Lemma writes_invalidateTenantCache host :
  writes_only P env (TenantService.invalidateTenantCache env host).
Proof. unfold TenantService.invalidateTenantCache. writes. Qed.

Lemma writes_getThemeForTenant tenantId :
  P (ThemeService.cacheKey tenantId) ->
  writes_only P env (ThemeService.getThemeForTenant env tenantId).
Proof.
  intros HP. unfold ThemeService.getThemeForTenant, ThemeService.loadThemeFromStorage,
    ThemeService.fetchThemeTemplatesFromS3. writes.
Qed.

Lemma writes_invalidateThemeCache tenantId :
  writes_only P env (ThemeService.invalidateThemeCache env tenantId).
Proof. unfold ThemeService.invalidateThemeCache. writes. Qed.

Lemma writes_getProducts tenantId options :
  P (ProductService.productsKey tenantId options) ->
  writes_only P env (ProductService.getProducts env tenantId options).
Proof. intros HP. unfold ProductService.getProducts. writes. Qed.

Lemma writes_getCollections tenantId options :
  P (ProductService.collectionsKey tenantId options) ->
  writes_only P env (ProductService.getCollections env tenantId options).
Proof. intros HP. unfold ProductService.getCollections. writes. Qed.

Lemma writes_invalidateProductCache tenantId :
  writes_only P env (ProductService.invalidateProductCache env tenantId).
Proof. unfold ProductService.invalidateProductCache. writes. Qed.

Lemma writes_getProductsFromService tenantId options :
  P (Microservices.storefrontKey tenantId options) ->
  writes_only P env (Microservices.getProductsFromService env tenantId options).
Proof. intros HP. unfold Microservices.getProductsFromService. writes. Qed.

Lemma writes_resolveRoute path tenantId :
  (forall options, P (ProductService.productsKey tenantId options)) ->
  (forall options, P (ProductService.collectionsKey tenantId options)) ->
  writes_only P env (Storefront.resolveRoute env path tenantId).
Proof.
  intros HP HC. unfold Storefront.resolveRoute.
  destruct (String.eqb path "/" || String.eqb path "").
  - repeat first [apply writes_getProducts, HP | apply writes_getCollections, HC | writes_step].
  - destruct (Storefront.match_handle "/products/" path);
      [repeat first [apply writes_getProducts, HP | apply writes_getCollections, HC
                    | writes_step]|].
    destruct (Storefront.match_handle "/collections/" path);
      [repeat first [apply writes_getProducts, HP | apply writes_getCollections, HC
                    | writes_step]|].
    destruct (Storefront.match_handle "/pages/" path); writes.
Qed.

End ServiceWrites.

Lemma other_sound env {A} (m : M A) w :
  writes_only other_key env m -> tenant_cache_sound env w ->
  tenant_cache_sound env (snd (m w)).
Proof.
  intros Hk Hs host entry H. apply Hs.
  destruct (Hk w _ entry H) as [H1 | (key & Heq & Hkey)]; [exact H1|].
  apply append_inj_l in Heq. exfalso. eapply Hkey. symmetry. exact Heq.
Qed.

Lemma run_sound env c w : tenant_cache_sound env w -> tenant_cache_sound env (run env c w).
Proof.
  intros Hs. destruct c; simpl.
  - apply getTenantFromHost_sound, Hs.
  - apply invalidateTenantCache_sound, Hs.
  - apply other_sound; [|exact Hs]. apply writes_getThemeForTenant. intros h H. discriminate H.
  - apply other_sound; [|exact Hs]. apply writes_invalidateThemeCache.
  - apply other_sound; [|exact Hs]. apply writes_getProducts. intros h H. discriminate H.
  - apply other_sound; [|exact Hs]. apply writes_getCollections. intros h H. discriminate H.
  - apply other_sound; [|exact Hs]. apply writes_invalidateProductCache.
  - apply other_sound; [|exact Hs]. apply writes_getProductsFromService.
    intros h H. discriminate H.
  - apply other_sound; [|exact Hs].
    apply writes_resolveRoute; intros options h H; discriminate H.
Qed.

Lemma reachable_sound env w : reachable env w -> tenant_cache_sound env w.
Proof.
  induction 1 as [t | w c _ IH | w t _ IH].
  - intros host entry. simpl. rewrite lookup_empty. discriminate.
  - apply run_sound, IH.
  - exact IH.
Qed.

(** C8 (as amended).  For a host for which the registry has no active,
    verified domain mapping (the lookup returns no row), the Redis client
    and the pool being initialised and connected: on a cache miss (Redis
    holds no live, non-empty entry under the key of the host) tenant
    resolution returns null and not an error, and leaves the cache as it
    was; a live entry is answered without a look at the registry; and in
    every world the process can have reached against this registry the
    resolution returns null. *)
Theorem getTenantFromHost_unmapped
  (env : Env) (pool : Query -> Result (list JsValue)) (w : World) (host : string) :
  redisClient env = Some true ->
  dbPool env = Some pool ->
  pool (QTenantByDomain host) = Ok [] ->
  (redis_hit env (TenantService.cacheKey host) w = false ->
   TenantService.getTenantFromHost env host w = (Ok JNull, w))
  /\ (forall doc,
       fst (Redis.get env true (TenantService.cacheKey host) w) = Ok (Some (JsonText doc)) ->
       TenantService.getTenantFromHost env host w = (Ok doc, w))
  /\ (reachable env w ->
      TenantService.getTenantFromHost env host w = (Ok JNull, w)).
Proof.
  intros Hr Hp Hq.
  assert (forall cached,
             Redis.get env true (TenantService.cacheKey host) w = (Ok cached, w) ->
             cached_truthy cached = false ->
             TenantService.getTenantFromHost env host w = (Ok JNull, w)) as Hmiss.
  { intros cached Hget Hfalsy.
    unfold TenantService.getTenantFromHost, bind, getRedisClient. rewrite Hr.
    unfold ret at 1. unfold try_catch, bind. rewrite Hget, Hfalsy.
    unfold getDbPool. rewrite Hp. unfold ret at 1. unfold lift. rewrite Hq.
    reflexivity. }
  assert (exists cached,
             Redis.get env true (TenantService.cacheKey host) w = (Ok cached, w)) as Hget.
  { unfold Redis.get. destruct (redisStore w !! _) as [entry|]; [|eauto].
    destruct (Redis.live w entry); eauto. }
  destruct Hget as (cached & Hget).
  split; [|split].
  - intros Hno. apply (Hmiss cached Hget).
    unfold redis_hit in Hno. rewrite Hget in Hno. exact Hno.
  - intros doc Hdoc. rewrite Hget in Hdoc. simpl in Hdoc. injection Hdoc as ->.
    unfold TenantService.getTenantFromHost, bind, getRedisClient. rewrite Hr.
    unfold ret at 1. unfold try_catch, bind. rewrite Hget. reflexivity.
  - intros Hw. pose proof (reachable_sound env w Hw) as Hs.
    apply (Hmiss None); [|reflexivity].
    unfold Redis.get.
    destruct (redisStore w !! _) as [entry|] eqn:Hl; [|reflexivity].
    destruct (Hs host entry Hl) as (pool' & t & rest & Hp' & Hq' & _).
    rewrite Hp in Hp'. injection Hp' as <-. rewrite Hq in Hq'. discriminate.
Qed.

(** C8, at a sample registry: after the mapped host has been resolved
    and cached, an unmapped host, for which the cache holds nothing,
    resolves to null. *)
Lemma getTenantFromHost_unmapped_witness :
  TenantService.getTenantFromHost Sample.env "unknown.example.com"
    (snd (TenantService.getTenantFromHost Sample.env "shop.example.com" Sample.empty_world))
  = (Ok JNull,
     snd (TenantService.getTenantFromHost Sample.env "shop.example.com" Sample.empty_world)).
Proof.
  destruct (getTenantFromHost_unmapped Sample.env Sample.pool
              (snd (TenantService.getTenantFromHost Sample.env "shop.example.com"
                      Sample.empty_world))
              "unknown.example.com") as [Hmiss _].
  - reflexivity.
  - reflexivity.
  - reflexivity.
  - apply Hmiss. reflexivity.
Defined.

(** C8 as stated fails while a cached entry lives: half an hour after
    [shop.example.com] was resolved and cached, a process whose registry
    holds no mapping for the host, with Redis and registry answering,
    still resolves the host to the cached tenant, not to null. *)
Lemma getTenantFromHost_serves_removed_mapping :
  redisClient Sample.bare_env = Some true
  /\ dbPool Sample.bare_env = Some Sample.empty_pool
  /\ Sample.empty_pool (QTenantByDomain "shop.example.com") = Ok []
  /\ fst (TenantService.getTenantFromHost Sample.bare_env "shop.example.com"
            (at_time 1800
               (snd (TenantService.getTenantFromHost Sample.env "shop.example.com"
                       Sample.empty_world))))
     = Ok (json_roundtrip Sample.tenant_row)
  /\ json_roundtrip Sample.tenant_row <> JNull.
Proof.
  split; [reflexivity|]. split; [reflexivity|]. split; [reflexivity|].
  split; [reflexivity | discriminate].
Qed.

(** ** The theme loader *)

Lemma assoc_setProp_eq k v fs : assoc k (setProp k v fs) = Some v.
Proof.
  induction fs as [|[k' v'] fs IH]; simpl.
  - rewrite String.eqb_refl. reflexivity.
  - destruct (String.eqb k k') eqn:E; simpl.
    + rewrite String.eqb_refl. reflexivity.
    + rewrite E. exact IH.
Qed.

Lemma assoc_setProp_ne k k' v fs : k <> k' -> assoc k (setProp k' v fs) = assoc k fs.
Proof.
  intros Hne. induction fs as [|[k'' v''] fs IH]; simpl.
  - apply String.eqb_neq in Hne. rewrite Hne. reflexivity.
  - destruct (String.eqb k' k'') eqn:E; simpl.
    + apply String.eqb_eq in E as <-.
      apply String.eqb_neq in Hne. rewrite Hne. reflexivity.
    + destruct (String.eqb k k''); [reflexivity | exact IH].
Qed.

Section ThemeLoaderFacts.
Import ThemeService.

Variable env : Env.
Variable s3 : string -> string -> S3Reply.
Variable s3Key : JsValue.

Lemma fetchOne_fetched templates name :
  fetchOne env s3 s3Key templates name
  = match fetched (s3 (bucketName env) (template_key s3Key name)) with
    | Some v => setProp name v templates
    | None => templates
    end.
Proof.
  unfold fetchOne, fetched, template_key.
  destruct (s3 _ _) as [[body|]|err]; try reflexivity.
  simpl. destruct (String.eqb body ""); reflexivity.
Qed.

Lemma assoc_fetchOne templates n name :
  assoc name (fetchOne env s3 s3Key templates n)
  = if String.eqb name n
    then match fetched (s3 (bucketName env) (template_key s3Key name)) with
         | Some v => Some v
         | None => assoc name templates
         end
    else assoc name templates.
Proof.
  rewrite fetchOne_fetched. destruct (String.eqb name n) eqn:E.
  - apply String.eqb_eq in E as <-.
    destruct (fetched _); [apply assoc_setProp_eq | reflexivity].
  - apply String.eqb_neq in E.
    destruct (fetched _); [apply assoc_setProp_ne, E | reflexivity].
Qed.

Lemma assoc_fetch_fold names templates name :
  assoc name (fold_left (fetchOne env s3 s3Key) names templates)
  = if existsb (String.eqb name) names
    then match fetched (s3 (bucketName env) (template_key s3Key name)) with
         | Some v => Some v
         | None => assoc name templates
         end
    else assoc name templates.
Proof.
  revert templates. induction names as [|n names IH]; intros templates; simpl.
  - reflexivity.
  - rewrite IH, assoc_fetchOne.
    destruct (String.eqb name n), (existsb (String.eqb name) names),
      (fetched (s3 (bucketName env) (template_key s3Key name))); reflexivity.
Qed.

Lemma fetched_templates name :
  In name templateFiles ->
  assoc name (fold_left (fetchOne env s3 s3Key) templateFiles [])
  = fetched (s3 (bucketName env) (template_key s3Key name)).
Proof.
  intros Hin. rewrite assoc_fetch_fold.
  assert (existsb (String.eqb name) templateFiles = true) as ->.
  { apply existsb_exists. exists name. split; [exact Hin | apply String.eqb_refl]. }
  destruct (fetched _); reflexivity.
Qed.

End ThemeLoaderFacts.

(** C2 (as amended).  With the pool and the S3 client initialised, the
    storage load fails exactly when the registry query fails.  When the
    registry has a main theme, the load succeeds whatever the blob
    storage answers: each template name whose fetch yields a non-empty
    body is in the bundle with that body, and every other name is
    omitted, be its file absent ([NoSuchKey]), its fetch refused with
    any other error, or its body missing or empty. *)
Theorem loadThemeFromStorage_tolerant
  (env : Env) (pool : Query -> Result (list JsValue))
  (s3 : string -> string -> S3Reply) (tenantId : string) (w : World) :
  dbPool env = Some pool ->
  s3Client env = Some s3 ->
  (forall e, pool (QMainTheme tenantId) = Threw e ->
             ThemeService.loadThemeFromStorage env tenantId w = (Threw e, w))
  /\ (pool (QMainTheme tenantId) = Ok [] ->
      ThemeService.loadThemeFromStorage env tenantId w = (Ok JNull, w))
  /\ (forall row rest,
         pool (QMainTheme tenantId) = Ok (row :: rest) ->
         exists templates,
           ThemeService.loadThemeFromStorage env tenantId w
           = (Ok (JObj (spread (own_fields row) [("templates", JObj templates)])), w)
           /\ forall name, In name ThemeService.templateFiles ->
                assoc name templates
                = fetched (s3 (bucketName env) (template_key (getProp row "s3_key") name)))
  /\ (is_ok (fst (ThemeService.loadThemeFromStorage env tenantId w)) = false
      <-> exists e, pool (QMainTheme tenantId) = Threw e).
Proof.
  intros Hp Hs3.
  assert (forall rows, pool (QMainTheme tenantId) = rows ->
            ThemeService.loadThemeFromStorage env tenantId w
            = match rows with
              | Threw e => (Threw e, w)
              | Ok [] => (Ok JNull, w)
              | Ok (row :: _) =>
                  (Ok (JObj (spread (own_fields row)
                               [("templates",
                                 JObj (fold_left
                                         (ThemeService.fetchOne env s3 (getProp row "s3_key"))
                                         ThemeService.templateFiles []))])), w)
              end) as Hload.
  { intros rows Hq. unfold ThemeService.loadThemeFromStorage, bind, getDbPool.
    rewrite Hp. unfold ret, lift. rewrite Hq. destruct rows as [[|row rest]|e]; try reflexivity.
    unfold ThemeService.fetchThemeTemplatesFromS3, bind, getS3Client. rewrite Hs3.
    reflexivity. }
  split; [|split; [|split]].
  - intros e Hq. apply (Hload _ Hq).
  - intros Hq. apply (Hload _ Hq).
  - intros row rest Hq. eexists. split; [apply (Hload _ Hq)|].
    intros name Hin. apply fetched_templates, Hin.
  - rewrite (Hload _ eq_refl).
    destruct (pool (QMainTheme tenantId)) as [[|row rest]|e]; simpl; split;
      try discriminate; try (intros [e' He']; discriminate He'); eauto.
Qed.

(** C2, at the sample bucket: [index.liquid] is in the bundle,
    [cart.liquid], which is absent, is not. *)
Lemma loadThemeFromStorage_tolerant_witness :
  exists templates,
    ThemeService.loadThemeFromStorage Sample.env "t1" Sample.empty_world
    = (Ok (JObj (spread (own_fields Sample.theme_row) [("templates", JObj templates)])),
       Sample.empty_world)
    /\ assoc "index" templates = Some (JStr "<h1>{{ shop.name }}</h1>")
    /\ assoc "cart" templates = None.
Proof.
  destruct (loadThemeFromStorage_tolerant Sample.env Sample.pool Sample.s3 "t1"
              Sample.empty_world eq_refl eq_refl) as (_ & _ & H & _).
  destruct (H Sample.theme_row [] eq_refl) as (templates & Hload & Hnames).
  exists templates. split; [exact Hload|]. split.
  - rewrite (Hnames "index"); [reflexivity | simpl; auto].
  - rewrite (Hnames "cart"); [reflexivity | simpl; auto 10].
Defined.

(** C2 as stated fails on a blob-storage error: fetching
    [product.liquid] is refused with [AccessDenied], and the load still
    succeeds, with that name omitted. *)
Lemma load_survives_storage_error :
  Sample.s3 "themes" "themes/t1/1.0.0/templates/product.liquid" = S3Rejects "AccessDenied"
  /\ fst (ThemeService.loadThemeFromStorage Sample.env "t1" Sample.empty_world)
     = Ok (JObj [("id", JStr "th1"); ("name", JStr "Dawn"); ("version", JStr "1.0.0");
                 ("s3_key", JStr "themes/t1/1.0.0"); ("settings", JObj []);
                 ("templates", JObj [("index", JStr "<h1>{{ shop.name }}</h1>")])]).
Proof. split; reflexivity. Qed.

Lemma loadThemeFromStorage_world env tenantId w :
  ThemeService.loadThemeFromStorage env tenantId w
  = (fst (ThemeService.loadThemeFromStorage env tenantId w), w).
Proof.
  unfold ThemeService.loadThemeFromStorage, bind, getDbPool.
  destruct (dbPool env) as [pool|]; [|reflexivity].
  unfold ret, lift. destruct (pool (QMainTheme tenantId)) as [[|row rest]|e]; try reflexivity.
  unfold ThemeService.fetchThemeTemplatesFromS3, bind, getS3Client.
  destruct (s3Client env); reflexivity.
Qed.

Lemma loadThemeFromStorage_any_world env tenantId w1 w2 :
  fst (ThemeService.loadThemeFromStorage env tenantId w1)
  = fst (ThemeService.loadThemeFromStorage env tenantId w2).
Proof.
  unfold ThemeService.loadThemeFromStorage, bind, getDbPool.
  destruct (dbPool env) as [pool|]; [|reflexivity].
  unfold ret, lift. destruct (pool (QMainTheme tenantId)) as [[|row rest]|e]; try reflexivity.
  unfold ThemeService.fetchThemeTemplatesFromS3, bind, getS3Client.
  destruct (s3Client env); reflexivity.
Qed.

Lemma memory_miss key w :
  memory_hit key w = false ->
  exists v w1,
    NodeCache.get key w = (Ok v, w1) /\ truthy v = false
    /\ now w1 = now w /\ redisStore w1 = redisStore w.
Proof.
  unfold memory_hit, NodeCache.get.
  destruct (memoryCache w !! key) as [[v [expiry|]]|].
  - destruct (expiry <? now w); simpl; eauto 6.
  - simpl. eauto 6.
  - simpl. eauto 6.
Qed.

Lemma redis_get_same env up key w1 w :
  now w1 = now w -> redisStore w1 = redisStore w ->
  Redis.get env up key w1 = (fst (Redis.get env up key w), w1).
Proof.
  intros Hn Hs. unfold Redis.get, Redis.live. rewrite Hn, Hs.
  destruct up; [|reflexivity].
  destruct (redisStore w !! _) as [entry|]; [|reflexivity].
  destruct (now w <? entry.2); reflexivity.
Qed.

Lemma redis_get_ok env key w :
  exists cached, fst (Redis.get env true key w) = Ok cached.
Proof.
  unfold Redis.get. destruct (redisStore w !! _) as [entry|]; [|eauto].
  destruct (Redis.live w entry); eauto.
Qed.

(** C6.  Whenever [getThemeForTenant] returns a theme on the storage load
    path (neither cache had a usable entry), that theme is the one
    loaded from storage, the process-local cache and the distributed
    cache both hold it under the key of the tenant when the function
    returns, and a later lookup within the TTL window returns it
    whatever the storage, the registry and the Redis connection then
    are: it touches none of them. *)
Theorem getThemeForTenant_populates
  (env : Env) (tenantId : string) (w w' : World) (theme : JsValue) :
  memory_hit (ThemeService.cacheKey tenantId) w = false ->
  redis_hit env (ThemeService.cacheKey tenantId) w = false ->
  ThemeService.getThemeForTenant env tenantId w = (Ok theme, w') ->
  truthy theme = true ->
  fst (ThemeService.loadThemeFromStorage env tenantId w) = Ok theme
  /\ NodeCache.get (ThemeService.cacheKey tenantId) w' = (Ok theme, w')
  /\ Redis.get env true (ThemeService.cacheKey tenantId) w'
     = (Ok (Some (json_text theme)), w')
  /\ forall (env' : Env) (t : Z),
       now w <= t < now w + themesCacheTTL env ->
       ThemeService.getThemeForTenant env' tenantId (at_time t w')
       = (Ok theme, at_time t w').
Proof.
  intros Hmem Hredis Hget Htheme.
  destruct (memory_miss _ _ Hmem) as (v & w1 & Hm & Hv & Hnow & Hstore).
  unfold ThemeService.getThemeForTenant, try_catch in Hget.
  unfold bind at 1 in Hget. rewrite Hm, Hv in Hget.
  unfold bind at 1 in Hget. unfold getRedisClient in Hget.
  destruct (redisClient env) as [up|]; [|discriminate Hget].
  unfold ret at 1 in Hget. unfold bind at 1 in Hget.
  rewrite (redis_get_same env up _ w1 w Hnow Hstore) in Hget.
  destruct up; [|discriminate Hget].
  unfold redis_hit in Hredis.
  destruct (redis_get_ok env (ThemeService.cacheKey tenantId) w) as [cached Hc].
  rewrite Hc in Hredis, Hget. rewrite Hredis in Hget.
  unfold bind at 1 in Hget. rewrite loadThemeFromStorage_world in Hget.
  rewrite (loadThemeFromStorage_any_world env tenantId w1 w) in Hget.
  destruct (fst (ThemeService.loadThemeFromStorage env tenantId w)) as [loaded|e];
    [|discriminate Hget].
  destruct (truthy loaded) eqn:Hl; simpl negb in Hget; cbv iota in Hget.
  2:{ unfold ret in Hget. injection Hget as <- _. discriminate Htheme. }
  unfold bind, NodeCache.set, Redis.setex in Hget. simpl in Hget.
  destruct (0 <? themesCacheTTL env) eqn:Httl; [|discriminate Hget].
  unfold ret in Hget. injection Hget as <- <-.
  apply Z.ltb_lt in Httl.
  assert ((themesCacheTTL env =? 0) = false) as Hz by (apply Z.eqb_neq; lia).
  rewrite Hz.
  split; [reflexivity|]. split; [|split].
  - unfold NodeCache.get. simpl. rewrite lookup_insert_eq.
    assert ((now w1 + themesCacheTTL env <? now w1) = false) as -> by (apply Z.ltb_ge; lia).
    reflexivity.
  - unfold Redis.get, Redis.live. simpl. rewrite lookup_insert_eq. simpl.
    assert ((now w1 <? now w1 + themesCacheTTL env) = true) as -> by (apply Z.ltb_lt; lia).
    reflexivity.
  - intros env' t Ht.
    unfold ThemeService.getThemeForTenant, try_catch, bind, NodeCache.get. simpl.
    rewrite lookup_insert_eq.
    assert ((now w1 + themesCacheTTL env <? t) = false) as -> by (apply Z.ltb_ge; lia).
    rewrite Hl. reflexivity.
Qed.

(** C6, at the sample tenant: after the first lookup both tiers hold the
    theme, and a lookup 3599 seconds later succeeds with every backend
    gone. *)
Lemma getThemeForTenant_populates_witness :
  NodeCache.get "theme:t1" Sample.themed_world = (Ok Sample.loaded_theme, Sample.themed_world)
  /\ Redis.get Sample.env true "theme:t1" Sample.themed_world
     = (Ok (Some (json_text Sample.loaded_theme)), Sample.themed_world)
  /\ ThemeService.getThemeForTenant Sample.offline_env "t1" (at_time 3599 Sample.themed_world)
     = (Ok Sample.loaded_theme, at_time 3599 Sample.themed_world).
Proof.
  destruct (getThemeForTenant_populates Sample.env "t1" Sample.empty_world
              Sample.themed_world Sample.loaded_theme)
    as (_ & Hmem & Hredis & Hlater).
  - reflexivity.
  - reflexivity.
  - reflexivity.
  - reflexivity.
  - split; [exact Hmem|]. split; [exact Hredis|].
    apply (Hlater Sample.offline_env 3599). simpl. lia.
Defined.

(** ** Bulk invalidation *)

Lemma redis_keys_present env pattern w :
  exists keys,
    Redis.keys env true pattern w = (Ok keys, w)
    /\ forall k, In k keys -> is_Some (redisStore w !! k).
Proof.
  unfold Redis.keys. eexists. split; [reflexivity|].
  intros k Hin. apply in_map_iff in Hin as ([k' entry] & <- & Hin).
  apply filter_In in Hin as [Hin _].
  apply list_elem_of_In, elem_of_map_to_list in Hin. simpl. eauto.
Qed.

Lemma redis_del_absent env keys w :
  (forall k, In k keys -> redisStore w !! (keyPrefix env +:+ k) = None) ->
  Redis.del env true keys w = (Ok tt, w).
Proof.
  intros Habs. unfold Redis.del, set_redisStore. f_equal.
  rewrite <- (world_eta w) at 4. f_equal.
  induction keys as [|k keys IH]; simpl; [reflexivity|].
  rewrite IH by (intros k' Hk'; apply Habs; right; exact Hk').
  apply delete_id. apply Habs. left. reflexivity.
Qed.

Lemma invalidate_without_twins env tenantId w :
  redisClient env = Some true ->
  (forall k, is_Some (redisStore w !! k) -> redisStore w !! (keyPrefix env +:+ k) = None) ->
  ProductService.invalidateProductCache env tenantId w = (Ok tt, w).
Proof.
  intros Hr Hstore.
  unfold ProductService.invalidateProductCache, bind, getRedisClient. rewrite Hr.
  unfold ret at 1.
  destruct (redis_keys_present env (keyPrefix env +:+ "products:" +:+ tenantId +:+ ":*") w)
    as (keys & -> & Hkeys).
  assert (forall ks, (forall k, In k ks -> is_Some (redisStore w !! k)) ->
            (if Nat.ltb 0 (length ks) then Redis.del env true ks else ret tt) w = (Ok tt, w))
    as Hdel.
  { intros ks Hks. destruct (Nat.ltb 0 (length ks)); [|reflexivity].
    apply redis_del_absent. intros k Hk. apply Hstore, Hks, Hk. }
  rewrite (Hdel keys Hkeys).
  destruct (redis_keys_present env (keyPrefix env +:+ "collections:" +:+ tenantId +:+ ":*") w)
    as (ckeys & -> & Hckeys).
  apply (Hdel ckeys Hckeys).
Qed.

Lemma writes_service_keys env {A} (m : M A) w :
  writes_only is_service_key env m -> service_keys_only env w ->
  service_keys_only env (snd (m w)).
Proof.
  intros Hm Hinv pk [entry H].
  destruct (Hm w pk entry H) as [H1 | (key & -> & Hk)]; [apply Hinv; eauto | eauto].
Qed.

Lemma run_service_keys env c w :
  service_keys_only env w -> service_keys_only env (run env c w).
Proof.
  intros Hinv. destruct c; simpl; (apply writes_service_keys; [|exact Hinv]).
  - apply writes_getTenantFromHost. reflexivity.
  - apply writes_invalidateTenantCache.
  - apply writes_getThemeForTenant. reflexivity.
  - apply writes_invalidateThemeCache.
  - apply writes_getProducts. reflexivity.
  - apply writes_getCollections. reflexivity.
  - apply writes_invalidateProductCache.
  - apply writes_getProductsFromService. reflexivity.
  - apply writes_resolveRoute; intros options; reflexivity.
Qed.

Lemma reachable_service_keys env w : reachable env w -> service_keys_only env w.
Proof.
  induction 1 as [t | w c _ IH | w t _ IH].
  - intros pk [entry H]. simpl in H. rewrite lookup_empty in H. discriminate H.
  - apply run_service_keys, IH.
  - exact IH.
Qed.

(** Under a key prefix that begins no service key, nothing a reachable
    store holds is the prefixed name of another of its keys. *)
Lemma reachable_without_twins env w :
  (forall key, service_key (keyPrefix env +:+ key) = false) ->
  reachable env w ->
  forall k, is_Some (redisStore w !! k) -> redisStore w !! (keyPrefix env +:+ k) = None.
Proof.
  intros Hprefix Hw k Hk.
  pose proof (reachable_service_keys env w Hw) as Hinv.
  destruct (redisStore w !! (keyPrefix env +:+ k)) as [entry|] eqn:Htwin; [|reflexivity].
  exfalso.
  destruct (Hinv _ (ex_intro _ entry Htwin)) as (key' & Heq & Hkey').
  apply append_inj_l in Heq. subst key'.
  destruct (Hinv k Hk) as (key & -> & _).
  rewrite Hprefix in Hkey'. discriminate Hkey'.
Qed.

(** C1, what the code does instead: under the configured default key
    prefix ['renderer:'], in every world the process can have reached,
    [invalidateProductCache] completes and removes nothing, so every key
    carrying the tenant's product or collection prefix remains.  [KEYS]
    replies with physical names, which already carry the prefix, and
    [del] prepends the prefix a second time. *)
Theorem invalidateProductCache_removes_nothing (env : Env) (tenantId : string) (w : World) :
  keyPrefix env = "renderer:" ->
  redisClient env = Some true ->
  reachable env w ->
  ProductService.invalidateProductCache env tenantId w = (Ok tt, w).
Proof.
  intros Hprefix Hr Hw. apply invalidate_without_twins; [exact Hr|].
  apply reachable_without_twins; [|exact Hw].
  intros key. rewrite Hprefix. reflexivity.
Qed.

(** C1, at the sample tenant: the invalidation of [t1] completes and
    leaves the cache as it was, the keys carrying the product and
    collection prefixes of [t1] included. *)
Lemma invalidateProductCache_removes_nothing_witness :
  ProductService.invalidateProductCache Sample.env "t1" Sample.stocked_world
  = (Ok tt, Sample.stocked_world).
Proof.
  apply invalidateProductCache_removes_nothing.
  - reflexivity.
  - reflexivity.
  - unfold Sample.stocked_world, Sample.stock.
    repeat apply reach_call. apply (reach_start Sample.env 0).
Defined.

(** The keys of [t1] in the sample cache, before and hence after the
    invalidation. *)
Lemma stocked_world_keys :
  fst (Redis.keys Sample.env true "renderer:products:t1:*" Sample.stocked_world)
  = Ok ["renderer:products:t1:{}";
        "renderer:products:t1:{" +:+ dq +:+ "handle" +:+ dq +:+ ":" +:+ dq +:+ "blue-shirt"
          +:+ dq +:+ "," +:+ dq +:+ "limit" +:+ dq +:+ ":1}"]
  /\ fst (Redis.keys Sample.env true "renderer:collections:t1:*" Sample.stocked_world)
     = Ok ["renderer:collections:t1:{}";
           "renderer:collections:t1:{" +:+ dq +:+ "limit" +:+ dq +:+ ":3}"]
  /\ fst (Redis.keys Sample.env true "renderer:storefront:products:t1:*"
            Sample.stocked_world)
     = Ok ["renderer:storefront:products:t1:{" +:+ dq +:+ "limit" +:+ dq +:+ ":12}"].
Proof. vm_compute. repeat split. Qed.

(** With an empty key prefix the scan-and-delete does remove the
    [products:] and [collections:] keys of the tenant; the entries that
    [getProductsFromService] caches under [storefront:products:] match
    neither pattern and stay. *)
Lemma invalidateProductCache_plain_prefix :
  fst (ProductService.invalidateProductCache Sample.plain_env "t1"
         (Sample.stock Sample.plain_env)) = Ok tt
  /\ fst (Redis.keys Sample.plain_env true "products:t1:*"
            (snd (ProductService.invalidateProductCache Sample.plain_env "t1"
                    (Sample.stock Sample.plain_env)))) = Ok []
  /\ fst (Redis.keys Sample.plain_env true "collections:t1:*"
            (snd (ProductService.invalidateProductCache Sample.plain_env "t1"
                    (Sample.stock Sample.plain_env)))) = Ok []
  /\ fst (Redis.keys Sample.plain_env true "*"
            (snd (ProductService.invalidateProductCache Sample.plain_env "t1"
                    (Sample.stock Sample.plain_env))))
     = Ok ["storefront:products:t1:{" +:+ dq +:+ "limit" +:+ dq +:+ ":12}"].
Proof. vm_compute. repeat split. Qed.

(** ** Block rendering *)

Lemma contains_unfold needle s :
  contains needle s
  = match strip_prefix needle s with
    | Some _ => true
    | None => match s with
              | EmptyString => false
              | String _ r => contains needle r
              end
    end.
Proof. destruct s; reflexivity. Qed.

Lemma contains_prefix needle rest : contains needle (needle +:+ rest) = true.
Proof. rewrite contains_unfold, strip_prefix_app. reflexivity. Qed.

Lemma contains_app needle a s :
  contains needle s = true -> contains needle (a +:+ s) = true.
Proof.
  intros H. induction a as [|c a IH]; [exact H|].
  change (String c a +:+ s) with (String c (a +:+ s)).
  rewrite contains_unfold. destruct (strip_prefix needle _); [reflexivity | exact IH].
Qed.












(** ** Worked examples *)

Example handleize_collapses : Handleize.handleize "--Hello,   World__2024--" = "hello-world-2024".
Proof. reflexivity. Qed.

Example handleize_punctuation_only : Handleize.handleize "?!" = "".
Proof. reflexivity. Qed.

Example words_of_title :
  alnum_words (Handleize.toLowerCase "My Cool Product!!") = ["my"; "cool"; "product"].
Proof. reflexivity. Qed.

Example stringify_filter :
  JSON_stringify (JObj [("handle", JStr "blue-shirt"); ("collection_id", JUndefined);
                        ("limit", JNum 1)])
  = "{" +:+ dq +:+ "handle" +:+ dq +:+ ":" +:+ dq +:+ "blue-shirt" +:+ dq +:+ ","
    +:+ dq +:+ "limit" +:+ dq +:+ ":1}".
Proof. reflexivity. Qed.

Example glob_star : Redis.matches "renderer:products:t1:*" "renderer:products:t1:{}" = true.
Proof. reflexivity. Qed.

Example glob_other_tenant :
  Redis.matches "renderer:products:t1:*" "renderer:products:t10:{}" = false.
Proof. reflexivity. Qed.

Example glob_class : Redis.matches "h[a-e]ll?" "hello" = true.
Proof. reflexivity. Qed.

Example pattern_products : Storefront.match_handle "/products/" "/products/blue-shirt" = Some "blue-shirt".
Proof. reflexivity. Qed.

Example pattern_nested : Storefront.match_handle "/products/" "/products/a/b" = None.
Proof. reflexivity. Qed.

Example pattern_trailing_newline :
  Storefront.match_handle "/products/" ("/products/abc" +:+ String (ascii_of_nat 10) "") = None.
Proof. reflexivity. Qed.

Example resolve_known_product :
  fst (Storefront.resolveRoute Sample.env "/products/blue-shirt" "t1" Sample.empty_world)
  = Ok (Storefront.mkRoute "product" (JStr "product")
          (JObj [("product", Sample.product_row)])).
Proof. reflexivity. Qed.

Example resolve_mapped_host :
  fst (TenantService.getTenantFromHost Sample.env "shop.example.com" Sample.empty_world)
  = Ok Sample.tenant_row.
Proof. reflexivity. Qed.

Example render_sample_page :
  Renderer.renderPage Sample.liquid Sample.loaded_theme Sample.untitled_route Sample.context
  = Ok "<h1>Demo Shop</h1>".
Proof. reflexivity. Qed.

Example print_array :
  ToString (JArr [JNum 1; JNull; JStr "a"; JArr [JBool true; JUndefined]; JObj []])
  = Ok "1,,a,true,,[object Object]".
Proof. reflexivity. Qed.

Example print_object_with_toString :
  ToString (JArr [JStr "a"; JObj [("toString", JStr "x")]]) = Threw cannot_convert.
Proof. reflexivity. Qed.

Example lookup_inherited :
  Renderer.optional_get (JObj [("index", JStr "<p></p>")]) "constructor"
  = Renderer.Inherited "constructor".
Proof. reflexivity. Qed.

Example render_unprintable_name :
  Renderer.renderPage Sample.liquid Sample.index_theme
    (Storefront.mkRoute "home" (JObj [("toString", JNull)]) (JObj [])) Sample.context
  = Threw cannot_convert.
Proof. reflexivity. Qed.

(** * Further properties *)

(** ** Strings *)


(** ** Cache round trips of the tenant resolver *)

Lemma redis_miss env key w :
  redis_hit env key w = false ->
  exists cached, Redis.get env true key w = (Ok cached, w) /\ cached_truthy cached = false.
Proof.
  unfold redis_hit, Redis.get.
  destruct (redisStore w !! _) as [entry|]; [|simpl; eauto].
  destruct (Redis.live w entry); simpl; eauto.
Qed.

(** X1.  A tenant resolved from the registry is kept for 3600 seconds:
    the resolution returns the first row and, within that window, every
    resolution of the host under the same key prefix is answered from
    Redis with the JSON round trip of that row, whatever registry the
    process then has. *)
Theorem getTenantFromHost_reuses_answer
  (env : Env) (pool : Query -> Result (list JsValue)) (host : string)
  (tenant : JsValue) (rest : list JsValue) (w : World) :
  redisClient env = Some true ->
  dbPool env = Some pool ->
  redis_hit env (TenantService.cacheKey host) w = false ->
  pool (QTenantByDomain host) = Ok (tenant :: rest) ->
  fst (TenantService.getTenantFromHost env host w) = Ok tenant
  /\ forall (env' : Env) (t : Z),
       keyPrefix env' = keyPrefix env ->
       redisClient env' = Some true ->
       now w <= t < now w + 3600 ->
       TenantService.getTenantFromHost env' host
         (at_time t (snd (TenantService.getTenantFromHost env host w)))
       = (Ok (json_roundtrip tenant),
          at_time t (snd (TenantService.getTenantFromHost env host w))).
Proof.
  intros Hr Hp Hmiss Hq.
  destruct (redis_miss _ _ _ Hmiss) as (cached & Hget & Hfalsy).
  assert (TenantService.getTenantFromHost env host w
          = (Ok tenant,
             set_redisStore
               (insert (keyPrefix env +:+ TenantService.cacheKey host)
                       (json_text tenant, now w + 3600)) w)) as Hrun.
  { unfold TenantService.getTenantFromHost, bind, getRedisClient. rewrite Hr.
    unfold ret at 1. unfold try_catch, bind. rewrite Hget, Hfalsy.
    unfold getDbPool. rewrite Hp. unfold ret at 1. unfold lift. rewrite Hq.
    reflexivity. }
  rewrite Hrun. split; [reflexivity|].
  intros env' t Hk Hr' Ht.
  unfold TenantService.getTenantFromHost, bind, getRedisClient. rewrite Hr'.
  unfold ret at 1. unfold try_catch, bind, Redis.get, Redis.live. rewrite Hk. simpl.
  rewrite lookup_insert_eq. simpl.
  assert ((t <? now w + 3600) = true) as -> by (apply Z.ltb_lt; lia).
  reflexivity.
Qed.

(** X1, at the sample registry: the tenant of [shop.example.com] is
    still answered 3599 seconds later by a process whose registry is
    empty. *)
Lemma getTenantFromHost_reuses_answer_witness :
  TenantService.getTenantFromHost Sample.bare_env "shop.example.com"
    (at_time 3599
       (snd (TenantService.getTenantFromHost Sample.env "shop.example.com" Sample.empty_world)))
  = (Ok (json_roundtrip Sample.tenant_row),
     at_time 3599
       (snd (TenantService.getTenantFromHost Sample.env "shop.example.com" Sample.empty_world))).
Proof.
  destruct (getTenantFromHost_reuses_answer Sample.env Sample.pool "shop.example.com"
              Sample.tenant_row [] Sample.empty_world) as [_ Hlater].
  - reflexivity.
  - reflexivity.
  - reflexivity.
  - reflexivity.
  - apply (Hlater Sample.bare_env 3599).
    + reflexivity.
    + reflexivity.
    + simpl. lia.
Defined.

(** X2.  After [invalidateTenantCache] the next resolution of the host
    asks the registry: it returns the first row of the registry's answer,
    or null when there is none, whatever the cache held before. *)
Theorem invalidateTenantCache_forces_registry
  (env : Env) (pool : Query -> Result (list JsValue)) (host : string)
  (rows : list JsValue) (w : World) :
  redisClient env = Some true ->
  dbPool env = Some pool ->
  pool (QTenantByDomain host) = Ok rows ->
  fst (TenantService.invalidateTenantCache env host w) = Ok tt
  /\ fst (TenantService.getTenantFromHost env host
            (snd (TenantService.invalidateTenantCache env host w)))
     = Ok (List.hd JNull rows).
Proof.
  intros Hr Hp Hq.
  unfold TenantService.invalidateTenantCache, bind, getRedisClient. rewrite Hr.
  unfold ret at 1. unfold Redis.del. simpl. split; [reflexivity|].
  unfold TenantService.getTenantFromHost, bind, getRedisClient. rewrite Hr.
  unfold ret at 1. unfold try_catch, bind, Redis.get. simpl.
  rewrite lookup_delete_eq. simpl.
  unfold getDbPool. rewrite Hp. unfold ret at 1. unfold lift. rewrite Hq.
  destruct rows as [|tenant rest]; [reflexivity|].
  unfold Redis.setex. reflexivity.
Qed.

Lemma invalidateTenantCache_forces_registry_witness :
  fst (TenantService.getTenantFromHost Sample.bare_env "shop.example.com"
         (snd (TenantService.invalidateTenantCache Sample.bare_env "shop.example.com"
                 (snd (TenantService.getTenantFromHost Sample.env "shop.example.com"
                         Sample.empty_world)))))
  = Ok JNull.
Proof.
  destruct (invalidateTenantCache_forces_registry Sample.bare_env Sample.empty_pool
              "shop.example.com" []
              (snd (TenantService.getTenantFromHost Sample.env "shop.example.com"
                      Sample.empty_world))) as [_ H].
  - reflexivity.
  - reflexivity.
  - reflexivity.
  - exact H.
Defined.

(** ** Cache round trips of the theme service *)

Lemma getThemeForTenant_miss env tenantId w :
  redisClient env = Some true ->
  memory_hit (ThemeService.cacheKey tenantId) w = false ->
  redis_hit env (ThemeService.cacheKey tenantId) w = false ->
  exists w1,
    now w1 = now w /\ redisStore w1 = redisStore w
    /\ memory_hit (ThemeService.cacheKey tenantId) w1 = false
    /\ (forall key, memoryCache w1 !! key = None \/ memoryCache w1 !! key = memoryCache w !! key)
    /\ ThemeService.getThemeForTenant env tenantId w
       = match fst (ThemeService.loadThemeFromStorage env tenantId w) with
         | Ok theme =>
             if negb (truthy theme) then (Ok JNull, w1)
             else
               (NodeCache.set env (ThemeService.cacheKey tenantId) theme ;;;
                Redis.setex env true (ThemeService.cacheKey tenantId) (themesCacheTTL env)
                  (json_text theme) ;;;
                ret theme) w1
         | Threw e => (Threw e, w1)
         end.
Proof.
  intros Hr Hmem Hredis.
  assert (exists v w1,
             NodeCache.get (ThemeService.cacheKey tenantId) w = (Ok v, w1) /\ truthy v = false
             /\ now w1 = now w /\ redisStore w1 = redisStore w
             /\ memory_hit (ThemeService.cacheKey tenantId) w1 = false
             /\ (forall key, memoryCache w1 !! key = None
                             \/ memoryCache w1 !! key = memoryCache w !! key))
    as (v & w1 & Hm & Hv & Hnow & Hstore & Hmem1 & Hkeys).
  { revert Hmem. unfold memory_hit, NodeCache.get.
    destruct (memoryCache w !! ThemeService.cacheKey tenantId) as [[v [expiry|]]|] eqn:Hl.
    - destruct (expiry <? now w) eqn:He; simpl.
      + intros _. eexists _, _. split; [reflexivity|]. repeat split; simpl.
        * rewrite lookup_delete_eq. reflexivity.
        * intros key. rewrite lookup_delete. case_decide; auto.
      + intros Hv. eexists _, _. split; [reflexivity|]. repeat split; auto.
        rewrite Hl, He. exact Hv.
    - simpl. intros Hv. eexists _, _. split; [reflexivity|]. repeat split; auto.
      rewrite Hl. exact Hv.
    - simpl. intros _. eexists _, _. split; [reflexivity|]. repeat split; auto.
      rewrite Hl. reflexivity. }
  exists w1. repeat split; try assumption.
  destruct (redis_miss _ _ _ Hredis) as (cached & Hget & Hfalsy).
  unfold ThemeService.getThemeForTenant, try_catch.
  unfold bind at 1. rewrite Hm, Hv.
  unfold bind at 1. unfold getRedisClient. rewrite Hr. unfold ret at 1.
  unfold bind at 1. rewrite (redis_get_same env true _ w1 w Hnow Hstore), Hget. simpl fst.
  cbv beta iota. rewrite Hfalsy.
  unfold bind at 1. rewrite loadThemeFromStorage_world.
  rewrite (loadThemeFromStorage_any_world env tenantId w1 w).
  destruct (fst (ThemeService.loadThemeFromStorage env tenantId w)) as [theme|e];
    [|reflexivity].
  destruct (truthy theme);
    [change (negb true) with false | change (negb false) with true]; cbv iota.
  - destruct ((NodeCache.set env (ThemeService.cacheKey tenantId) theme ;;;
               Redis.setex env true (ThemeService.cacheKey tenantId) (themesCacheTTL env)
                 (json_text theme) ;;; ret theme) w1) as [[r|e] w2]; reflexivity.
  - reflexivity.
Qed.

Lemma redis_hit_same env key w1 w :
  now w1 = now w -> redisStore w1 = redisStore w ->
  redis_hit env key w1 = redis_hit env key w.
Proof.
  intros Hn Hs. unfold redis_hit. rewrite (redis_get_same env true key w1 w Hn Hs).
  reflexivity.
Qed.

(** X3.  A tenant without a main theme is not remembered: when neither
    cache has a usable entry and the registry returns no theme row,
    [getThemeForTenant] returns null and leaves both caches without an
    entry for the tenant, the Redis store exactly as it was. *)
Theorem getThemeForTenant_absent_not_cached
  (env : Env) (pool : Query -> Result (list JsValue)) (tenantId : string) (w : World) :
  redisClient env = Some true ->
  dbPool env = Some pool ->
  pool (QMainTheme tenantId) = Ok [] ->
  memory_hit (ThemeService.cacheKey tenantId) w = false ->
  redis_hit env (ThemeService.cacheKey tenantId) w = false ->
  fst (ThemeService.getThemeForTenant env tenantId w) = Ok JNull
  /\ redisStore (snd (ThemeService.getThemeForTenant env tenantId w)) = redisStore w
  /\ memory_hit (ThemeService.cacheKey tenantId)
       (snd (ThemeService.getThemeForTenant env tenantId w)) = false
  /\ redis_hit env (ThemeService.cacheKey tenantId)
       (snd (ThemeService.getThemeForTenant env tenantId w)) = false.
Proof.
  intros Hr Hp Hq Hmem Hredis.
  destruct (getThemeForTenant_miss env tenantId w Hr Hmem Hredis)
    as (w1 & Hnow & Hstore & Hmem1 & _ & ->).
  assert (fst (ThemeService.loadThemeFromStorage env tenantId w) = Ok JNull) as ->.
  { unfold ThemeService.loadThemeFromStorage, bind, getDbPool. rewrite Hp.
    unfold ret at 1. unfold lift. rewrite Hq. reflexivity. }
  simpl. repeat split; try assumption.
  rewrite (redis_hit_same env _ w1 w Hnow Hstore). exact Hredis.
Qed.

Lemma getThemeForTenant_absent_not_cached_witness :
  fst (ThemeService.getThemeForTenant Sample.env "t2" Sample.themed_world) = Ok JNull
  /\ redisStore (snd (ThemeService.getThemeForTenant Sample.env "t2" Sample.themed_world))
     = redisStore Sample.themed_world.
Proof.
  destruct (getThemeForTenant_absent_not_cached Sample.env Sample.pool "t2"
              Sample.themed_world) as (Hnull & Hstore & _).
  - reflexivity.
  - reflexivity.
  - reflexivity.
  - reflexivity.
  - reflexivity.
  - split; [exact Hnull | exact Hstore].
Defined.

(** X4.  A theme found in Redis only is copied to the process-local
    cache with a full time to live of its own: the lookup returns the
    parsed document, leaves Redis as it was, and for the next
    [themesCacheTTL] seconds every lookup for the tenant is answered
    from memory, whatever Redis and the storage then hold. *)
Theorem getThemeForTenant_promotes
  (env : Env) (tenantId : string) (doc : JsValue) (w : World) :
  redisClient env = Some true ->
  0 <= themesCacheTTL env ->
  memory_hit (ThemeService.cacheKey tenantId) w = false ->
  fst (Redis.get env true (ThemeService.cacheKey tenantId) w) = Ok (Some (JsonText doc)) ->
  truthy doc = true ->
  fst (ThemeService.getThemeForTenant env tenantId w) = Ok doc
  /\ redisStore (snd (ThemeService.getThemeForTenant env tenantId w)) = redisStore w
  /\ forall (env' : Env) (t : Z),
       now w <= t <= now w + themesCacheTTL env ->
       ThemeService.getThemeForTenant env' tenantId
         (at_time t (snd (ThemeService.getThemeForTenant env tenantId w)))
       = (Ok doc, at_time t (snd (ThemeService.getThemeForTenant env tenantId w))).
Proof.
  intros Hr Httl Hmem Hget Hdoc.
  destruct (memory_miss _ _ Hmem) as (v & w1 & Hm & Hv & Hnow & Hstore).
  assert (ThemeService.getThemeForTenant env tenantId w
          = (Ok doc,
             set_memoryCache
               (insert (ThemeService.cacheKey tenantId)
                  (doc, if themesCacheTTL env =? 0 then None
                        else Some (now w + themesCacheTTL env))) w1)) as Hrun.
  { unfold ThemeService.getThemeForTenant, try_catch.
    unfold bind at 1. rewrite Hm, Hv.
    unfold bind at 1. unfold getRedisClient. rewrite Hr. unfold ret at 1.
    unfold bind at 1. rewrite (redis_get_same env true _ w1 w Hnow Hstore), Hget.
    cbv beta iota. change (cached_truthy (Some (JsonText doc))) with true. cbv iota.
    unfold bind, lift, JSON_parse, NodeCache.set, ret. rewrite Hnow. reflexivity. }
  rewrite Hrun. simpl. split; [reflexivity|]. split; [exact Hstore|].
  intros env' t Ht.
  unfold ThemeService.getThemeForTenant, try_catch, bind, NodeCache.get. simpl.
  rewrite lookup_insert_eq.
  destruct (themesCacheTTL env =? 0).
  - rewrite Hdoc. reflexivity.
  - assert ((now w + themesCacheTTL env <? t) = false) as -> by (apply Z.ltb_ge; lia).
    rewrite Hdoc. reflexivity.
Qed.

Lemma loadThemeFromStorage_shape env tenantId w theme :
  fst (ThemeService.loadThemeFromStorage env tenantId w) = Ok theme ->
  theme = JNull \/ truthy theme = true.
Proof.
  unfold ThemeService.loadThemeFromStorage, bind, getDbPool.
  destruct (dbPool env) as [pool|]; [|discriminate].
  unfold ret at 1. unfold lift. destruct (pool (QMainTheme tenantId)) as [[|row rest]|e];
    [|  |discriminate].
  - intros [= <-]. left. reflexivity.
  - unfold ThemeService.fetchThemeTemplatesFromS3, bind, getS3Client.
    destruct (s3Client env); [|discriminate]. unfold ret. intros [= <-]. right. reflexivity.
Qed.

(** X5.  [invalidateThemeCache] empties both tiers for the tenant, so
    the next lookup returns what the storage load returns: the stored
    theme, null, or the load's error. *)
Theorem invalidateThemeCache_then_reload (env : Env) (tenantId : string) (w : World) :
  redisClient env = Some true ->
  0 < themesCacheTTL env ->
  fst (ThemeService.invalidateThemeCache env tenantId w) = Ok tt
  /\ memory_hit (ThemeService.cacheKey tenantId)
       (snd (ThemeService.invalidateThemeCache env tenantId w)) = false
  /\ redis_hit env (ThemeService.cacheKey tenantId)
       (snd (ThemeService.invalidateThemeCache env tenantId w)) = false
  /\ fst (ThemeService.getThemeForTenant env tenantId
            (snd (ThemeService.invalidateThemeCache env tenantId w)))
     = fst (ThemeService.loadThemeFromStorage env tenantId w).
Proof.
  intros Hr Httl.
  set (w0 := snd (ThemeService.invalidateThemeCache env tenantId w)).
  assert (fst (ThemeService.invalidateThemeCache env tenantId w) = Ok tt
          /\ memoryCache w0 !! ThemeService.cacheKey tenantId = None
          /\ redisStore w0 !! (keyPrefix env +:+ ThemeService.cacheKey tenantId) = None)
    as (Hok & Hm0 & Hr0).
  { subst w0. unfold ThemeService.invalidateThemeCache, bind, NodeCache.del, getRedisClient.
    rewrite Hr. unfold ret, Redis.del. simpl.
    split; [reflexivity|]. split; apply lookup_delete_eq. }
  assert (memory_hit (ThemeService.cacheKey tenantId) w0 = false) as Hmem.
  { unfold memory_hit, NodeCache.get. rewrite Hm0. reflexivity. }
  assert (redis_hit env (ThemeService.cacheKey tenantId) w0 = false) as Hredis.
  { unfold redis_hit, Redis.get. rewrite Hr0. reflexivity. }
  split; [exact Hok|]. split; [exact Hmem|]. split; [exact Hredis|].
  destruct (getThemeForTenant_miss env tenantId w0 Hr Hmem Hredis)
    as (w1 & _ & _ & _ & _ & ->).
  rewrite (loadThemeFromStorage_any_world env tenantId w0 w).
  destruct (fst (ThemeService.loadThemeFromStorage env tenantId w)) as [theme|e] eqn:Hload;
    [|reflexivity].
  destruct (loadThemeFromStorage_shape env tenantId w theme Hload) as [-> | Ht];
    [reflexivity|].
  rewrite Ht. change (negb true) with false. cbv iota.
  unfold bind, NodeCache.set, Redis.setex, ret.
  apply Z.ltb_lt in Httl. rewrite Httl. reflexivity.
Qed.

Lemma invalidateThemeCache_then_reload_witness :
  fst (ThemeService.getThemeForTenant Sample.bare_env "t1"
         (snd (ThemeService.invalidateThemeCache Sample.bare_env "t1" Sample.themed_world)))
  = fst (ThemeService.loadThemeFromStorage Sample.bare_env "t1" Sample.themed_world).
Proof.
  destruct (invalidateThemeCache_then_reload Sample.bare_env "t1" Sample.themed_world)
    as (_ & _ & _ & H).
  - reflexivity.
  - simpl. lia.
  - exact H.
Defined.


(** X4, at the sample tenant: a process that finds the theme of [t1]
    in Redis only (its own memory is empty) serves it from memory for the
    next hour. *)
Lemma getThemeForTenant_promotes_witness :
  ThemeService.getThemeForTenant Sample.offline_env "t1"
    (at_time 3600
       (snd (ThemeService.getThemeForTenant Sample.env "t1" Scenario.redis_only_world)))
  = (Ok (json_roundtrip Sample.loaded_theme),
     at_time 3600
       (snd (ThemeService.getThemeForTenant Sample.env "t1" Scenario.redis_only_world))).
Proof.
  destruct (getThemeForTenant_promotes Sample.env "t1" (json_roundtrip Sample.loaded_theme)
              Scenario.redis_only_world) as (_ & _ & Hlater).
  - reflexivity.
  - simpl. lia.
  - reflexivity.
  - reflexivity.
  - reflexivity.
  - apply (Hlater Sample.offline_env 3600). simpl. lia.
Defined.

(** ** The catalog provider *)

Lemma getProducts_on_miss env tenantId options pool w :
  redisClient env = Some true ->
  dbPool env = Some pool ->
  redis_hit env (ProductService.productsKey tenantId options) w = false ->
  ProductService.getProducts env tenantId options w
  = match pool (QProducts tenantId
                  (ProductService.opt_clause (getProp options "handle"))
                  (ProductService.opt_clause (getProp options "collection_id"))
                  (ProductService.with_default (getProp options "limit") (JNum 20))
                  (ProductService.with_default (getProp options "offset") (JNum 0))) with
    | Ok rows =>
        if 0 <? dataCacheTTL env then
          (Ok (JArr rows),
           set_redisStore
             (insert (keyPrefix env +:+ ProductService.productsKey tenantId options)
                     (json_text (JArr rows), now w + dataCacheTTL env)) w)
        else (Threw (mkError "ReplyError" "ERR invalid expire time in 'setex' command"), w)
    | Threw e => (Threw e, w)
    end.
Proof.
  intros Hr Hp Hmiss.
  destruct (redis_miss _ _ _ Hmiss) as (cached & Hget & Hfalsy).
  unfold ProductService.getProducts, try_catch.
  unfold bind at 1. unfold getRedisClient. rewrite Hr. unfold ret at 1.
  unfold bind at 1. rewrite Hget, Hfalsy.
  unfold bind at 1. unfold getDbPool. rewrite Hp. unfold ret at 1.
  unfold bind at 1. unfold lift.
  destruct (pool _) as [rows|e]; [|reflexivity].
  unfold bind, Redis.setex, ret. destruct (0 <? dataCacheTTL env); reflexivity.
Qed.

(** X6.  The [featured] option is no filter: on a cache miss a listing
    asked with [featured] returns what the same listing returns without
    it, the first rows of the active products. *)
Theorem getProducts_featured_is_no_filter
  (env : Env) (tenantId : string) (flag : JsValue) (fields : list (string * JsValue))
  (w : World) :
  redis_hit env (ProductService.productsKey tenantId (JObj (("featured", flag) :: fields))) w
  = false ->
  redis_hit env (ProductService.productsKey tenantId (JObj fields)) w = false ->
  fst (ProductService.getProducts env tenantId (JObj (("featured", flag) :: fields)) w)
  = fst (ProductService.getProducts env tenantId (JObj fields) w).
Proof.
  intros H1 H2.
  destruct (redisClient env) as [[|]|] eqn:Hr.
  - destruct (dbPool env) as [pool|] eqn:Hp.
    + rewrite (getProducts_on_miss env tenantId _ pool w Hr Hp H1).
      rewrite (getProducts_on_miss env tenantId _ pool w Hr Hp H2).
      change (getProp (JObj (("featured", flag) :: fields)) "handle")
        with (getProp (JObj fields) "handle").
      change (getProp (JObj (("featured", flag) :: fields)) "collection_id")
        with (getProp (JObj fields) "collection_id").
      change (getProp (JObj (("featured", flag) :: fields)) "limit")
        with (getProp (JObj fields) "limit").
      change (getProp (JObj (("featured", flag) :: fields)) "offset")
        with (getProp (JObj fields) "offset").
      destruct (pool _) as [rows|e]; [|reflexivity].
      destruct (0 <? dataCacheTTL env); reflexivity.
    + destruct (redis_miss _ _ _ H1) as (c1 & Hg1 & Hf1).
      destruct (redis_miss _ _ _ H2) as (c2 & Hg2 & Hf2).
      unfold ProductService.getProducts, try_catch, bind, getRedisClient. rewrite Hr.
      unfold ret. rewrite Hg1, Hg2, Hf1, Hf2. unfold getDbPool. rewrite Hp. reflexivity.
  - unfold ProductService.getProducts, try_catch, bind, getRedisClient. rewrite Hr.
    reflexivity.
  - unfold ProductService.getProducts, try_catch, bind, getRedisClient. rewrite Hr.
    reflexivity.
Qed.

Lemma getProducts_featured_is_no_filter_witness :
  fst (ProductService.getProducts Sample.env "t1"
         (JObj [("featured", JBool true); ("limit", JNum 8)]) Sample.empty_world)
  = fst (ProductService.getProducts Sample.env "t1" (JObj [("limit", JNum 8)])
           Sample.empty_world).
Proof.
  apply (getProducts_featured_is_no_filter Sample.env "t1" (JBool true) [("limit", JNum 8)]
           Sample.empty_world).
  - reflexivity.
  - reflexivity.
Defined.

(** X7.  A miss is cached like a hit: once a product page was asked for
    a handle the catalog did not have, the same page fails with "Product
    not found" for the next [dataCacheTTL] seconds whatever the catalog
    then holds, the registry not being asked again. *)
Theorem resolveRoute_remembers_missing_product
  (env : Env) (pool : Query -> Result (list JsValue)) (tenantId h : string) (w : World) :
  redisClient env = Some true ->
  dbPool env = Some pool ->
  0 < dataCacheTTL env ->
  valid_handle h ->
  redis_hit env (ProductService.productsKey tenantId (handle_options h)) w = false ->
  pool (QProducts tenantId (Some (JStr h)) None (JNum 1) (JNum 0)) = Ok [] ->
  fst (Storefront.resolveRoute env ("/products/" +:+ h) tenantId w)
  = Threw (Error "Product not found")
  /\ forall (env' : Env) (t : Z),
       keyPrefix env' = keyPrefix env ->
       redisClient env' = Some true ->
       now w <= t < now w + dataCacheTTL env ->
       fst (Storefront.resolveRoute env' ("/products/" +:+ h) tenantId
              (at_time t (snd (Storefront.resolveRoute env ("/products/" +:+ h) tenantId w))))
       = Threw (Error "Product not found").
Proof.
  intros Hr Hp Httl Hh Hmiss Hq.
  assert (forall e w0, Storefront.resolveRoute e ("/products/" +:+ h) tenantId w0
          = (let* products := ProductService.getProducts e tenantId (handle_options h) in
             let* product := lift (Storefront.index0 products) in
             if negb (truthy product) then throw (Error "Product not found")
             else ret (Storefront.mkRoute "product" (JStr "product")
                         (JObj [("product", product)]))) w0) as Hroute.
  { intros e w0. unfold Storefront.resolveRoute.
    assert (String.eqb ("/products/" +:+ h) "/" || String.eqb ("/products/" +:+ h) "" = false)
      as -> by (destruct h; reflexivity).
    rewrite (match_handle_valid "/products/" h Hh). reflexivity. }
  assert (ProductService.getProducts env tenantId (handle_options h) w
          = (Ok (JArr []),
             set_redisStore
               (insert (keyPrefix env +:+ ProductService.productsKey tenantId (handle_options h))
                       (json_text (JArr []), now w + dataCacheTTL env)) w)) as Hfirst.
  { rewrite (getProducts_on_miss env tenantId _ pool w Hr Hp Hmiss).
    change (getProp (handle_options h) "handle") with (JStr h).
    change (getProp (handle_options h) "collection_id") with JUndefined.
    change (getProp (handle_options h) "limit") with (JNum 1).
    change (getProp (handle_options h) "offset") with JUndefined.
    unfold ProductService.opt_clause. rewrite (truthy_handle h Hh).
    change (truthy JUndefined) with false. cbv iota.
    change (ProductService.with_default (JNum 1) (JNum 20)) with (JNum 1).
    change (ProductService.with_default JUndefined (JNum 0)) with (JNum 0).
    rewrite Hq. apply Z.ltb_lt in Httl. rewrite Httl. reflexivity. }
  assert (Storefront.resolveRoute env ("/products/" +:+ h) tenantId w
          = (Threw (Error "Product not found"),
             set_redisStore
               (insert (keyPrefix env +:+ ProductService.productsKey tenantId (handle_options h))
                       (json_text (JArr []), now w + dataCacheTTL env)) w)) as ->.
  { rewrite Hroute. unfold bind at 1. rewrite Hfirst. reflexivity. }
  split; [reflexivity|].
  intros env' t Hk Hr' Ht. rewrite Hroute.
  unfold bind at 1. simpl snd.
  assert (ProductService.getProducts env' tenantId (handle_options h)
            (at_time t
               (set_redisStore
                  (insert (keyPrefix env +:+ ProductService.productsKey tenantId (handle_options h))
                          (json_text (JArr []), now w + dataCacheTTL env)) w))
          = (Ok (JArr []),
             at_time t
               (set_redisStore
                  (insert (keyPrefix env +:+ ProductService.productsKey tenantId (handle_options h))
                          (json_text (JArr []), now w + dataCacheTTL env)) w))) as ->.
  { unfold ProductService.getProducts, try_catch, bind, getRedisClient. rewrite Hr'.
    unfold ret at 1. unfold Redis.get, Redis.live. rewrite Hk. simpl redisStore.
    rewrite lookup_insert_eq. simpl.
    assert ((t <? now w + dataCacheTTL env) = true) as -> by (apply Z.ltb_lt; lia).
    reflexivity. }
  reflexivity.
Qed.

(** X7, at the sample catalog: after a request for the unknown handle
    [red-hat], a process whose catalog answers every handle with a
    product still fails the page 299 seconds later. *)
Lemma resolveRoute_remembers_missing_product_witness :
  fst (Storefront.resolveRoute Scenario.full_env "/products/red-hat" "t1"
         (at_time 299
            (snd (Storefront.resolveRoute Sample.env "/products/red-hat" "t1"
                    Sample.empty_world))))
  = Threw (Error "Product not found").
Proof.
  destruct (resolveRoute_remembers_missing_product Sample.env Sample.pool "t1" "red-hat"
              Sample.empty_world) as [_ Hlater].
  - reflexivity.
  - reflexivity.
  - simpl. lia.
  - split; [discriminate | reflexivity].
  - reflexivity.
  - reflexivity.
  - apply (Hlater Scenario.full_env 299).
    + reflexivity.
    + reflexivity.
    + simpl. lia.
Defined.

(** ** Loaded themes and layouts *)

Lemma loaded_theme_templates env tenantId w theme :
  fst (ThemeService.loadThemeFromStorage env tenantId w) = Ok theme ->
  theme = JNull
  \/ exists s3 s3Key,
       getProp theme "templates"
       = JObj (fold_left (ThemeService.fetchOne env s3 s3Key) ThemeService.templateFiles []).
Proof.
  unfold ThemeService.loadThemeFromStorage, bind, getDbPool.
  destruct (dbPool env) as [pool|]; [|discriminate].
  unfold ret at 1. unfold lift. destruct (pool (QMainTheme tenantId)) as [[|row rest]|e];
    [| |discriminate].
  - intros [= <-]. left. reflexivity.
  - unfold ThemeService.fetchThemeTemplatesFromS3, bind, getS3Client.
    destruct (s3Client env) as [s3|]; [|discriminate]. unfold ret. intros [= <-].
    right. exists s3, (getProp row "s3_key").
    unfold getProp, spread. cbn [fold_left fst snd].
    rewrite assoc_setProp_eq. reflexivity.
Qed.

(** X23.  A theme loaded from storage stores sources under the six
    fetched template names and under no other, so it never has a layout:
    what [renderPage] returns for such a theme is the engine's output
    for the page template itself, never for a ['layout'] template
    wrapped around it. *)
Theorem loaded_theme_has_no_layout
  (env : Env) (tenantId : string) (w : World) (theme : JsValue) :
  fst (ThemeService.loadThemeFromStorage env tenantId w) = Ok theme ->
  (forall name source,
      stored_source (getProp theme "templates") name = Some source ->
      In name ThemeService.templateFiles)
  /\ Renderer.optional_get (getProp theme "templates") "layout"
     = Renderer.Stored JUndefined
  /\ forall (liquid : Renderer.Liquid) (routeData : Storefront.RouteData)
            (context : Renderer.RenderContext) (html : string),
       Renderer.renderPage liquid theme routeData context = Ok html ->
       exists name data,
         ToString (Renderer.templateName_of routeData) = Ok name
         /\ liquid (Renderer.optional_get (getProp theme "templates") name) data
            = Ok html.
Proof.
  intros Hload.
  destruct (loaded_theme_templates env tenantId w theme Hload)
    as [-> | (s3 & s3Key & Htemplates)].
  - split; [intros name source H; discriminate H|].
    split; [reflexivity|].
    intros liquid routeData context html H. discriminate H.
  - assert (forall name source,
               stored_source (getProp theme "templates") name = Some source ->
               In name ThemeService.templateFiles) as Hnames.
    { intros name source. rewrite Htemplates. cbn [stored_source].
      rewrite assoc_fetch_fold.
      destruct (existsb (String.eqb name) ThemeService.templateFiles) eqn:E.
      - intros _. apply existsb_exists in E as (n & Hin & Hn).
        apply String.eqb_eq in Hn as ->. exact Hin.
      - discriminate. }
    assert (Renderer.optional_get (getProp theme "templates") "layout"
            = Renderer.Stored JUndefined) as Hlayout.
    { rewrite Htemplates. unfold Renderer.optional_get.
      rewrite assoc_fetch_fold. reflexivity. }
    split; [exact Hnames|]. split; [exact Hlayout|].
    intros liquid routeData context html.
    unfold Renderer.renderPage.
    assert (member theme "templates" = Ok (getProp theme "templates")) as ->.
    { destruct theme; try reflexivity; discriminate Htemplates. }
    cbn [Renderer.rbind]. rewrite Hlayout.
    rewrite Htemplates at 1.
    destruct (ToString (Renderer.templateName_of routeData)) as [name|e];
      [|discriminate].
    cbn [Renderer.rbind].
    destruct (negb (Renderer.source_truthy
                      (Renderer.optional_get (getProp theme "templates") name))).
    { destruct (Renderer.not_found _); discriminate. }
    destruct (member (Renderer.ctx_tenant context) "name") as [shop_name|e];
      [|discriminate].
    cbn [Renderer.rbind].
    match goal with
    | |- Renderer.rbind ?computed _ = _ -> _ => destruct computed as [host|e]
    end; [|discriminate].
    cbn [Renderer.rbind].
    destruct (template [Lit "https://"; Sub host]) as [shop_url|e]; [|discriminate].
    cbn [Renderer.rbind]. cbv zeta.
    match goal with
    | |- Renderer.rbind (liquid ?src ?data) _ = _ -> _ =>
        destruct (liquid src data) as [page|e] eqn:Hpage; [|discriminate]
    end.
    cbn [Renderer.rbind Renderer.source_truthy truthy].
    intros [= <-]. eexists. eexists. split; [reflexivity | exact Hpage].
Qed.

Lemma loaded_theme_has_no_layout_witness :
  exists name data,
    ToString (Renderer.templateName_of Sample.untitled_route) = Ok name
    /\ Sample.liquid (Renderer.optional_get (getProp Sample.loaded_theme "templates") name)
         data
       = Ok "<h1>Demo Shop</h1>".
Proof.
  destruct (loaded_theme_has_no_layout Sample.env "t1" Sample.empty_world Sample.loaded_theme)
    as (_ & _ & H).
  - reflexivity.
  - apply (H Sample.liquid Sample.untitled_route Sample.context "<h1>Demo Shop</h1>").
    reflexivity.
Defined.

(** ** Cache lifetimes that are not positive *)

(** X25.  A data cache lifetime of zero does not switch the cache off,
    it breaks the listing: when [dataCacheTTL] is not positive, every
    product listing that misses the cache fails with the error of
    [SETEX], although the registry answered, and stores nothing - so the
    next call misses and fails again. *)
Theorem getProducts_needs_positive_ttl
  (env : Env) (pool : Query -> Result (list JsValue)) (tenantId : string)
  (options : JsValue) (rows : list JsValue) (w : World) :
  redisClient env = Some true ->
  dbPool env = Some pool ->
  dataCacheTTL env <= 0 ->
  redis_hit env (ProductService.productsKey tenantId options) w = false ->
  pool (QProducts tenantId
          (ProductService.opt_clause (getProp options "handle"))
          (ProductService.opt_clause (getProp options "collection_id"))
          (ProductService.with_default (getProp options "limit") (JNum 20))
          (ProductService.with_default (getProp options "offset") (JNum 0))) = Ok rows ->
  ProductService.getProducts env tenantId options w
  = (Threw (mkError "ReplyError" "ERR invalid expire time in 'setex' command"), w).
Proof.
  intros Hr Hp Httl Hmiss Hq.
  rewrite (getProducts_on_miss env tenantId options pool w Hr Hp Hmiss), Hq.
  assert ((0 <? dataCacheTTL env) = false) as -> by (apply Z.ltb_ge; lia).
  reflexivity.
Qed.

Lemma getProducts_needs_positive_ttl_witness :
  ProductService.getProducts Scenario.no_ttl_env "t1" (JObj []) Sample.empty_world
  = (Threw (mkError "ReplyError" "ERR invalid expire time in 'setex' command"),
     Sample.empty_world).
Proof.
  apply (getProducts_needs_positive_ttl Scenario.no_ttl_env Sample.pool "t1" (JObj [])
           [Sample.product_row]).
  - reflexivity.
  - reflexivity.
  - simpl. lia.
  - reflexivity.
  - reflexivity.
Defined.

(** X26.  With a theme cache lifetime of zero the first lookup of a
    stored theme fails with the error of [SETEX], but the process-local
    cache has taken the theme without an expiry: from then on every
    lookup for the tenant in this process returns that theme from
    memory, at any later time and whatever Redis and the storage hold. *)
Theorem getThemeForTenant_zero_ttl
  (env : Env) (tenantId : string) (theme : JsValue) (w : World) :
  redisClient env = Some true ->
  themesCacheTTL env = 0 ->
  memory_hit (ThemeService.cacheKey tenantId) w = false ->
  redis_hit env (ThemeService.cacheKey tenantId) w = false ->
  fst (ThemeService.loadThemeFromStorage env tenantId w) = Ok theme ->
  truthy theme = true ->
  fst (ThemeService.getThemeForTenant env tenantId w)
  = Threw (mkError "ReplyError" "ERR invalid expire time in 'setex' command")
  /\ forall (env' : Env) (t : Z),
       ThemeService.getThemeForTenant env' tenantId
         (at_time t (snd (ThemeService.getThemeForTenant env tenantId w)))
       = (Ok theme, at_time t (snd (ThemeService.getThemeForTenant env tenantId w))).
Proof.
  intros Hr Httl Hmem Hredis Hload Htheme.
  destruct (getThemeForTenant_miss env tenantId w Hr Hmem Hredis)
    as (w1 & _ & _ & _ & _ & ->).
  rewrite Hload, Htheme. change (negb true) with false. cbv iota.
  unfold bind, NodeCache.set, Redis.setex, ret. rewrite Httl. simpl.
  split; [reflexivity|].
  intros env' t.
  unfold ThemeService.getThemeForTenant, try_catch, bind, NodeCache.get. simpl.
  rewrite lookup_insert_eq, Htheme. reflexivity.
Qed.

Lemma getThemeForTenant_zero_ttl_witness :
  fst (ThemeService.getThemeForTenant Scenario.no_ttl_env "t1" Sample.empty_world)
  = Threw (mkError "ReplyError" "ERR invalid expire time in 'setex' command")
  /\ ThemeService.getThemeForTenant Sample.offline_env "t1"
       (at_time 1000000
          (snd (ThemeService.getThemeForTenant Scenario.no_ttl_env "t1" Sample.empty_world)))
     = (Ok Sample.loaded_theme,
        at_time 1000000
          (snd (ThemeService.getThemeForTenant Scenario.no_ttl_env "t1" Sample.empty_world))).
Proof.
  destruct (getThemeForTenant_zero_ttl Scenario.no_ttl_env "t1" Sample.loaded_theme
              Sample.empty_world) as [Hfirst Hlater].
  - reflexivity.
  - reflexivity.
  - reflexivity.
  - reflexivity.
  - reflexivity.
  - reflexivity.
  - split; [exact Hfirst | apply (Hlater Sample.offline_env 1000000)].
Defined.

(** ** Handles, URLs and titles *)

Lemma handleize_shape lower str :
  forallb_string is_handle_char (Handleize.handleize_with lower str) = true
  /\ has_double_hyphen (Handleize.handleize_with lower str) = false
  /\ starts_with_hyphen (Handleize.handleize_with lower str) = false
  /\ ends_with_hyphen (Handleize.handleize_with lower str) = false.
Proof.
  unfold Handleize.handleize_with.
  destruct (strip_edges_spec (Handleize.replace_runs false (lower str)))
    as (H1 & H2 & H3 & H4 & _).
  - apply replace_runs_class.
  - apply replace_runs_hyphens.
  - auto.
Qed.

(** X8.  URLs built by the [product_url] and [collection_url] filters
    from a handleized name are routable: whenever [handleize] leaves
    anything of the name, the product and collection patterns of the
    router accept the URL and capture exactly that handle. *)
Theorem handleized_urls_are_routed (lower : string -> string) (name : string) :
  Handleize.handleize_with lower name <> "" ->
  Storefront.match_handle "/products/"
    (Filters.product_url (JStr (Handleize.handleize_with lower name)))
  = Some (Handleize.handleize_with lower name)
  /\ Storefront.match_handle "/collections/"
       (Filters.collection_url (JStr (Handleize.handleize_with lower name)))
     = Some (Handleize.handleize_with lower name).
Proof.
  intros Hne. destruct (handleize_shape lower name) as (Hclass & _).
  split; apply match_handle_valid; split; assumption.
Qed.

Lemma handleized_urls_are_routed_witness :
  Storefront.match_handle "/products/"
    (Filters.product_url (JStr (Handleize.handleize "Blue Shirt (XL)")))
  = Some "blue-shirt-xl".
Proof.
  destruct (handleized_urls_are_routed Handleize.toLowerCase "Blue Shirt (XL)") as [H _].
  - discriminate.
  - exact H.
Defined.

Section HandleFixpoints.
Import Handleize.

Lemma handle_char_lower c : is_handle_char c = true -> lower_char c = c.
Proof.
  unfold is_handle_char, is_alnum, is_lower, is_digit, is_hyphen, lower_char, is_upper, in_range.
  intros H. destruct (Nat.leb 65 (code c) && Nat.leb (code c) 90) eqn:E; [|reflexivity].
  exfalso. apply andb_prop in E as [E1 E2]. apply Nat.leb_le in E1, E2.
  apply orb_prop in H as [H|H].
  - apply orb_prop in H as [H|H]; apply andb_prop in H as [H1 H2];
      apply Nat.leb_le in H1, H2; lia.
  - apply Nat.eqb_eq in H. lia.
Qed.

Lemma toLowerCase_fixed s : forallb_string is_handle_char s = true -> toLowerCase s = s.
Proof.
  induction s as [|c s IH]; simpl; [reflexivity|].
  intros H. apply andb_prop in H as [Hc Hs].
  rewrite (handle_char_lower c Hc), (IH Hs). reflexivity.
Qed.

Lemma replace_runs_fixed s :
  forallb_string is_handle_char s = true ->
  has_double_hyphen s = false ->
  forall b, (b = true -> starts_with_hyphen s = false) -> replace_runs b s = s.
Proof.
  induction s as [|c s IH]; intros Hclass Hdouble b Hb; [reflexivity|].
  simpl in Hclass. apply andb_prop in Hclass as [Hc Hs].
  pose proof (double_hyphen_tail _ _ Hdouble) as Hd. simpl.
  destruct (is_alnum c) eqn:Ha.
  - f_equal. apply IH; [assumption | assumption | discriminate].
  - assert (is_hyphen c = true) as Hh.
    { unfold is_handle_char in Hc. rewrite Ha in Hc. exact Hc. }
    destruct b.
    + specialize (Hb eq_refl). simpl in Hb. congruence.
    + rewrite <- (is_hyphen_eq c Hh). f_equal. apply IH; [assumption | assumption |].
      intros _. destruct s as [|d s']; [reflexivity|]. simpl in Hdouble |- *.
      apply orb_false_elim in Hdouble as [Hcd _]. rewrite Hh in Hcd. exact Hcd.
Qed.

Lemma drop_last_fixed s : ends_with_hyphen s = false -> drop_last_hyphen s = s.
Proof.
  induction s as [|c s IH]; [reflexivity|].
  destruct s as [|d s'].
  - simpl. intros ->. reflexivity.
  - intros H. change (String c (drop_last_hyphen (String d s')) = String c (String d s')).
    f_equal. apply IH. exact H.
Qed.

Lemma strip_edges_fixed s :
  starts_with_hyphen s = false -> ends_with_hyphen s = false -> strip_edges s = s.
Proof.
  intros Hs He. unfold strip_edges. destruct s as [|c r]; [reflexivity|].
  simpl in Hs. rewrite Hs. apply drop_last_fixed, He.
Qed.

(** A handle in normal form: over [[a-z0-9-]], no hyphen first, last or
    doubled. *)
Lemma handleize_fixed h :
  forallb_string is_handle_char h = true ->
  has_double_hyphen h = false ->
  starts_with_hyphen h = false ->
  ends_with_hyphen h = false ->
  handleize h = h.
Proof.
  intros Hclass Hdouble Hstart Hend. unfold handleize, handleize_with.
  rewrite (toLowerCase_fixed h Hclass).
  rewrite (replace_runs_fixed h Hclass Hdouble false) by discriminate.
  apply strip_edges_fixed; assumption.
Qed.

End HandleFixpoints.

(** X9.  [handleize] is idempotent: a handle it produced is left as it
    is when it is handleized again. *)
Theorem handleize_idempotent (str : string) :
  Handleize.handleize (Handleize.handleize str) = Handleize.handleize str.
Proof.
  destruct (handleize_shape Handleize.toLowerCase str) as (H1 & H2 & H3 & H4).
  apply handleize_fixed; assumption.
Qed.

Section TitleFacts.
Import Handleize ServiceRouter.

Lemma alnum_case c :
  is_alnum c = true ->
  is_word_char c = true /\ lower_char c = c /\ lower_char (upper_char c) = c.
Proof.
  destruct c as [[] [] [] [] [] [] [] []]; intros H;
    first [discriminate H | repeat split; reflexivity].
Qed.

Lemma lower_title b s :
  forallb_string is_handle_char s = true ->
  toLowerCase (capitalize_words b (hyphens_to_spaces s)) = hyphens_to_spaces s.
Proof.
  revert b. induction s as [|c s IH]; intros b H; [reflexivity|].
  simpl in H. apply andb_prop in H as [Hc Hs]. simpl hyphens_to_spaces.
  destruct (is_hyphen c) eqn:Hh.
  - simpl. rewrite (IH false Hs). reflexivity.
  - assert (is_alnum c = true) as Ha.
    { unfold is_handle_char in Hc. rewrite Hh, orb_false_r in Hc. exact Hc. }
    destruct (alnum_case c Ha) as (Hw & Hl & Hu).
    simpl. rewrite Hw. simpl. rewrite (IH true Hs).
    destruct b; [rewrite Hl | rewrite Hu]; reflexivity.
Qed.

Lemma replace_runs_spaces b s :
  replace_runs b (hyphens_to_spaces s) = replace_runs b s.
Proof.
  revert b. induction s as [|c s IH]; intros b; [reflexivity|].
  simpl. destruct (is_hyphen c) eqn:Hh.
  - rewrite (hyphen_not_alnum c Hh). change (is_alnum " ") with false. cbv iota.
    destruct b; rewrite IH; reflexivity.
  - destruct (is_alnum c); [rewrite IH; reflexivity|].
    destruct b; rewrite IH; reflexivity.
Qed.

End TitleFacts.

(** X10.  The title the service-backed router derives from a collection
    handle handleizes back to the handle: for every handle the route
    pattern accepts, [handleize] of the title is [handleize] of the
    handle, which is the handle itself when it has no hyphen first, last
    or doubled. *)
Theorem collection_title_handleizes_back (h : string) :
  forallb_string is_handle_char h = true ->
  Handleize.handleize (ServiceRouter.title_of h) = Handleize.handleize h
  /\ (has_double_hyphen h = false -> starts_with_hyphen h = false ->
      ends_with_hyphen h = false ->
      Handleize.handleize (ServiceRouter.title_of h) = h).
Proof.
  intros Hclass.
  assert (Handleize.handleize (ServiceRouter.title_of h) = Handleize.handleize h) as Heq.
  { unfold Handleize.handleize, Handleize.handleize_with, ServiceRouter.title_of.
    rewrite (lower_title false h Hclass), replace_runs_spaces.
    rewrite (toLowerCase_fixed h Hclass). reflexivity. }
  split; [exact Heq|].
  intros Hd Hs He. rewrite Heq. apply handleize_fixed; assumption.
Qed.

Lemma collection_title_handleizes_back_witness :
  Handleize.handleize (ServiceRouter.title_of "summer-sale-2024") = "summer-sale-2024".
Proof.
  destruct (collection_title_handleizes_back "summer-sale-2024") as [_ H].
  - reflexivity.
  - apply H; reflexivity.
Defined.

Example title_of_handle : ServiceRouter.title_of "summer-sale-2024" = "Summer Sale 2024".
Proof. reflexivity. Qed.

(** ** Block content *)

Lemma template_contains parts html v :
  template parts = Ok html ->
  In (Sub v) parts ->
  exists printed, ToString v = Ok printed /\ contains printed html = true.
Proof.
  revert html. induction parts as [|p rest IH]; intros html Ht Hin; [destruct Hin|].
  destruct p as [text|u]; cbn [template] in Ht.
  - destruct (template rest) as [s|e]; [|discriminate Ht]. injection Ht as <-.
    destruct Hin as [Hin | Hin]; [discriminate Hin|].
    destruct (IH s eq_refl Hin) as (printed & Hv & Hc).
    exists printed. split; [exact Hv | apply contains_app, Hc].
  - destruct (ToString u) as [pu|e] eqn:Hu; [|discriminate Ht].
    destruct (template rest) as [s|e]; [|discriminate Ht]. injection Ht as <-.
    destruct Hin as [Hin | Hin].
    + injection Hin as ->. exists pu. split; [exact Hu | apply contains_prefix].
    + destruct (IH s eq_refl Hin) as (printed & Hv & Hc).
      exists printed. split; [exact Hv | apply contains_app, Hc].
Qed.

Lemma template_ok parts :
  (forall v, In (Sub v) parts -> printable v = true) ->
  is_ok (template parts) = true.
Proof.
  induction parts as [|p rest IH]; intros Hp; [reflexivity|].
  assert (is_ok (template rest) = true) as Hrest.
  { apply IH. intros v Hin. apply Hp. right. exact Hin. }
  destruct p as [text|u]; cbn [template].
  - destruct (template rest); [reflexivity | discriminate Hrest].
  - rewrite (ToString_printable u) by (apply Hp; left; reflexivity).
    destruct (template rest); [reflexivity | discriminate Hrest].
Qed.

(** X21.  The page server inserts the text of a block as it is
    configured, without escaping: in the HTML that [renderBlock] returns
    for a [text] block the configured heading and content appear
    verbatim, markup included; and it does return, when the values
    configured for the block are ones a template literal prints. *)
Theorem renderBlock_text_verbatim
  (block : ContentBlock) (fields : list (string * JsValue)) (heading content : string) :
  block_type block = JStr "text" ->
  block_config block = Some fields ->
  assoc "heading" fields = Some (JStr heading) ->
  assoc "content" fields = Some (JStr content) ->
  heading <> "" ->
  content <> "" ->
  (forall html,
      PageServer.renderBlock block = Ok html ->
      contains heading html = true /\ contains content html = true)
  /\ ((forall key v, assoc key fields = Some v -> printable v = true) ->
      exists html, PageServer.renderBlock block = Ok html).
Proof.
  intros Htype Hconfig Hheading Hcontent Hh Hc.
  assert (forall s, s <> "" -> js_or (JStr s) = fun _ => JStr s) as Hor.
  { intros s Hs. unfold js_or. simpl. destruct s; [congruence | reflexivity]. }
  unfold PageServer.renderBlock. rewrite Htype, Hconfig. cbv zeta.
  change (is_str (JStr "text") "hero") with false.
  change (is_str (JStr "text") "text") with true. cbv iota.
  change (default [] (Some fields)) with fields.
  split.
  - intros html Hr.
    assert (getProp (JObj fields) "heading" = JStr heading) as Eh.
    { unfold getProp. rewrite Hheading. reflexivity. }
    assert (getProp (JObj fields) "content" = JStr content) as Ec.
    { unfold getProp. rewrite Hcontent. reflexivity. }
    rewrite Eh, Ec, (Hor heading Hh), (Hor content Hc) in Hr.
    split.
    + destruct (template_contains _ html (JStr heading) Hr) as (printed & Hv & Hin).
      * simpl. tauto.
      * injection Hv as <-. exact Hin.
    + destruct (template_contains _ html (JStr content) Hr) as (printed & Hv & Hin).
      * simpl. tauto.
      * injection Hv as <-. exact Hin.
  - intros Hp.
    match goal with
    | |- exists html, template ?parts = Ok html =>
        assert (is_ok (template parts) = true) as Hok;
        [|destruct (template parts) as [html|e]; [eauto | discriminate Hok]]
    end.
    apply template_ok. intros v Hin. simpl in Hin.
    repeat (destruct Hin as [Hin | Hin];
            [try discriminate Hin; injection Hin as <-;
             apply printable_or, printable_field, Hp |]).
    destruct Hin.
Qed.

Lemma renderBlock_text_verbatim_witness :
  exists html,
    PageServer.renderBlock Scenario.script_block = Ok html
    /\ contains "<script>alert(1)</script>" html = true.
Proof.
  destruct (renderBlock_text_verbatim Scenario.script_block
              [("heading", JStr "News"); ("content", JStr "<script>alert(1)</script>")]
              "News" "<script>alert(1)</script>") as [Hverbatim Hreturns].
  - reflexivity.
  - reflexivity.
  - reflexivity.
  - reflexivity.
  - discriminate.
  - discriminate.
  - destruct Hreturns as (html & Hr).
    + intros key v Hv. simpl in Hv.
      destruct (String.eqb key "heading"); [injection Hv as <-; reflexivity|].
      destruct (String.eqb key "content"); [injection Hv as <-; reflexivity|].
      discriminate Hv.
    + exists html. split; [exact Hr | apply (Hverbatim html Hr)].
Defined.

(** ** The products-service client *)

Lemma getProductsFromService_on_miss env tenantId options w :
  redisClient env = Some true ->
  redis_hit env (Microservices.storefrontKey tenantId options) w = false ->
  Microservices.getProductsFromService env tenantId options w
  = match productsService env (Microservices.request_params tenantId options) with
    | Ok data =>
        let w' := set_redisStore
                    (insert (keyPrefix env +:+ Microservices.storefrontKey tenantId options)
                            (json_text data, now w + 120)) w in
        match data with
        | JUndefined | JNull => (Ok ProductLookup.empty_listing, w')
        | _ => (Ok data, w')
        end
    | Threw e => (Ok ProductLookup.empty_listing, w)
    end.
Proof.
  intros Hr Hmiss.
  destruct (redis_miss _ _ _ Hmiss) as (cached & Hget & Hfalsy).
  unfold Microservices.getProductsFromService, try_catch.
  unfold bind at 1. unfold getRedisClient. rewrite Hr. unfold ret at 1.
  unfold bind at 1. rewrite Hget, Hfalsy.
  unfold bind at 1. unfold lift at 1.
  destruct (productsService env _) as [data|e]; [|reflexivity].
  unfold bind, Redis.setex, lift, ret. simpl.
  destruct data; reflexivity.
Qed.

Lemma getProductsFromService_on_hit env tenantId options doc expiry w :
  redisClient env = Some true ->
  redisStore w !! (keyPrefix env +:+ Microservices.storefrontKey tenantId options)
  = Some (JsonText doc, expiry) ->
  now w < expiry ->
  Microservices.getProductsFromService env tenantId options w = (Ok doc, w).
Proof.
  intros Hr Hl Hlive.
  unfold Microservices.getProductsFromService, try_catch, bind, getRedisClient.
  rewrite Hr. unfold ret at 1. unfold Redis.get, Redis.live. rewrite Hl. simpl.
  apply Z.ltb_lt in Hlive. rewrite Hlive. reflexivity.
Qed.

(** X11.  [getProductsFromService] never throws, and without a working
    Redis connection it answers the empty listing without asking the
    products service, whatever that service holds. *)
Theorem getProductsFromService_degrades
  (env : Env) (tenantId : string) (options : JsValue) (w : World) :
  is_ok (fst (Microservices.getProductsFromService env tenantId options w)) = true
  /\ (redisClient env <> Some true ->
      Microservices.getProductsFromService env tenantId options w
      = (Ok ProductLookup.empty_listing, w)).
Proof.
  split.
  - unfold Microservices.getProductsFromService, try_catch.
    match goal with
    | |- is_ok (fst (match ?body with _ => _ end)) = true =>
        destruct body as [[v|e] w']; reflexivity
    end.
  - intros Hr. unfold Microservices.getProductsFromService, try_catch, bind, getRedisClient.
    destruct (redisClient env) as [[|]|]; [congruence | reflexivity | reflexivity].
Qed.

Lemma getProductsFromService_degrades_witness :
  Microservices.getProductsFromService Scenario.redis_down_env "t1" (JObj [("limit", JNum 12)])
    Sample.stocked_world
  = (Ok ProductLookup.empty_listing, Sample.stocked_world).
Proof.
  destruct (getProductsFromService_degrades Scenario.redis_down_env "t1"
              (JObj [("limit", JNum 12)]) Sample.stocked_world) as [_ H].
  apply H. discriminate.
Defined.

(** X12.  A products service that answers with a null body poisons the
    listing cache: the call that receives it returns the empty listing,
    but the text [null] has been stored, and for the next 120 seconds the
    same listing is answered with null itself. *)
Theorem getProductsFromService_null_body
  (env : Env) (tenantId : string) (options : JsValue) (w : World) :
  redisClient env = Some true ->
  redis_hit env (Microservices.storefrontKey tenantId options) w = false ->
  productsService env (Microservices.request_params tenantId options) = Ok JNull ->
  fst (Microservices.getProductsFromService env tenantId options w)
  = Ok ProductLookup.empty_listing
  /\ forall (env' : Env) (t : Z),
       keyPrefix env' = keyPrefix env ->
       redisClient env' = Some true ->
       now w <= t < now w + 120 ->
       fst (Microservices.getProductsFromService env' tenantId options
              (at_time t (snd (Microservices.getProductsFromService env tenantId options w))))
       = Ok JNull.
Proof.
  intros Hr Hmiss Hnull.
  rewrite (getProductsFromService_on_miss env tenantId options w Hr Hmiss), Hnull.
  split; [reflexivity|].
  intros env' t Hk Hr' Ht. simpl snd.
  rewrite (getProductsFromService_on_hit env' tenantId options JNull (now w + 120));
    [reflexivity | exact Hr' | | simpl; lia].
  rewrite Hk. simpl. apply lookup_insert_eq.
Qed.

Lemma getProductsFromService_null_body_witness :
  fst (Microservices.getProductsFromService Scenario.null_env "t1" (JObj [("limit", JNum 12)])
         Sample.empty_world)
  = Ok ProductLookup.empty_listing
  /\ fst (Microservices.getProductsFromService Sample.env "t1" (JObj [("limit", JNum 12)])
            (at_time 119
               (snd (Microservices.getProductsFromService Scenario.null_env "t1"
                       (JObj [("limit", JNum 12)]) Sample.empty_world))))
     = Ok JNull.
Proof.
  destruct (getProductsFromService_null_body Scenario.null_env "t1" (JObj [("limit", JNum 12)])
              Sample.empty_world) as [Hfirst Hlater].
  - reflexivity.
  - reflexivity.
  - reflexivity.
  - split; [exact Hfirst|]. apply (Hlater Sample.env 119).
    + reflexivity.
    + reflexivity.
    + simpl. lia.
Defined.

(** The home page of the service-backed router over a poisoned listing:
    the first request renders an empty product list, the next one throws. *)
Example home_after_null_body :
  fst (ServiceRouter.resolveRoute Scenario.null_env "/" "t1" Sample.empty_world)
  = Ok (Storefront.mkRoute "home" (JStr "index")
          (JObj [("collections", JArr []); ("featured_products", JArr [])]))
  /\ fst (ServiceRouter.resolveRoute Scenario.null_env "/" "t1"
            (snd (ServiceRouter.resolveRoute Scenario.null_env "/" "t1" Sample.empty_world)))
     = Threw (TypeError "Cannot read properties of null").
Proof. split; reflexivity. Qed.

(** ** The service-backed router *)

Lemma service_route_product env h tenantId w :
  valid_handle h ->
  ServiceRouter.resolveRoute env ("/products/" +:+ h) tenantId w
  = (let* product := ProductLookup.getProductByHandle env tenantId h in
     if negb (truthy product) then throw (Error "Product not found")
     else ret (Storefront.mkRoute "product" (JStr "product") (JObj [("product", product)]))) w.
Proof.
  intros Hh. unfold ServiceRouter.resolveRoute.
  assert (String.eqb ("/products/" +:+ h) "/" || String.eqb ("/products/" +:+ h) "" = false)
    as -> by (destruct h; reflexivity).
  rewrite (match_handle_valid "/products/" h Hh). reflexivity.
Qed.

Lemma service_route_collection env h tenantId w :
  valid_handle h ->
  ServiceRouter.resolveRoute env ("/collections/" +:+ h) tenantId w
  = (let* result :=
       Microservices.getProductsFromService env tenantId (JObj [("limit", JNum 24)]) in
     let* products := lift (member result "products") in
     ret (Storefront.mkRoute "collection" (JStr "collection")
            (JObj [("collection",
                    JObj [("id", JStr h); ("title", JStr (ServiceRouter.title_of h));
                          ("handle", JStr h); ("description", JStr "");
                          ("published", JBool true)]);
                   ("products", products)]))) w.
Proof.
  intros Hh. unfold ServiceRouter.resolveRoute.
  assert (String.eqb ("/collections/" +:+ h) "/" || String.eqb ("/collections/" +:+ h) ""
          = false) as -> by (destruct h; reflexivity).
  assert (Storefront.match_handle "/products/" ("/collections/" +:+ h) = None) as ->
    by reflexivity.
  rewrite (match_handle_valid "/collections/" h Hh). reflexivity.
Qed.

(** X13.  In the service-backed router a Redis outage looks like a
    missing product: without a working Redis connection every product
    page fails with "Product not found", whatever the products service
    holds, and nothing is asked of it. *)
Theorem service_route_outage_hides_products
  (env : Env) (tenantId h : string) (w : World) :
  valid_handle h ->
  redisClient env <> Some true ->
  ServiceRouter.resolveRoute env ("/products/" +:+ h) tenantId w
  = (Threw (Error "Product not found"), w).
Proof.
  intros Hh Hr. rewrite (service_route_product env h tenantId w Hh).
  unfold bind, ProductLookup.getProductByHandle, try_catch, bind, getRedisClient.
  destruct (redisClient env) as [[|]|]; [congruence | reflexivity | reflexivity].
Qed.

Lemma service_route_outage_hides_products_witness :
  ServiceRouter.resolveRoute Scenario.redis_down_env "/products/blue-shirt" "t1"
    Sample.empty_world
  = (Threw (Error "Product not found"), Sample.empty_world).
Proof.
  apply (service_route_outage_hides_products Scenario.redis_down_env "t1" "blue-shirt").
  - split; [discriminate | reflexivity].
  - discriminate.
Defined.

(** X14.  The collection route of the service-backed router does not
    select by collection: for any two handles the pattern accepts, the
    collection pages list the same products (the first 24 of the tenant)
    and leave the same cache behind. *)
Theorem service_collections_list_the_same
  (env : Env) (tenantId h1 h2 : string) (w : World) :
  valid_handle h1 ->
  valid_handle h2 ->
  listed_products (fst (ServiceRouter.resolveRoute env ("/collections/" +:+ h1) tenantId w))
  = listed_products (fst (ServiceRouter.resolveRoute env ("/collections/" +:+ h2) tenantId w))
  /\ snd (ServiceRouter.resolveRoute env ("/collections/" +:+ h1) tenantId w)
     = snd (ServiceRouter.resolveRoute env ("/collections/" +:+ h2) tenantId w).
Proof.
  intros H1 H2.
  rewrite (service_route_collection env h1 tenantId w H1).
  rewrite (service_route_collection env h2 tenantId w H2).
  unfold bind.
  destruct (Microservices.getProductsFromService env tenantId (JObj [("limit", JNum 24)]) w)
    as [[result|e] w1]; [|split; reflexivity].
  unfold lift. destruct (member result "products") as [products|e]; split; reflexivity.
Qed.

Lemma service_collections_list_the_same_witness :
  listed_products
    (fst (ServiceRouter.resolveRoute Sample.env "/collections/summer" "t1" Sample.empty_world))
  = listed_products
      (fst (ServiceRouter.resolveRoute Sample.env "/collections/winter" "t1"
              Sample.empty_world)).
Proof.
  destruct (service_collections_list_the_same Sample.env "t1" "summer" "winter"
              Sample.empty_world) as [H _].
  - split; [discriminate | reflexivity].
  - split; [discriminate | reflexivity].
  - exact H.
Defined.

(** No operation of the services moves the clock. *)

Lemma clock_ret {A} (a : A) : keeps_clock (ret a).
Proof. intros w. reflexivity. Qed.

Lemma clock_throw {A} e : keeps_clock (@throw A e).
Proof. intros w. reflexivity. Qed.

Lemma clock_lift {A} (r : Result A) : keeps_clock (lift r).
Proof. intros w. reflexivity. Qed.

Lemma clock_bind {A B} (m : M A) (k : A -> M B) :
  keeps_clock m -> (forall a, keeps_clock (k a)) -> keeps_clock (bind m k).
Proof.
  intros Hm Hk w. unfold bind. specialize (Hm w).
  destruct (m w) as [[a|e] w1]; simpl in *; [|exact Hm].
  rewrite (Hk a w1). exact Hm.
Qed.

Lemma clock_try_catch {A} (body : M A) (handler : JsError -> M A) :
  keeps_clock body -> (forall e, keeps_clock (handler e)) ->
  keeps_clock (try_catch body handler).
Proof.
  intros Hm Hk w. unfold try_catch. specialize (Hm w).
  destruct (body w) as [[a|e] w1]; simpl in *; [exact Hm|].
  rewrite (Hk e w1). exact Hm.
Qed.

Lemma clock_getRedisClient env : keeps_clock (getRedisClient env).
Proof. unfold getRedisClient. destruct (redisClient env); intros w; reflexivity. Qed.

Lemma clock_getDbPool env : keeps_clock (getDbPool env).
Proof. unfold getDbPool. destruct (dbPool env); intros w; reflexivity. Qed.

Lemma clock_getS3Client env : keeps_clock (getS3Client env).
Proof. unfold getS3Client. destruct (s3Client env); intros w; reflexivity. Qed.

Lemma clock_redis_get env up key : keeps_clock (Redis.get env up key).
Proof.
  intros w. unfold Redis.get. destruct up; [|reflexivity].
  destruct (redisStore w !! _) as [e|]; [|reflexivity]. destruct (Redis.live w e); reflexivity.
Qed.

Lemma clock_redis_setex env up key seconds value :
  keeps_clock (Redis.setex env up key seconds value).
Proof.
  intros w. unfold Redis.setex. destruct up; [|reflexivity].
  destruct (0 <? seconds); reflexivity.
Qed.

Lemma clock_redis_del env up keys : keeps_clock (Redis.del env up keys).
Proof. intros w. unfold Redis.del. destruct up; reflexivity. Qed.

Lemma clock_redis_keys env up pattern : keeps_clock (Redis.keys env up pattern).
Proof. intros w. unfold Redis.keys. destruct up; reflexivity. Qed.

Lemma clock_mem_get key : keeps_clock (NodeCache.get key).
Proof.
  intros w. unfold NodeCache.get.
  destruct (memoryCache w !! key) as [[v [expiry|]]|]; try reflexivity.
  destruct (expiry <? now w); reflexivity.
Qed.

Lemma clock_mem_set env key v : keeps_clock (NodeCache.set env key v).
Proof. intros w. reflexivity. Qed.

Lemma clock_mem_del key : keeps_clock (NodeCache.del key).
Proof. intros w. reflexivity. Qed.

Ltac clock_step :=
  first
    [ apply clock_ret | apply clock_throw | apply clock_lift
    | apply clock_getRedisClient | apply clock_getDbPool | apply clock_getS3Client
    | apply clock_redis_get | apply clock_redis_setex | apply clock_redis_del
    | apply clock_redis_keys | apply clock_mem_get | apply clock_mem_set | apply clock_mem_del
    | apply clock_try_catch | apply clock_bind
    | match goal with
      | |- forall _, _ => intro
      | |- keeps_clock (if ?b then _ else _) => destruct b
      | |- keeps_clock (match ?x with _ => _ end) => destruct x
      end ].

Ltac clock := repeat clock_step.

Lemma clock_getTenantFromHost env host :
  keeps_clock (TenantService.getTenantFromHost env host).
Proof. unfold TenantService.getTenantFromHost. clock. Qed.

Lemma clock_getThemeForTenant env tenantId :
  keeps_clock (ThemeService.getThemeForTenant env tenantId).
Proof.
  unfold ThemeService.getThemeForTenant, ThemeService.loadThemeFromStorage,
    ThemeService.fetchThemeTemplatesFromS3. clock.
Qed.

Lemma clock_getProductsFromService env tenantId options :
  keeps_clock (Microservices.getProductsFromService env tenantId options).
Proof. unfold Microservices.getProductsFromService. clock. Qed.

(** X15.  A product found through the products service is kept for 300
    seconds under its own key: the lookup returns the first product of
    the listing and, within that window, every lookup of the handle is
    answered from Redis with the JSON round trip of that product,
    whatever the products service then lists. *)
Theorem getProductByHandle_reuses_product
  (env : Env) (tenantId h : string) (result product : JsValue) (rest : list JsValue)
  (w : World) :
  redisClient env = Some true ->
  redis_hit env (ProductLookup.productKey tenantId h) w = false ->
  fst (Microservices.getProductsFromService env tenantId
         (JObj [("handle", JStr h); ("limit", JNum 1)]) w) = Ok result ->
  getProp result "products" = JArr (product :: rest) ->
  truthy product = true ->
  fst (ProductLookup.getProductByHandle env tenantId h w) = Ok product
  /\ forall (env' : Env) (t : Z),
       keyPrefix env' = keyPrefix env ->
       redisClient env' = Some true ->
       now w <= t < now w + 300 ->
       fst (ProductLookup.getProductByHandle env' tenantId h
              (at_time t (snd (ProductLookup.getProductByHandle env tenantId h w))))
       = Ok (json_roundtrip product).
Proof.
  intros Hr Hmiss Hlist Hprod Htruthy.
  destruct (redis_miss _ _ _ Hmiss) as (cached & Hget & Hfalsy).
  pose proof (clock_getProductsFromService env tenantId
                (JObj [("handle", JStr h); ("limit", JNum 1)]) w) as Hclock.
  destruct (Microservices.getProductsFromService env tenantId
              (JObj [("handle", JStr h); ("limit", JNum 1)]) w) as [r w1] eqn:Hcall.
  simpl in Hlist, Hclock. subst r.
  assert (member result "products" = Ok (JArr (product :: rest))) as Hmember.
  { destruct result; try discriminate Hprod. unfold member. rewrite Hprod. reflexivity. }
  assert (ProductLookup.getProductByHandle env tenantId h w
          = (Ok product,
             set_redisStore
               (insert (keyPrefix env +:+ ProductLookup.productKey tenantId h)
                       (json_text product, now w + 300)) w1)) as ->.
  { unfold ProductLookup.getProductByHandle, try_catch.
    unfold bind at 1. unfold getRedisClient. rewrite Hr. unfold ret at 1.
    unfold bind at 1. rewrite Hget, Hfalsy.
    unfold bind at 1. rewrite Hcall.
    unfold bind at 1. unfold lift at 1. rewrite Hmember.
    unfold bind at 1. unfold lift at 1. simpl Storefront.index0.
    unfold js_or. rewrite Htruthy. cbv iota. rewrite Htruthy.
    unfold bind, Redis.setex, ret. simpl. rewrite Hclock. reflexivity. }
  split; [reflexivity|].
  intros env' t Hk Hr' Ht. simpl snd.
  unfold ProductLookup.getProductByHandle, try_catch, bind, getRedisClient. rewrite Hr'.
  unfold ret at 1. unfold Redis.get, Redis.live. rewrite Hk. simpl.
  rewrite lookup_insert_eq. simpl.
  assert ((t <? now w + 300) = true) as -> by (apply Z.ltb_lt; lia).
  reflexivity.
Qed.

Lemma getProductByHandle_reuses_product_witness :
  fst (ProductLookup.getProductByHandle Scenario.null_env "t1" "blue-shirt"
         (at_time 299
            (snd (ProductLookup.getProductByHandle Sample.env "t1" "blue-shirt"
                    Sample.empty_world))))
  = Ok (json_roundtrip Sample.product_row).
Proof.
  destruct (getProductByHandle_reuses_product Sample.env "t1" "blue-shirt"
              (JObj [("products", JArr [Sample.product_row]); ("total", JNum 1)])
              Sample.product_row [] Sample.empty_world) as [_ Hlater].
  - reflexivity.
  - reflexivity.
  - reflexivity.
  - reflexivity.
  - reflexivity.
  - apply (Hlater Scenario.null_env 299).
    + reflexivity.
    + reflexivity.
    + simpl. lia.
Defined.

(** ** The storefront endpoint *)

Section HttpFacts.
Import Http.

Lemma setCacheHeaders_fresh : setCacheHeaders fresh_response = (cache_marked, None).
Proof. reflexivity. Qed.

Lemma set_spec name value res :
  sent res = None ->
  (exists e, set name value res = (res, Some e))
  \/ (value <> JUndefined
      /\ set name value res
         = (mkResponse (statusCode res)
              (setProp (Handleize.toLowerCase name) value (headers res)) None, None)).
Proof.
  intros Hs. unfold set, setHeader, headersSent. rewrite Hs.
  destruct value; try (destruct (forallb_string header_char_ok _));
    first [left; eexists; reflexivity | right; split; [discriminate | reflexivity]].
Qed.


Lemma errorHandler_unsent development e stack res :
  sent res = None ->
  errorHandler development e None stack res
  = (mkResponse 500 (headers res) (Some (SendJson (masked_error development stack))), None).
Proof.
  intros Hs. unfold errorHandler, headersSent. rewrite Hs.
  unfold andThen, status, json, deliver, headersSent. simpl. rewrite Hs. reflexivity.
Qed.

Lemma cache_headers_set key value status hs payload :
  key <> "cache-control" -> key <> "cdn-cache-control" -> key <> "vary" ->
  cache_headers (mkResponse status (setProp key value hs) payload)
  = [assoc "cache-control" hs; assoc "cdn-cache-control" hs; assoc "vary" hs].
Proof.
  intros H1 H2 H3. unfold cache_headers, getHeader.
  change (Handleize.toLowerCase "Cache-Control") with "cache-control".
  change (Handleize.toLowerCase "CDN-Cache-Control") with "cdn-cache-control".
  change (Handleize.toLowerCase "Vary") with "vary".
  cbn [headers].
  rewrite (assoc_setProp_ne "cache-control" key) by (intros E; apply H1; symmetry; exact E).
  rewrite (assoc_setProp_ne "cdn-cache-control" key) by (intros E; apply H2; symmetry; exact E).
  rewrite (assoc_setProp_ne "vary" key) by (intros E; apply H3; symmetry; exact E).
  reflexivity.
Qed.

Lemma respond_spec renderTime plan res res' err :
  sent res = None ->
  respond renderTime plan res = (res', err) ->
  cache_headers res' = cache_headers res
  /\ match err with
     | Some e => sent res' = None
     | None =>
         match plan with
         | StoreNotFound =>
             statusCode res' = 404 /\ sent res' = Some (SendText "Store not found")
         | ThemeNotConfigured =>
             statusCode res' = 500 /\ sent res' = Some (SendText "Theme not configured")
         | Page _ _ _ html =>
             statusCode res' = statusCode res /\ sent res' = Some (SendText html)
         end
     end.
Proof.
  intros Hs H. destruct plan as [| |tenant theme routeData html].
  - unfold respond, andThen, status, send, deliver, headersSent in H. simpl in H.
    rewrite Hs in H. injection H as <- <-. simpl. auto.
  - unfold respond, andThen, status, send, deliver, headersSent in H. simpl in H.
    rewrite Hs in H. injection H as <- <-. simpl. auto.
  - unfold respond in H.
    destruct (set_spec "X-Tenant-ID" (getProp tenant "tenant_id") res Hs)
      as [[e He] | [_ He]]; unfold andThen at 1 in H; rewrite He in H;
      [injection H as <- <-; auto|].
    match type of H with context [(_ >> _) ?r] => set (res1 := r) in H end.
    assert (cache_headers res1 = cache_headers res) as H1
        by (apply cache_headers_set; discriminate).
    destruct (set_spec "X-Render-Time" (JStr (pretty renderTime +:+ "ms")) res1 eq_refl)
      as [[e He1] | [_ He1]]; unfold andThen at 1 in H; rewrite He1 in H;
      [injection H as <- <-; auto|].
    match type of H with context [(_ >> _) ?r] => set (res2 := r) in H end.
    assert (cache_headers res2 = cache_headers res) as H2
        by (rewrite <- H1; apply cache_headers_set; discriminate).
    destruct (set_spec "X-Theme-Version" (getProp theme "version") res2 eq_refl)
      as [[e He2] | [_ He2]]; unfold andThen at 1 in H; rewrite He2 in H;
      [injection H as <- <-; auto|].
    match type of H with context [(_ >> _) ?r] => set (res3 := r) in H end.
    assert (cache_headers res3 = cache_headers res) as H3
        by (rewrite <- H2; apply cache_headers_set; discriminate).
    match type of H with context [set "Surrogate-Key" ?v] =>
      destruct (set_spec "Surrogate-Key" v res3 eq_refl)
        as [[e He3] | [_ He3]]; unfold andThen at 1 in H; rewrite He3 in H;
        [injection H as <- <-; auto|]
    end.
    match type of H with context [send _ ?r] => set (res4 := r) in H end.
    assert (cache_headers res4 = cache_headers res) as H4
        by (rewrite <- H3; apply cache_headers_set; discriminate).
    unfold send, deliver, headersSent in H. simpl in H. injection H as <- <-. auto.
Qed.

End HttpFacts.




Section StorefrontFacts.
Import Http.

Variable env : Env.
Variable liquid : Renderer.Liquid.
Variable resolveRoute : string -> string -> M Storefront.RouteData.
Variable development : bool.
Variable stack : JsError -> JsValue.
Variable renderTime : Z.

Lemma storefront_unfold host path query w :
  storefront env liquid resolveRoute development stack renderTime host path query w
  = match prepare env liquid resolveRoute host path query w with
    | (Ok plan, w') =>
        match respond renderTime plan cache_marked with
        | (res', None) => (res', w')
        | (res', Some e) => (fst (errorHandler development e None (stack e) res'), w')
        end
    | (Threw e, w') => (fst (errorHandler development e None (stack e) cache_marked), w')
    end.
Proof. reflexivity. Qed.

Lemma storefront_spec host path query w :
  cache_headers
    (fst (storefront env liquid resolveRoute development stack renderTime host path query w))
  = cache_headers cache_marked
  /\ match fst (prepare env liquid resolveRoute host path query w) with
     | Ok StoreNotFound =>
         fst (storefront env liquid resolveRoute development stack renderTime host path query w)
         = mkResponse 404 (headers cache_marked) (Some (SendText "Store not found"))
     | Ok ThemeNotConfigured =>
         fst (storefront env liquid resolveRoute development stack renderTime host path query w)
         = mkResponse 500 (headers cache_marked) (Some (SendText "Theme not configured"))
     | Ok (Page _ _ _ html) =>
         (statusCode
            (fst (storefront env liquid resolveRoute development stack renderTime
                    host path query w)) = 200
          /\ sent (fst (storefront env liquid resolveRoute development stack renderTime
                          host path query w)) = Some (SendText html))
         \/ (statusCode
               (fst (storefront env liquid resolveRoute development stack renderTime
                       host path query w)) = 500
             /\ exists e,
                 sent (fst (storefront env liquid resolveRoute development stack renderTime
                              host path query w))
                 = Some (SendJson (masked_error development (stack e))))
     | Threw e =>
         fst (storefront env liquid resolveRoute development stack renderTime host path query w)
         = mkResponse 500 (headers cache_marked)
             (Some (SendJson (masked_error development (stack e))))
     end.
Proof.
  rewrite storefront_unfold.
  destruct (prepare env liquid resolveRoute host path query w) as [[plan|e] w'].
  - destruct (respond renderTime plan cache_marked) as [res' err] eqn:Hrespond.
    destruct (respond_spec renderTime plan cache_marked res' err eq_refl Hrespond)
      as [Hcache Hshape].
    destruct err as [e|].
    + rewrite (errorHandler_unsent development e (stack e) res' Hshape). simpl fst.
      split; [exact Hcache|].
      destruct plan as [| |tenant theme routeData html].
      * unfold respond, andThen, status, send, deliver in Hrespond. discriminate Hrespond.
      * unfold respond, andThen, status, send, deliver in Hrespond. discriminate Hrespond.
      * right. split; [reflexivity | eauto].
    + simpl fst. split; [exact Hcache|].
      destruct plan as [| |tenant theme routeData html].
      * unfold respond, andThen, status, send, deliver in Hrespond.
        injection Hrespond as <-. reflexivity.
      * unfold respond, andThen, status, send, deliver in Hrespond.
        injection Hrespond as <-. reflexivity.
      * left. exact Hshape.
  - rewrite (errorHandler_unsent development e (stack e) cache_marked eq_refl).
    split; reflexivity.
Qed.

End StorefrontFacts.

Lemma cacheable_from_headers res :
  cache_headers res = cache_headers cache_marked -> publicly_cacheable res.
Proof. unfold cache_headers. intros [= H1 H2 H3]. repeat split; assumption. Qed.


(** X17.  Every reply of the storefront endpoint carries the headers of
    [setCacheHeaders], the error replies included: a 404 or a 500 is
    marked public and cacheable for an hour like a rendered page. *)
Theorem storefront_always_cacheable
  (env : Env) (liquid : Renderer.Liquid)
  (resolveRoute : string -> string -> M Storefront.RouteData)
  (development : bool) (stack : JsError -> JsValue) (renderTime : Z)
  (host path : string) (query : JsValue) (w : World) :
  publicly_cacheable
    (fst (Http.storefront env liquid resolveRoute development stack renderTime
            host path query w)).
Proof.
  apply cacheable_from_headers.
  apply (storefront_spec env liquid resolveRoute development stack renderTime
           host path query w).
Qed.

Lemma prepare_through_theme env liquid resolveRoute host path query w tenant theme w1 w2 :
  TenantService.getTenantFromHost env host w = (Ok tenant, w1) ->
  truthy tenant = true ->
  ThemeService.getThemeForTenant env (toString (getProp tenant "tenant_id")) w1
  = (Ok theme, w2) ->
  truthy theme = true ->
  Http.prepare env liquid resolveRoute host path query w
  = (let* routeData := resolveRoute path (toString (getProp tenant "tenant_id")) in
     let* html :=
       lift (Renderer.renderPage liquid theme routeData
               (Renderer.mkContext tenant path query)) in
     ret (Http.Page tenant theme routeData html)) w2.
Proof.
  intros Ht Htt Hth Hthh. unfold Http.prepare.
  unfold bind at 1. rewrite Ht, Htt. change (negb true) with false. cbv iota.
  unfold bind at 1. rewrite Hth, Hthh. reflexivity.
Qed.

(** X18.  A failure of route resolution is answered 500, not 404: once
    the tenant and its theme are resolved, whatever error the route
    resolver throws - "Product not found", "Collection not found",
    "Page not found" or a backend error - the reply is status 500 with
    the fixed body of [errorHandler], under the public cache headers. *)
Theorem storefront_route_failure_is_500
  (env : Env) (liquid : Renderer.Liquid)
  (resolveRoute : string -> string -> M Storefront.RouteData)
  (development : bool) (stack : JsError -> JsValue) (renderTime : Z)
  (host path : string) (query : JsValue) (w w1 w2 w3 : World)
  (tenant theme : JsValue) (e : JsError) :
  TenantService.getTenantFromHost env host w = (Ok tenant, w1) ->
  truthy tenant = true ->
  ThemeService.getThemeForTenant env (toString (getProp tenant "tenant_id")) w1
  = (Ok theme, w2) ->
  truthy theme = true ->
  resolveRoute path (toString (getProp tenant "tenant_id")) w2 = (Threw e, w3) ->
  Http.storefront env liquid resolveRoute development stack renderTime host path query w
  = (Http.mkResponse 500 (Http.headers cache_marked)
       (Some (Http.SendJson (masked_error development (stack e)))), w3).
Proof.
  intros Ht Htt Hth Hthh Hroute.
  rewrite storefront_unfold.
  rewrite (prepare_through_theme env liquid resolveRoute host path query w tenant theme w1 w2
             Ht Htt Hth Hthh).
  unfold bind at 1. rewrite Hroute.
  rewrite (errorHandler_unsent development e (stack e) cache_marked eq_refl). reflexivity.
Qed.

(** X18, at the sample shop: the page of a product the catalog does not
    have is answered 500 with the body [{error: 'Internal Server
    Error'}]. *)
Lemma storefront_route_failure_is_500_witness :
  fst (Http.storefront Sample.env Sample.liquid (Storefront.resolveRoute Sample.env)
         false Scenario.no_stack 12 "shop.example.com" "/products/red-hat" (JObj [])
         Sample.empty_world)
  = Http.mkResponse 500 (Http.headers cache_marked)
      (Some (Http.SendJson (JObj [("error", JStr "Internal Server Error")]))).
Proof.
  rewrite (storefront_route_failure_is_500 Sample.env Sample.liquid
             (Storefront.resolveRoute Sample.env) false Scenario.no_stack 12
             "shop.example.com" "/products/red-hat" (JObj []) Sample.empty_world
             (snd (TenantService.getTenantFromHost Sample.env "shop.example.com"
                     Sample.empty_world))
             (snd (ThemeService.getThemeForTenant Sample.env "t1"
                     (snd (TenantService.getTenantFromHost Sample.env "shop.example.com"
                             Sample.empty_world))))
             (snd (Storefront.resolveRoute Sample.env "/products/red-hat" "t1"
                     (snd (ThemeService.getThemeForTenant Sample.env "t1"
                             (snd (TenantService.getTenantFromHost Sample.env
                                     "shop.example.com" Sample.empty_world))))))
             Sample.tenant_row Sample.loaded_theme (Error "Product not found")).
  - reflexivity.
  - reflexivity.
  - reflexivity.
  - reflexivity.
  - reflexivity.
  - reflexivity.
Defined.



(** X20.  Without a working Redis connection the storefront endpoint
    answers every request, for every host and path, with status 500 and
    the fixed body of [errorHandler], and touches nothing: the registry
    is not asked although it could resolve the tenant. *)
Theorem storefront_redis_outage
  (env : Env) (liquid : Renderer.Liquid)
  (resolveRoute : string -> string -> M Storefront.RouteData)
  (development : bool) (stack : JsError -> JsValue) (renderTime : Z)
  (host path : string) (query : JsValue) (w : World) :
  redisClient env <> Some true ->
  exists e,
    Http.storefront env liquid resolveRoute development stack renderTime host path query w
    = (Http.mkResponse 500 (Http.headers cache_marked)
         (Some (Http.SendJson (masked_error development (stack e)))), w).
Proof.
  intros Hr.
  assert (exists e, TenantService.getTenantFromHost env host w = (Threw e, w)) as [e He].
  { unfold TenantService.getTenantFromHost, bind, getRedisClient.
    destruct (redisClient env) as [[|]|]; [congruence | eauto | eauto]. }
  exists e. rewrite storefront_unfold. unfold Http.prepare, bind. rewrite He.
  rewrite (errorHandler_unsent development e (stack e) cache_marked eq_refl). reflexivity.
Qed.

Lemma storefront_redis_outage_witness :
  exists e,
    Http.storefront Scenario.redis_down_env Sample.liquid
      (Storefront.resolveRoute Scenario.redis_down_env) false Scenario.no_stack 3
      "shop.example.com" "/" (JObj []) Sample.empty_world
    = (Http.mkResponse 500 (Http.headers cache_marked)
         (Some (Http.SendJson (masked_error false (Scenario.no_stack e)))),
       Sample.empty_world).
Proof.
  apply (storefront_redis_outage Scenario.redis_down_env Sample.liquid
           (Storefront.resolveRoute Scenario.redis_down_env) false Scenario.no_stack 3
           "shop.example.com" "/" (JObj []) Sample.empty_world).
  discriminate.
Defined.
